(** * ADF4377 driver: a shallow embedding of adf4377.c

    The driver talks to the chip through three-byte SPI transfers and to
    the board through GPIO lines.  Every platform call the driver makes is
    recorded, with the status it returned, in a call log; the platform
    itself is an oracle that answers a call from the history so far.

    adf4377.h is not part of the sources.  Its macros and the widths of
    the members of [struct adf4377_dev] are therefore parameters of the
    model (record [Header]); statements are proved for every header. *)

From Stdlib Require Import ZArith List Bool Lia Permutation.
Import ListNotations.
Local Open Scope Z_scope.

(** ** Machine integers *)

(** An unsigned [w]-bit object keeps the low [w] bits of what is stored. *)
Definition wrap (w x : Z) : Z := x mod 2 ^ w.

Definition u8 (x : Z) : Z := wrap 8 x.
Definition u16 (x : Z) : Z := wrap 16 x.
Definition u32 (x : Z) : Z := wrap 32 x.

(** Width in which C evaluates an expression over a [w]-bit unsigned
    operand and an [int]. *)
Definition arith_bits (w : Z) : Z := Z.max 32 w.

(** Modelled from the spec: [bit_swap_constant_8] comes from the platform
    utility header, which is absent; the spec says each byte is
    bit-reversed.  Written as the usual mask-and-shift macro. *)
Definition bit_swap_constant_8 (x : Z) : Z :=
  Z.lor (Z.shiftr (Z.land x 0x80) 7)
 (Z.lor (Z.shiftr (Z.land x 0x40) 5)
 (Z.lor (Z.shiftr (Z.land x 0x20) 3)
 (Z.lor (Z.shiftr (Z.land x 0x10) 1)
 (Z.lor (Z.shiftl (Z.land x 0x08) 1)
 (Z.lor (Z.shiftl (Z.land x 0x04) 3)
 (Z.lor (Z.shiftl (Z.land x 0x02) 5)
        (Z.shiftl (Z.land x 0x01) 7))))))).

(** Modelled from the spec: [DIV_ROUND_UP] comes from the platform utility
    header, which is absent; the spec calls it ceiling division.  Written
    as the usual [(x + y - 1) / y] macro, evaluated in [uint32_t]; [None]
    when the divisor is zero. *)
Definition DIV_ROUND_UP (x y : Z) : option Z :=
  if u32 y =? 0 then None else Some (u32 (x + y - 1) / u32 y).

(** Modelled from the spec: [ADF4377_CHECK_RANGE(freq, range)] is absent;
    the spec validates a frequency against the legal range
    [[MIN_range, MAX_range]].  True when [freq] is outside. *)
Definition ADF4377_CHECK_RANGE (freq max_range min_range : Z) : bool :=
  (max_range <? freq) || (freq <? min_range).

(** ** The header *)

(** Object-like macros of adf4377.h, error.h and gpio.h used by adf4377.c. *)
Inductive cmacro : Set :=
| SUCCESS | FAILURE | ENOMEM | GPIO_HIGH
| ADF4377_SPI_WRITE_CMD | ADF4377_SPI_READ_CMD | ADF4377_SPI_DUMMY_DATA
| ADF4377_SPI_SCRATCHPAD | ADF4377_CHIP_TYPE
| ADF4377_R00F_RSV1 | ADF4377_R01C_RSV1_MSK | ADF4377_R01F_RSV1_MSK
| ADF4377_R020_RSV1_MSK | ADF4377_R021_RSV1 | ADF4377_R022_RSV1
| ADF4377_R023_RSV1 | ADF4377_R025_RSV1_MSK | ADF4377_R02C_RSV1
| ADF4377_R031_RSV1 | ADF4377_R032_RSV1_MSK | ADF4377_R033_RSV1
| ADF4377_R034_RSV1 | ADF4377_R03A_RSV1 | ADF4377_R03B_RSV1
| ADF4377_R042_RSV1
| ADF4377_SOFT_RESET_MSK | ADF4377_SOFT_RESET_R_MSK | ADF4377_SOFT_RESET_EN
| ADF4377_ADDR_ASC_AUTO_DECR
| ADF4377_CP_I_MSK
| ADF4377_MAX_FREQ_PFD | ADF4377_MIN_FREQ_PFD
| ADF4377_MAX_CLKPN_FREQ | ADF4377_MIN_CLKPN_FREQ | ADF4377_MIN_VCO_FREQ
| ADF4377_FREQ_PFD_80MHZ | ADF4377_FREQ_PFD_125MHZ | ADF4377_FREQ_PFD_160MHZ
| ADF4377_FREQ_PFD_250MHZ | ADF4377_FREQ_PFD_320MHZ
| ADF4377_DCLK_DIV1_1 | ADF4377_DCLK_DIV1_2
| ADF4377_DCLK_DIV2_1 | ADF4377_DCLK_DIV2_2
| ADF4377_DCLK_MODE_DIS | ADF4377_DCLK_MODE_EN
| ADF4377_EN_DNCLK_MSK | ADF4377_EN_DRCLK_MSK
| ADF4377_EN_DNCLK_ON | ADF4377_EN_DRCLK_ON
| ADF4377_EN_DNCLK_OFF | ADF4377_EN_DRCLK_OFF
| ADF4377_EN_AUTOCAL_MSK | ADF4377_DCLK_DIV2_MSK | ADF4377_VCO_CALIB_EN
| ADF4377_EN_ADC_CNV_MSK | ADF4377_EN_ADC_MSK | ADF4377_ADC_A_CONV_MSK
| ADF4377_EN_ADC_CNV_EN | ADF4377_EN_ADC_EN | ADF4377_ADC_A_CONV_VCO_CALIB
| ADF4377_EN_ADC_CLK_MSK | ADF4377_EN_ADC_CLK_EN | ADF4377_EN_ADC_CLK_DIS
| ADF4377_DCLK_DIV1_MSK | ADF4377_DCLK_MODE_MSK
| ADF4377_SYNTH_LOCK_TO_MSB_MSK | ADF4377_VCO_ALC_TO_MSB_MSK
| ADF4377_PD_ALL_N_OP | ADF4377_PD_RDIV_N_OP | ADF4377_PD_NDIV_N_OP
| ADF4377_PD_VCO_N_OP | ADF4377_PD_LD_N_OP | ADF4377_PD_PFDCP_N_OP
| ADF4377_PD_CLKOUT1_N_OP | ADF4377_PD_CLKOUT2_N_OP
| ADF4377_EN_RDBLR_MSK | ADF4377_N_INT_MSB_MSK
| ADF4377_R_DIV_MSK | ADF4377_CLKOUT_DIV_MSK
| ADF4377_CLKOUT2_OP_MSK | ADF4377_CLKOUT1_OP_MSK.

(** Function-like macros of adf4377.h used by adf4377.c. *)
Inductive fmacro : Set :=
| ADF4377_REG
| ADF4377_R01C_RSV1 | ADF4377_R01F_RSV1 | ADF4377_R020_RSV1
| ADF4377_R025_RSV1 | ADF4377_R032_RSV1
| ADF4377_SOFT_RESET | ADF4377_SOFT_RESET_R
| ADF4377_LSB_FIRST | ADF4377_LSB_FIRST_R
| ADF4377_SDO_ACTIVE | ADF4377_SDO_ACTIVE_R
| ADF4377_ADDRESS_ASC | ADF4377_ADDRESS_ASC_R
| ADF4377_CP_I
| ADF4377_EN_DNCLK | ADF4377_EN_DRCLK
| ADF4377_EN_AUTOCAL | ADF4377_DCLK_DIV2
| ADF4377_EN_ADC_CNV | ADF4377_EN_ADC | ADF4377_ADC_A_CONV
| ADF4377_EN_ADC_CLK
| ADF4377_DCLK_DIV1 | ADF4377_DCLK_MODE
| ADF4377_SYNTH_LOCK_TO_LSB | ADF4377_SYNTH_LOCK_TO_MSB
| ADF4377_VCO_ALC_TO_LSB | ADF4377_VCO_ALC_TO_MSB
| ADF4377_VCO_BAND_DIV | ADF4377_ADC_CLK_DIV
| ADF4377_PD_ALL | ADF4377_PD_RDIV | ADF4377_PD_NDIV | ADF4377_PD_VCO
| ADF4377_PD_LD | ADF4377_PD_PFDCP | ADF4377_PD_CLKOUT1 | ADF4377_PD_CLKOUT2
| ADF4377_EN_RDBLR | ADF4377_N_INT_MSB | ADF4377_N_INT_LSB
| ADF4377_CLKOUT_DIV | ADF4377_R_DIV
| ADF4377_CLKOUT1_OP | ADF4377_CLKOUT2_OP.

(** What adf4377.h declares: the value of each object-like macro, the
    expansion of each function-like macro, and the width in bits of the
    unsigned members of [struct adf4377_dev] the solvers assign. *)
Record Header : Type := {
  cst : cmacro -> Z;
  fld : fmacro -> Z -> Z;
  bits_clkin_freq : Z;
  bits_f_pfd : Z;
  bits_f_clk : Z;
  bits_f_vco : Z;
  bits_n_int : Z;
  bits_ref_div_factor : Z;
  bits_clkout_div_sel : Z
}.

(** ** Device handle *)

(** The SPI descriptor: the driver only looks at its bit order. *)
Record spi_desc_t : Type := { bit_order : Z }.

Record adf4377_dev : Type := {
  spi_desc : spi_desc_t;
  gpio_ce : option Z;
  gpio_enclk1 : option Z;
  gpio_enclk2 : option Z;
  spi3wire : Z;
  clkin_freq : Z;
  cp_i : Z;
  muxout_default : Z;
  ref_doubler_en : Z;
  f_pfd : Z;
  f_clk : Z;
  f_vco : Z;
  n_int : Z;
  clkout_op : Z;
  ref_div_factor : Z;
  clkout_div_sel : Z
}.

Definition set_spi_desc (v : spi_desc_t) (d : adf4377_dev) : adf4377_dev :=
  {| spi_desc := v; gpio_ce := gpio_ce d; gpio_enclk1 := gpio_enclk1 d;
     gpio_enclk2 := gpio_enclk2 d; spi3wire := spi3wire d;
     clkin_freq := clkin_freq d; cp_i := cp_i d;
     muxout_default := muxout_default d; ref_doubler_en := ref_doubler_en d;
     f_pfd := f_pfd d; f_clk := f_clk d; f_vco := f_vco d; n_int := n_int d;
     clkout_op := clkout_op d; ref_div_factor := ref_div_factor d;
     clkout_div_sel := clkout_div_sel d |}.

Definition set_gpio_ce (v : option Z) (d : adf4377_dev) : adf4377_dev :=
  {| spi_desc := spi_desc d; gpio_ce := v; gpio_enclk1 := gpio_enclk1 d;
     gpio_enclk2 := gpio_enclk2 d; spi3wire := spi3wire d;
     clkin_freq := clkin_freq d; cp_i := cp_i d;
     muxout_default := muxout_default d; ref_doubler_en := ref_doubler_en d;
     f_pfd := f_pfd d; f_clk := f_clk d; f_vco := f_vco d; n_int := n_int d;
     clkout_op := clkout_op d; ref_div_factor := ref_div_factor d;
     clkout_div_sel := clkout_div_sel d |}.

Definition set_gpio_enclk1 (v : option Z) (d : adf4377_dev) : adf4377_dev :=
  {| spi_desc := spi_desc d; gpio_ce := gpio_ce d; gpio_enclk1 := v;
     gpio_enclk2 := gpio_enclk2 d; spi3wire := spi3wire d;
     clkin_freq := clkin_freq d; cp_i := cp_i d;
     muxout_default := muxout_default d; ref_doubler_en := ref_doubler_en d;
     f_pfd := f_pfd d; f_clk := f_clk d; f_vco := f_vco d; n_int := n_int d;
     clkout_op := clkout_op d; ref_div_factor := ref_div_factor d;
     clkout_div_sel := clkout_div_sel d |}.

Definition set_gpio_enclk2 (v : option Z) (d : adf4377_dev) : adf4377_dev :=
  {| spi_desc := spi_desc d; gpio_ce := gpio_ce d; gpio_enclk1 := gpio_enclk1 d;
     gpio_enclk2 := v; spi3wire := spi3wire d;
     clkin_freq := clkin_freq d; cp_i := cp_i d;
     muxout_default := muxout_default d; ref_doubler_en := ref_doubler_en d;
     f_pfd := f_pfd d; f_clk := f_clk d; f_vco := f_vco d; n_int := n_int d;
     clkout_op := clkout_op d; ref_div_factor := ref_div_factor d;
     clkout_div_sel := clkout_div_sel d |}.

Definition set_f_pfd (v : Z) (d : adf4377_dev) : adf4377_dev :=
  {| spi_desc := spi_desc d; gpio_ce := gpio_ce d; gpio_enclk1 := gpio_enclk1 d;
     gpio_enclk2 := gpio_enclk2 d; spi3wire := spi3wire d;
     clkin_freq := clkin_freq d; cp_i := cp_i d;
     muxout_default := muxout_default d; ref_doubler_en := ref_doubler_en d;
     f_pfd := v; f_clk := f_clk d; f_vco := f_vco d; n_int := n_int d;
     clkout_op := clkout_op d; ref_div_factor := ref_div_factor d;
     clkout_div_sel := clkout_div_sel d |}.

Definition set_f_vco (v : Z) (d : adf4377_dev) : adf4377_dev :=
  {| spi_desc := spi_desc d; gpio_ce := gpio_ce d; gpio_enclk1 := gpio_enclk1 d;
     gpio_enclk2 := gpio_enclk2 d; spi3wire := spi3wire d;
     clkin_freq := clkin_freq d; cp_i := cp_i d;
     muxout_default := muxout_default d; ref_doubler_en := ref_doubler_en d;
     f_pfd := f_pfd d; f_clk := f_clk d; f_vco := v; n_int := n_int d;
     clkout_op := clkout_op d; ref_div_factor := ref_div_factor d;
     clkout_div_sel := clkout_div_sel d |}.

Definition set_n_int (v : Z) (d : adf4377_dev) : adf4377_dev :=
  {| spi_desc := spi_desc d; gpio_ce := gpio_ce d; gpio_enclk1 := gpio_enclk1 d;
     gpio_enclk2 := gpio_enclk2 d; spi3wire := spi3wire d;
     clkin_freq := clkin_freq d; cp_i := cp_i d;
     muxout_default := muxout_default d; ref_doubler_en := ref_doubler_en d;
     f_pfd := f_pfd d; f_clk := f_clk d; f_vco := f_vco d; n_int := v;
     clkout_op := clkout_op d; ref_div_factor := ref_div_factor d;
     clkout_div_sel := clkout_div_sel d |}.

Definition set_ref_div_factor (v : Z) (d : adf4377_dev) : adf4377_dev :=
  {| spi_desc := spi_desc d; gpio_ce := gpio_ce d; gpio_enclk1 := gpio_enclk1 d;
     gpio_enclk2 := gpio_enclk2 d; spi3wire := spi3wire d;
     clkin_freq := clkin_freq d; cp_i := cp_i d;
     muxout_default := muxout_default d; ref_doubler_en := ref_doubler_en d;
     f_pfd := f_pfd d; f_clk := f_clk d; f_vco := f_vco d; n_int := n_int d;
     clkout_op := clkout_op d; ref_div_factor := v;
     clkout_div_sel := clkout_div_sel d |}.

Definition set_clkout_div_sel (v : Z) (d : adf4377_dev) : adf4377_dev :=
  {| spi_desc := spi_desc d; gpio_ce := gpio_ce d; gpio_enclk1 := gpio_enclk1 d;
     gpio_enclk2 := gpio_enclk2 d; spi3wire := spi3wire d;
     clkin_freq := clkin_freq d; cp_i := cp_i d;
     muxout_default := muxout_default d; ref_doubler_en := ref_doubler_en d;
     f_pfd := f_pfd d; f_clk := f_clk d; f_vco := f_vco d; n_int := n_int d;
     clkout_op := clkout_op d; ref_div_factor := ref_div_factor d;
     clkout_div_sel := v |}.

(** ** Platform calls and the call log *)

(** [uint8_t buff[3]]: one SPI transaction. *)
Record frame : Type := Frame { b0 : Z; b1 : Z; b2 : Z }.

Definition frame_map (f : Z -> Z) (b : frame) : frame :=
  Frame (f (b0 b)) (f (b1 b)) (f (b2 b)).

Inductive gpio_line : Set := GPIO_CE | GPIO_ENCLK1 | GPIO_ENCLK2.

(** The calls adf4377.c makes into the platform. *)
Inductive call : Type :=
| Calloc
| Free
| GpioGetOptional (g : gpio_line)
| GpioDirectionOutput (g : gpio_line) (level : Z)
| GpioRemove (g : gpio_line)
| SpiInit
| SpiRemove
| SpiWriteAndRead (tx : frame)
| Mdelay (ms : Z).

(** A log entry: the call and the status it returned (0 for a call that
    returns nothing).  The log is kept newest first. *)
Definition entry : Type := (call * Z)%type.

(** The platform answers a call from the history of earlier calls.  For
    [Calloc] the status is the pointer, zero meaning NULL. *)
Record platform : Type := {
  call_ret : list entry -> call -> Z;
  xfer_rx : list entry -> frame -> frame
}.

Record world : Type := World { dev : adf4377_dev; log : list entry }.

(** ** The monad of driver code *)

Inductive outcome (A : Type) : Type :=
| Done (a : A)
| Spin
| Fault.
Arguments Done {A} a.
Arguments Spin {A}.
Arguments Fault {A}.

Definition M (A : Type) : Type := world -> outcome A * world.

Definition Return {A : Type} (a : A) : M A := fun w => (Done a, w).

Definition bind {A B : Type} (m : M A) (k : A -> M B) : M B :=
  fun w =>
    match m w with
    | (Done a, w') => k a w'
    | (Spin, w') => (Spin, w')
    | (Fault, w') => (Fault, w')
    end.

(** Out of fuel inside a loop. *)
Definition spin {A : Type} : M A := fun w => (Spin, w).

(** Undefined behaviour. *)
Definition fault {A : Type} : M A := fun w => (Fault, w).

Definition get_dev : M adf4377_dev := fun w => (Done (dev w), w).

Definition modify_dev (f : adf4377_dev -> adf4377_dev) : M unit :=
  fun w => (Done tt, World (f (dev w)) (log w)).

Declare Scope drv_scope.
Delimit Scope drv_scope with drv.
Notation "x <- m ;; k" := (bind m (fun x => k))
  (at level 61, m at next level, right associativity) : drv_scope.
Notation "' pat <- m ;; k" := (bind m (fun x => match x with pat => k end))
  (at level 61, pat pattern, m at next level, right associativity) : drv_scope.
Notation "m ;; k" := (bind m (fun _ => k))
  (at level 61, right associativity) : drv_scope.
Local Open Scope drv_scope.

(** ** Initialisation parameters *)

Module init_param.

Record spi_init_param : Type := { bit_order : Z }.

(** [struct adf4377_init_param], as far as [adf4377_init] reads it.  A GPIO
    parameter is [None] for a NULL pointer. *)
Record t : Type := {
  spi_init : spi_init_param;
  gpio_ce_param : option Z;
  gpio_enclk1_param : option Z;
  gpio_enclk2_param : option Z;
  spi3wire : Z;
  clkin_freq : Z;
  cp_i : Z;
  muxout_select : Z;
  ref_doubler_en : Z;
  f_clk : Z;
  clkout_op : Z
}.

End init_param.

(** The object [calloc] returns: every member zero, every pointer NULL. *)
Definition zero_dev : adf4377_dev :=
  {| spi_desc := {| bit_order := 0 |}; gpio_ce := None; gpio_enclk1 := None;
     gpio_enclk2 := None; spi3wire := 0; clkin_freq := 0; cp_i := 0;
     muxout_default := 0; ref_doubler_en := 0; f_pfd := 0; f_clk := 0;
     f_vco := 0; n_int := 0; clkout_op := 0; ref_div_factor := 0;
     clkout_div_sel := 0 |}.

Section Driver.

Context (h : Header) (P : platform).

#[local] Abbreviation C := (cst h).
#[local] Abbreviation F := (fld h).

(** [ret = m; if (ret != SUCCESS) return ret; k] *)
#[local] Notation "'check' m ;; k" :=
  (bind m (fun ret => if negb (ret =? cst h SUCCESS) then Return ret else k))
  (at level 61, m at next level, right associativity) : drv_scope.

(** A platform call: ask the oracle, log the call with its status. *)
Definition platform_call (c : call) : M Z :=
  fun w =>
    let r := call_ret P (log w) c in
    (Done r, World (dev w) ((c, r) :: log w)).

(** [spi_write_and_read(desc, buff, 3)]: full-duplex transfer that
    overwrites [buff] with the received bytes. *)
Definition spi_write_and_read (buff : frame) : M (Z * frame) :=
  fun w =>
    let r := call_ret P (log w) (SpiWriteAndRead buff) in
    let rx := frame_map u8 (xfer_rx P (log w) buff) in
    (Done (r, rx), World (dev w) ((SpiWriteAndRead buff, r) :: log w)).

(** *** Register access *)

(** The buffer [adf4377_spi_write] hands to the bus. *)
Definition spi_write_buff (order reg_addr data : Z) : frame :=
  if negb (order =? 0) then
    Frame (bit_swap_constant_8 (u8 reg_addr))
          (bit_swap_constant_8 (u8 (C ADF4377_SPI_WRITE_CMD)))
          (bit_swap_constant_8 (u8 data))
  else
    Frame (u8 (C ADF4377_SPI_WRITE_CMD)) (u8 reg_addr) (u8 data).

(** The buffer [adf4377_spi_read] hands to the bus. *)
Definition spi_read_buff (order reg_addr : Z) : frame :=
  if negb (order =? 0) then
    Frame (bit_swap_constant_8 (u8 reg_addr))
          (bit_swap_constant_8 (u8 (C ADF4377_SPI_READ_CMD)))
          (bit_swap_constant_8 (u8 (C ADF4377_SPI_DUMMY_DATA)))
  else
    Frame (u8 (C ADF4377_SPI_READ_CMD)) (u8 reg_addr)
          (u8 (C ADF4377_SPI_DUMMY_DATA)).

Definition adf4377_spi_write (reg_addr data : Z) : M Z :=
  d <- get_dev ;;
  let buff := spi_write_buff (bit_order (spi_desc d)) reg_addr data in
  '(ret, _) <- spi_write_and_read buff ;;
  Return ret.

(** [data] is the object the caller's pointer designates, [None] while it
    is uninitialised.  The second component of the result is that object
    after the call. *)
Definition adf4377_spi_read (reg_addr : Z) (data : option Z)
  : M (Z * option Z) :=
  d <- get_dev ;;
  let buff := spi_read_buff (bit_order (spi_desc d)) reg_addr in
  '(ret, buff) <- spi_write_and_read buff ;;
  if negb (ret =? C SUCCESS) then Return (ret, data)
  else Return (ret, Some (b2 buff)).

Definition adf4377_update (reg_addr mask data : Z) : M Z :=
  '(ret, read_val) <- adf4377_spi_read reg_addr None ;;
  if negb (ret =? C SUCCESS) then Return ret
  else
    match read_val with
    | None => fault
    | Some read_val =>
      let read_val := u8 (Z.land read_val (Z.lnot (u8 mask))) in
      let read_val := u8 (Z.lor read_val (u8 data)) in
      adf4377_spi_write reg_addr read_val
    end.

Definition adf4377_check_scratchpad : M Z :=
  check adf4377_spi_write (F ADF4377_REG 0x0A) (C ADF4377_SPI_SCRATCHPAD) ;;
  '(ret, scratchpad) <- adf4377_spi_read (F ADF4377_REG 0x0A) None ;;
  if negb (ret =? C SUCCESS) then Return ret
  else
    match scratchpad with
    | None => fault
    | Some scratchpad =>
      if negb (scratchpad =? C ADF4377_SPI_SCRATCHPAD) then Return (C FAILURE)
      else Return (C SUCCESS)
    end.

Definition adf4377_set_default : M Z :=
  check adf4377_spi_write (F ADF4377_REG 0x0f) (C ADF4377_R00F_RSV1) ;;
  check adf4377_update (F ADF4377_REG 0x1c) (C ADF4377_R01C_RSV1_MSK)
                       (F ADF4377_R01C_RSV1 0x1) ;;
  check adf4377_update (F ADF4377_REG 0x1f) (C ADF4377_R01F_RSV1_MSK)
                       (F ADF4377_R01F_RSV1 0x7) ;;
  check adf4377_update (F ADF4377_REG 0x20) (C ADF4377_R020_RSV1_MSK)
                       (F ADF4377_R020_RSV1 0x1) ;;
  check adf4377_spi_write (F ADF4377_REG 0x21) (C ADF4377_R021_RSV1) ;;
  check adf4377_spi_write (F ADF4377_REG 0x22) (C ADF4377_R022_RSV1) ;;
  check adf4377_spi_write (F ADF4377_REG 0x23) (C ADF4377_R023_RSV1) ;;
  check adf4377_update (F ADF4377_REG 0x25) (C ADF4377_R025_RSV1_MSK)
                       (F ADF4377_R025_RSV1 0xB) ;;
  check adf4377_spi_write (F ADF4377_REG 0x2C) (C ADF4377_R02C_RSV1) ;;
  check adf4377_spi_write (F ADF4377_REG 0x31) (C ADF4377_R031_RSV1) ;;
  check adf4377_update (F ADF4377_REG 0x32) (C ADF4377_R032_RSV1_MSK)
                       (F ADF4377_R032_RSV1 0x9) ;;
  check adf4377_spi_write (F ADF4377_REG 0x33) (C ADF4377_R033_RSV1) ;;
  check adf4377_spi_write (F ADF4377_REG 0x34) (C ADF4377_R034_RSV1) ;;
  check adf4377_spi_write (F ADF4377_REG 0x3A) (C ADF4377_R03A_RSV1) ;;
  check adf4377_spi_write (F ADF4377_REG 0x3B) (C ADF4377_R03B_RSV1) ;;
  adf4377_spi_write (F ADF4377_REG 0x42) (C ADF4377_R042_RSV1).

(** *** Software reset *)

(** The [while (timeout)] loop.  Nothing in the body assigns [timeout], so
    it is passed on as it is; [fuel] bounds the iterations the model
    follows. *)
Fixpoint soft_reset_poll (fuel : nat) (timeout : Z) (data : option Z) : M Z :=
  if negb (timeout =? 0) then
    match fuel with
    | O => spin
    | S fuel =>
      '(ret, data) <- adf4377_spi_read (F ADF4377_REG 0x00) data ;;
      if negb (ret =? C SUCCESS) then Return ret
      else
        match data with
        | None => fault
        | Some d =>
          if Z.land d (F ADF4377_SOFT_RESET (C ADF4377_SOFT_RESET_EN)) =? 0
          then Return (C SUCCESS)
          else soft_reset_poll fuel timeout data
        end
    end
  else Return (C FAILURE).

Definition adf4377_soft_reset (fuel : nat) : M Z :=
  let timeout := u16 0xFFFF in
  check adf4377_update (F ADF4377_REG 0x00)
          (Z.lor (C ADF4377_SOFT_RESET_MSK) (C ADF4377_SOFT_RESET_R_MSK))
          (Z.lor (F ADF4377_SOFT_RESET (C ADF4377_SOFT_RESET_EN))
                 (F ADF4377_SOFT_RESET_R (C ADF4377_SOFT_RESET_EN))) ;;
  soft_reset_poll fuel timeout None.

(** *** Output frequency *)

(** [while (dev->f_vco < ADF4377_MIN_VCO_FREQ)] *)
Fixpoint vco_loop (fuel : nat) : M unit :=
  d <- get_dev ;;
  if f_vco d <? C ADF4377_MIN_VCO_FREQ then
    match fuel with
    | O => spin
    | S fuel =>
      modify_dev (fun d =>
        set_f_vco (wrap (bits_f_vco h) (Z.shiftl (f_vco d) 1)) d) ;;
      modify_dev (fun d =>
        set_clkout_div_sel
          (wrap (bits_clkout_div_sel h) (clkout_div_sel d + 1)) d) ;;
      vco_loop fuel
    end
  else Return tt.

(** The solver part of [adf4377_set_freq]: from "dev->f_vco = dev->f_clk"
    to "dev->n_int = ...". *)
Definition vco_solve (fuel : nat) : M unit :=
  modify_dev (fun d => set_f_vco (wrap (bits_f_vco h) (f_clk d)) d) ;;
  vco_loop fuel ;;
  d <- get_dev ;;
  if f_pfd d =? 0 then fault
  else modify_dev (set_n_int (wrap (bits_n_int h) (f_clk d / f_pfd d))).

(** The register writes of [adf4377_set_freq] and the delay after them. *)
Definition program_freq : M Z :=
  d <- get_dev ;;
  check adf4377_update (F ADF4377_REG 0x11)
          (Z.lor (C ADF4377_EN_RDBLR_MSK) (C ADF4377_N_INT_MSB_MSK))
          (Z.lor (F ADF4377_EN_RDBLR (ref_doubler_en d))
                 (F ADF4377_N_INT_MSB (Z.shiftr (n_int d) 8))) ;;
  check adf4377_update (F ADF4377_REG 0x12)
          (Z.lor (C ADF4377_R_DIV_MSK) (C ADF4377_CLKOUT_DIV_MSK))
          (Z.lor (F ADF4377_CLKOUT_DIV (clkout_div_sel d))
                 (F ADF4377_R_DIV (ref_div_factor d))) ;;
  ret <- adf4377_spi_write (F ADF4377_REG 0x10)
           (F ADF4377_N_INT_LSB (n_int d)) ;;
  if negb (ret =? C SUCCESS) then Return ret
  else
    platform_call (Mdelay 100) ;;
    Return ret.

Definition adf4377_set_freq (fuel : nat) : M Z :=
  modify_dev (set_clkout_div_sel 0) ;;
  d <- get_dev ;;
  if ADF4377_CHECK_RANGE (f_clk d) (C ADF4377_MAX_CLKPN_FREQ)
                         (C ADF4377_MIN_CLKPN_FREQ)
  then Return (C FAILURE)
  else
    vco_solve fuel ;;
    program_freq.

(** *** Reference divider and PFD frequency *)

(** [do { ... } while (dev->f_pfd > ADF4377_MAX_FREQ_PFD)] *)
Fixpoint pfd_loop (fuel : nat) : M unit :=
  match fuel with
  | O => spin
  | S fuel =>
    modify_dev (fun d =>
      set_ref_div_factor
        (wrap (bits_ref_div_factor h) (ref_div_factor d + 1)) d) ;;
    d <- get_dev ;;
    if ref_div_factor d =? 0 then fault
    else
      modify_dev
        (set_f_pfd (wrap (bits_f_pfd h) (clkin_freq d / ref_div_factor d))) ;;
      d <- get_dev ;;
      if C ADF4377_MAX_FREQ_PFD <? f_pfd d then pfd_loop fuel
      else Return tt
  end.

(** The block under the comment "Compute PFD" in [adf4377_setup]. *)
Definition compute_pfd (fuel : nat) : M unit :=
  d <- get_dev ;;
  if ref_doubler_en d =? 0 then pfd_loop fuel
  else
    modify_dev
      (set_f_pfd
         (wrap (bits_f_pfd h)
            (wrap (arith_bits (bits_clkin_freq h))
               (clkin_freq d * (1 + ref_doubler_en d))))).

(** *** Calibration clocks *)

(** The locals of [adf4377_setup] the calibration block assigns. *)
Record calib : Type := {
  dclk_div1 : Z;
  dclk_div2 : Z;
  dclk_mode : Z;
  f_div_rclk : Z;
  synth_lock_timeout : Z;
  vco_alc_timeout : Z;
  vco_band_div : Z;
  adc_clk_div : Z
}.

(** [150000 * 16 * (1 << dclk_mode)], an [int] expression: [None] when the
    shift or the product leaves the range of [int]. *)
Definition band_divisor (dclk_mode : Z) : option Z :=
  let y := 150000 * 16 * Z.shiftl 1 dclk_mode in
  if (dclk_mode <? 31) && (y <? 2 ^ 31) then Some y else None.

(** The divide chain chosen from [f_pfd]: the [if]/[else if] cascade. *)
Definition dclk_select (f_pfd : Z) : Z * Z * Z * Z :=
  let f_div_rclk := u32 f_pfd in
  if f_pfd <=? C ADF4377_FREQ_PFD_80MHZ then
    (C ADF4377_DCLK_DIV1_1, C ADF4377_DCLK_DIV2_1, C ADF4377_DCLK_MODE_DIS,
     f_div_rclk)
  else if f_pfd <=? C ADF4377_FREQ_PFD_125MHZ then
    (C ADF4377_DCLK_DIV1_1, C ADF4377_DCLK_DIV2_1, C ADF4377_DCLK_MODE_EN,
     f_div_rclk)
  else if f_pfd <=? C ADF4377_FREQ_PFD_160MHZ then
    (C ADF4377_DCLK_DIV1_2, C ADF4377_DCLK_DIV2_1, C ADF4377_DCLK_MODE_DIS,
     f_div_rclk / 2)
  else if f_pfd <=? C ADF4377_FREQ_PFD_250MHZ then
    (C ADF4377_DCLK_DIV1_2, C ADF4377_DCLK_DIV2_1, C ADF4377_DCLK_MODE_EN,
     f_div_rclk / 2)
  else if f_pfd <=? C ADF4377_FREQ_PFD_320MHZ then
    (C ADF4377_DCLK_DIV1_2, C ADF4377_DCLK_DIV2_2, C ADF4377_DCLK_MODE_DIS,
     f_div_rclk / 4)
  else
    (C ADF4377_DCLK_DIV1_2, C ADF4377_DCLK_DIV2_2, C ADF4377_DCLK_MODE_EN,
     f_div_rclk / 4).

(** Lines "f_div_rclk = dev->f_pfd" to "adc_clk_div = ..." of
    [adf4377_setup]; [None] is undefined behaviour. *)
Definition calib_clock (f_pfd : Z) : option calib :=
  let '(div1, div2, mode, f_div_rclk) := dclk_select f_pfd in
  let dclk_div1 := u8 div1 in
  let dclk_div2 := u8 div2 in
  let dclk_mode := u8 mode in
  match DIV_ROUND_UP f_div_rclk 50000,
        DIV_ROUND_UP f_div_rclk 20000,
        match band_divisor dclk_mode with
        | Some y => DIV_ROUND_UP f_div_rclk y
        | None => None
        end,
        DIV_ROUND_UP (u32 (f_div_rclk / 400000 - 2)) 4 with
  | Some synth_lock, Some vco_alc, Some vco_band, Some adc_clk =>
    Some {| dclk_div1 := dclk_div1; dclk_div2 := dclk_div2;
            dclk_mode := dclk_mode; f_div_rclk := f_div_rclk;
            synth_lock_timeout := u16 synth_lock;
            vco_alc_timeout := u16 vco_alc;
            vco_band_div := u16 vco_band;
            adc_clk_div := u16 adc_clk |}
  | _, _, _, _ => None
  end.

(** *** Setup *)

#[local] Infix ".|" := Z.lor (at level 50, left associativity).

Definition adf4377_setup (fuel : nat) : M Z :=
  modify_dev (set_ref_div_factor 0) ;;
  (* Software Reset *)
  check adf4377_soft_reset fuel ;;
  d <- get_dev ;;
  check adf4377_spi_write (F ADF4377_REG 0x00)
          (F ADF4377_LSB_FIRST_R (bit_order (spi_desc d)) .|
           F ADF4377_LSB_FIRST (bit_order (spi_desc d)) .|
           F ADF4377_SDO_ACTIVE_R (spi3wire d) .|
           F ADF4377_SDO_ACTIVE (spi3wire d) .|
           F ADF4377_ADDRESS_ASC_R (C ADF4377_ADDR_ASC_AUTO_DECR) .|
           F ADF4377_ADDRESS_ASC (C ADF4377_ADDR_ASC_AUTO_DECR)) ;;
  (* Read Chip Type *)
  '(ret, chip_type) <- adf4377_spi_read (F ADF4377_REG 0x03) None ;;
  if negb (ret =? C SUCCESS) then Return ret
  else
  match chip_type with
  | None => fault
  | Some chip_type =>
  if negb (chip_type =? C ADF4377_CHIP_TYPE) then Return ret
  else
  (* Scratchpad Check *)
  check adf4377_check_scratchpad ;;
  (* Set Default Registers *)
  check adf4377_set_default ;;
  (* Update Charge Pump Current Value *)
  check adf4377_update (F ADF4377_REG 0x15) (C ADF4377_CP_I_MSK)
                       (F ADF4377_CP_I (cp_i d)) ;;
  (* Compute PFD *)
  compute_pfd fuel ;;
  d <- get_dev ;;
  if ADF4377_CHECK_RANGE (f_pfd d) (C ADF4377_MAX_FREQ_PFD)
                         (C ADF4377_MIN_FREQ_PFD)
  then Return (C FAILURE)
  else
  match calib_clock (f_pfd d) with
  | None => fault
  | Some c =>
  check adf4377_update (F ADF4377_REG 0x1C)
          (C ADF4377_EN_DNCLK_MSK .| C ADF4377_EN_DRCLK_MSK)
          (F ADF4377_EN_DNCLK (C ADF4377_EN_DNCLK_ON) .|
           F ADF4377_EN_DRCLK (C ADF4377_EN_DRCLK_ON)) ;;
  check adf4377_update (F ADF4377_REG 0x11)
          (C ADF4377_EN_AUTOCAL_MSK .| C ADF4377_DCLK_DIV2_MSK)
          (F ADF4377_EN_AUTOCAL (C ADF4377_VCO_CALIB_EN) .|
           F ADF4377_DCLK_DIV2 (dclk_div2 c)) ;;
  check adf4377_update (F ADF4377_REG 0x2E)
          (C ADF4377_EN_ADC_CNV_MSK .| C ADF4377_EN_ADC_MSK .|
           C ADF4377_ADC_A_CONV_MSK)
          (F ADF4377_EN_ADC_CNV (C ADF4377_EN_ADC_CNV_EN) .|
           F ADF4377_EN_ADC (C ADF4377_EN_ADC_EN) .|
           F ADF4377_ADC_A_CONV (C ADF4377_ADC_A_CONV_VCO_CALIB)) ;;
  check adf4377_update (F ADF4377_REG 0x20) (C ADF4377_EN_ADC_CLK_MSK)
                       (F ADF4377_EN_ADC_CLK (C ADF4377_EN_ADC_CLK_EN)) ;;
  check adf4377_update (F ADF4377_REG 0x2F) (C ADF4377_DCLK_DIV1_MSK)
                       (F ADF4377_DCLK_DIV1 (dclk_div1 c)) ;;
  check adf4377_update (F ADF4377_REG 0x24) (C ADF4377_DCLK_MODE_MSK)
                       (F ADF4377_DCLK_MODE (dclk_mode c)) ;;
  check adf4377_spi_write (F ADF4377_REG 0x27)
                          (F ADF4377_SYNTH_LOCK_TO_LSB (synth_lock_timeout c)) ;;
  check adf4377_update (F ADF4377_REG 0x28) (C ADF4377_SYNTH_LOCK_TO_MSB_MSK)
          (F ADF4377_SYNTH_LOCK_TO_MSB (Z.shiftr (synth_lock_timeout c) 8)) ;;
  check adf4377_spi_write (F ADF4377_REG 0x29)
                          (F ADF4377_VCO_ALC_TO_LSB (vco_alc_timeout c)) ;;
  check adf4377_update (F ADF4377_REG 0x2A) (C ADF4377_VCO_ALC_TO_MSB_MSK)
          (F ADF4377_VCO_ALC_TO_MSB (Z.shiftr (vco_alc_timeout c) 8)) ;;
  check adf4377_spi_write (F ADF4377_REG 0x26)
                          (F ADF4377_VCO_BAND_DIV (vco_band_div c)) ;;
  check adf4377_spi_write (F ADF4377_REG 0x2D)
                          (F ADF4377_ADC_CLK_DIV (adc_clk_div c)) ;;
  (* Power Up: ret is assigned and then overwritten by the next call *)
  adf4377_spi_write (F ADF4377_REG 0x1a)
    (F ADF4377_PD_ALL (C ADF4377_PD_ALL_N_OP) .|
     F ADF4377_PD_RDIV (C ADF4377_PD_RDIV_N_OP) .|
     F ADF4377_PD_NDIV (C ADF4377_PD_NDIV_N_OP) .|
     F ADF4377_PD_VCO (C ADF4377_PD_VCO_N_OP) .|
     F ADF4377_PD_LD (C ADF4377_PD_LD_N_OP) .|
     F ADF4377_PD_PFDCP (C ADF4377_PD_PFDCP_N_OP) .|
     F ADF4377_PD_CLKOUT1 (C ADF4377_PD_CLKOUT1_N_OP) .|
     F ADF4377_PD_CLKOUT2 (C ADF4377_PD_CLKOUT2_N_OP)) ;;
  check adf4377_set_freq fuel ;;
  d <- get_dev ;;
  (* Disable EN_DNCLK, EN_DRCLK *)
  check adf4377_update (F ADF4377_REG 0x1C)
          (C ADF4377_EN_DNCLK_MSK .| C ADF4377_EN_DRCLK_MSK)
          (F ADF4377_EN_DNCLK (C ADF4377_EN_DNCLK_OFF) .|
           F ADF4377_EN_DRCLK (C ADF4377_EN_DRCLK_OFF)) ;;
  (* Disable EN_ADC_CLK: ret is assigned and then overwritten *)
  adf4377_update (F ADF4377_REG 0x20) (C ADF4377_EN_ADC_CLK_MSK)
                 (F ADF4377_EN_ADC_CLK (C ADF4377_EN_ADC_CLK_DIS)) ;;
  (* Set output Amplitude *)
  adf4377_update (F ADF4377_REG 0x19)
    (C ADF4377_CLKOUT2_OP_MSK .| C ADF4377_CLKOUT1_OP_MSK)
    (F ADF4377_CLKOUT1_OP (clkout_op d) .| F ADF4377_CLKOUT2_OP (clkout_op d))
  end
  end.

(** *** Init and remove *)

(** The labels at the end of [adf4377_init]; each falls through to the
    next.  [device] is the caller's [*device], which the error path leaves
    as it was. *)
Definition error_dev (ret : Z) (device : option adf4377_dev)
  : M (Z * option adf4377_dev) :=
  platform_call Free ;;
  Return (ret, device).

Definition error_gpio_ce (ret : Z) (device : option adf4377_dev)
  : M (Z * option adf4377_dev) :=
  platform_call (GpioRemove GPIO_CE) ;;
  error_dev ret device.

Definition error_gpio_enclk1 (ret : Z) (device : option adf4377_dev)
  : M (Z * option adf4377_dev) :=
  platform_call (GpioRemove GPIO_ENCLK1) ;;
  error_gpio_ce ret device.

Definition error_gpio_enclk2 (ret : Z) (device : option adf4377_dev)
  : M (Z * option adf4377_dev) :=
  platform_call (GpioRemove GPIO_ENCLK2) ;;
  error_gpio_enclk1 ret device.

Definition error_spi (ret : Z) (device : option adf4377_dev)
  : M (Z * option adf4377_dev) :=
  platform_call SpiRemove ;;
  error_gpio_enclk2 ret device.

(** The member assignments after [calloc]. *)
Definition copy_params (ip : init_param.t) (d : adf4377_dev) : adf4377_dev :=
  {| spi_desc := spi_desc d; gpio_ce := gpio_ce d;
     gpio_enclk1 := gpio_enclk1 d; gpio_enclk2 := gpio_enclk2 d;
     spi3wire := init_param.spi3wire ip;
     clkin_freq := wrap (bits_clkin_freq h) (init_param.clkin_freq ip);
     cp_i := init_param.cp_i ip;
     muxout_default := init_param.muxout_select ip;
     ref_doubler_en := init_param.ref_doubler_en ip;
     f_pfd := f_pfd d;
     f_clk := wrap (bits_f_clk h) (init_param.f_clk ip);
     f_vco := f_vco d; n_int := n_int d;
     clkout_op := init_param.clkout_op ip;
     ref_div_factor := ref_div_factor d;
     clkout_div_sel := clkout_div_sel d |}.

(** Modelled from the spec: what [spi_init] stores in the descriptor is
    platform code, which is absent; the spec says the bus handle carries
    the bit order. *)
Definition spi_desc_of (p : init_param.spi_init_param) : spi_desc_t :=
  {| bit_order := init_param.bit_order p |}.

Definition adf4377_init (fuel : nat) (device : option adf4377_dev)
                        (ip : init_param.t) : M (Z * option adf4377_dev) :=
  p <- platform_call Calloc ;;
  if p =? 0 then Return (- C ENOMEM, device)
  else
  modify_dev (fun _ => copy_params ip zero_dev) ;;
  (* GPIO Chip Enable *)
  ret <- platform_call (GpioGetOptional GPIO_CE) ;;
  if negb (ret =? C SUCCESS) then error_dev ret device
  else
  modify_dev (set_gpio_ce (init_param.gpio_ce_param ip)) ;;
  ret <- platform_call (GpioDirectionOutput GPIO_CE (C GPIO_HIGH)) ;;
  if negb (ret =? C SUCCESS) then error_gpio_ce ret device
  else
  ret <- platform_call (GpioGetOptional GPIO_ENCLK1) ;;
  if negb (ret =? C SUCCESS) then error_gpio_ce ret device
  else
  modify_dev (set_gpio_enclk1 (init_param.gpio_enclk1_param ip)) ;;
  ret <- platform_call (GpioDirectionOutput GPIO_ENCLK1 (C GPIO_HIGH)) ;;
  if negb (ret =? C SUCCESS) then error_gpio_enclk1 ret device
  else
  ret <- platform_call (GpioGetOptional GPIO_ENCLK2) ;;
  if negb (ret =? C SUCCESS) then error_gpio_enclk1 ret device
  else
  modify_dev (set_gpio_enclk2 (init_param.gpio_enclk2_param ip)) ;;
  ret <- platform_call (GpioDirectionOutput GPIO_ENCLK2 (C GPIO_HIGH)) ;;
  if negb (ret =? C SUCCESS) then error_gpio_enclk2 ret device
  else
  (* SPI *)
  ret <- platform_call SpiInit ;;
  if negb (ret =? C SUCCESS) then error_gpio_enclk2 ret device
  else
  modify_dev (set_spi_desc (spi_desc_of (init_param.spi_init ip))) ;;
  ret <- adf4377_setup fuel ;;
  if negb (ret =? C SUCCESS) then error_spi ret device
  else
  d <- get_dev ;;
  Return (ret, Some d).

Definition adf4377_remove : M Z :=
  check platform_call SpiRemove ;;
  check platform_call (GpioRemove GPIO_CE) ;;
  check platform_call (GpioRemove GPIO_ENCLK1) ;;
  ret <- platform_call (GpioRemove GPIO_ENCLK2) ;;
  if negb (ret =? C SUCCESS) then Return ret
  else
    platform_call Free ;;
    Return ret.

End Driver.

(** The byte [adf4377_update] writes back: the bits of the byte read that
    lie outside [mask], or-ed with [data]. *)
Definition modified (read_value mask data : Z) : Z :=
  Z.lor (Z.land read_value (Z.lnot mask)) data.

(** ** Vocabulary for the statements *)

(** [m] returns and leaves the handle as it is. *)
Definition quiet {A : Type} (m : M A) : Prop :=
  forall w, exists a lg, m w = (Done a, World (dev w) lg).

(** ** Resources in the call log *)

(** What [adf4377_init] acquires: the handle memory, three GPIO lines and
    the SPI bus. *)
Inductive resource : Set :=
| Mem
| Gpio (g : gpio_line)
| Spi.

(** The resource a logged call acquired, if it did. *)
Definition acquires (h : Header) (e : entry) : option resource :=
  match e with
  | (Calloc, p) => if p =? 0 then None else Some Mem
  | (GpioGetOptional g, r) => if r =? cst h SUCCESS then Some (Gpio g) else None
  | (SpiInit, r) => if r =? cst h SUCCESS then Some Spi else None
  | _ => None
  end.

(** The resource a logged call released, if it is a release. *)
Definition releases (e : entry) : option resource :=
  match e with
  | (Free, _) => Some Mem
  | (GpioRemove g, _) => Some (Gpio g)
  | (SpiRemove, _) => Some Spi
  | _ => None
  end.

Fixpoint omap {A B : Type} (f : A -> option B) (l : list A) : list B :=
  match l with
  | [] => []
  | a :: l => match f a with Some b => b :: omap f l | None => omap f l end
  end.

(** Resources acquired, oldest first, along a trace given oldest first. *)
Definition acquired (h : Header) (t : list entry) : list resource :=
  omap (acquires h) t.

Definition released (t : list entry) : list resource := omap releases t.

(** Calls that [adf4377_setup] and the functions under it make. *)
Definition is_bus (e : entry) : bool :=
  match e with
  | (SpiWriteAndRead _, _) | (Mdelay _, _) => true
  | _ => false
  end.

(** The transfers of a trace, in the order of the trace. *)
Definition transfers (t : list entry) : list frame :=
  omap (fun e => match e with (SpiWriteAndRead b, _) => Some b | _ => None end) t.

(** Whatever [m] does, it only adds transfers and delays to the log. *)
Definition bus_only {A : Type} (m : M A) : Prop :=
  forall w o w', m w = (o, w') ->
    exists t, log w' = t ++ log w /\ forallb is_bus t = true.

(** The calls [adf4377_init] makes itself after [calloc], in the order it
    makes them. *)
Definition init_steps (h : Header) : list call :=
  [GpioGetOptional GPIO_CE;
   GpioDirectionOutput GPIO_CE (cst h GPIO_HIGH);
   GpioGetOptional GPIO_ENCLK1;
   GpioDirectionOutput GPIO_ENCLK1 (cst h GPIO_HIGH);
   GpioGetOptional GPIO_ENCLK2;
   GpioDirectionOutput GPIO_ENCLK2 (cst h GPIO_HIGH);
   SpiInit].

(** Calls logged with the status SUCCESS. *)
Definition succeeded (h : Header) (cs : list call) : list entry :=
  map (fun c => (c, cst h SUCCESS)) cs.

(** The call that releases a resource. *)
Definition release_of (r : resource) : call :=
  match r with
  | Mem => Free
  | Gpio g => GpioRemove g
  | Spi => SpiRemove
  end.

(** SPI transfers. *)
Definition is_transfer (e : entry) : bool :=
  match e with
  | (SpiWriteAndRead _, _) => true
  | _ => false
  end.

(** The transfers of a trace that did not return SUCCESS. *)
Definition failed_transfers (h : Header) (t : list entry) : list entry :=
  filter (fun e => is_transfer e && negb (snd e =? cst h SUCCESS)) t.

(** ** A header instance and mock platforms *)

Module Sample.

(** [FIELD_PREP]: place [x] in the field selected by [mask]. *)
Definition field_prep (mask x : Z) : Z :=
  Z.land (Z.shiftl x (Z.log2 (Z.land mask (- mask)))) mask.

Definition BIT (n : Z) : Z := Z.shiftl 1 n.
Definition GENMASK (hi lo : Z) : Z := Z.shiftl (Z.ones (hi - lo + 1)) lo.

(** Modelled from the spec: adf4377.h is absent.  The command bytes are
    those of the wire format (section 6), the scratchpad value that of
    section 4.2, the PFD thresholds those of the table in section 4.6,
    [F_PFD_MAX] and [VCO_MIN] those of scenarios S1 and S3.  The spec does
    not give the remaining limits, the status codes or the layout of the
    bit fields; they are filled in here after the register map of the part
    so that the model can be run.  No general statement depends on this
    instance. *)
Definition value_of (m : cmacro) : Z :=
  match m with
  | SUCCESS => 0
  | FAILURE => -1
  | ENOMEM => 12
  | GPIO_HIGH => 1
  | ADF4377_SPI_WRITE_CMD => 0x00
  | ADF4377_SPI_READ_CMD => 0x80
  | ADF4377_SPI_DUMMY_DATA => 0x00
  | ADF4377_SPI_SCRATCHPAD => 0xA5
  | ADF4377_CHIP_TYPE => 0x06
  | ADF4377_R00F_RSV1 => 0x14
  | ADF4377_R01C_RSV1_MSK => BIT 0
  | ADF4377_R01F_RSV1_MSK => GENMASK 2 0
  | ADF4377_R020_RSV1_MSK => BIT 0
  | ADF4377_R021_RSV1 => 0xD3
  | ADF4377_R022_RSV1 => 0x32
  | ADF4377_R023_RSV1 => 0x18
  | ADF4377_R025_RSV1_MSK => GENMASK 5 0
  | ADF4377_R02C_RSV1 => 0xC0
  | ADF4377_R031_RSV1 => 0x09
  | ADF4377_R032_RSV1_MSK => GENMASK 5 0
  | ADF4377_R033_RSV1 => 0x18
  | ADF4377_R034_RSV1 => 0x08
  | ADF4377_R03A_RSV1 => 0x5D
  | ADF4377_R03B_RSV1 => 0x2B
  | ADF4377_R042_RSV1 => 0x05
  | ADF4377_SOFT_RESET_MSK => BIT 0
  | ADF4377_SOFT_RESET_R_MSK => BIT 7
  | ADF4377_SOFT_RESET_EN => 1
  | ADF4377_ADDR_ASC_AUTO_DECR => 0
  | ADF4377_CP_I_MSK => GENMASK 3 0
  | ADF4377_MAX_FREQ_PFD => 250000000
  | ADF4377_MIN_FREQ_PFD => 3000000
  | ADF4377_MAX_CLKPN_FREQ => 8000000000
  | ADF4377_MIN_CLKPN_FREQ => 500000000
  | ADF4377_MIN_VCO_FREQ => 4000000000
  | ADF4377_FREQ_PFD_80MHZ => 80000000
  | ADF4377_FREQ_PFD_125MHZ => 125000000
  | ADF4377_FREQ_PFD_160MHZ => 160000000
  | ADF4377_FREQ_PFD_250MHZ => 250000000
  | ADF4377_FREQ_PFD_320MHZ => 320000000
  | ADF4377_DCLK_DIV1_1 => 0
  | ADF4377_DCLK_DIV1_2 => 1
  | ADF4377_DCLK_DIV2_1 => 0
  | ADF4377_DCLK_DIV2_2 => 1
  | ADF4377_DCLK_MODE_DIS => 0
  | ADF4377_DCLK_MODE_EN => 1
  | ADF4377_EN_DNCLK_MSK => BIT 4
  | ADF4377_EN_DRCLK_MSK => BIT 3
  | ADF4377_EN_DNCLK_ON => 1
  | ADF4377_EN_DRCLK_ON => 1
  | ADF4377_EN_DNCLK_OFF => 0
  | ADF4377_EN_DRCLK_OFF => 0
  | ADF4377_EN_AUTOCAL_MSK => BIT 7
  | ADF4377_DCLK_DIV2_MSK => GENMASK 5 4
  | ADF4377_VCO_CALIB_EN => 1
  | ADF4377_EN_ADC_CNV_MSK => BIT 7
  | ADF4377_EN_ADC_MSK => BIT 1
  | ADF4377_ADC_A_CONV_MSK => BIT 0
  | ADF4377_EN_ADC_CNV_EN => 1
  | ADF4377_EN_ADC_EN => 1
  | ADF4377_ADC_A_CONV_VCO_CALIB => 1
  | ADF4377_EN_ADC_CLK_MSK => BIT 4
  | ADF4377_EN_ADC_CLK_EN => 1
  | ADF4377_EN_ADC_CLK_DIS => 0
  | ADF4377_DCLK_DIV1_MSK => GENMASK 1 0
  | ADF4377_DCLK_MODE_MSK => BIT 2
  | ADF4377_SYNTH_LOCK_TO_MSB_MSK => GENMASK 6 0
  | ADF4377_VCO_ALC_TO_MSB_MSK => GENMASK 6 0
  | ADF4377_PD_ALL_N_OP => 0
  | ADF4377_PD_RDIV_N_OP => 0
  | ADF4377_PD_NDIV_N_OP => 0
  | ADF4377_PD_VCO_N_OP => 0
  | ADF4377_PD_LD_N_OP => 0
  | ADF4377_PD_PFDCP_N_OP => 0
  | ADF4377_PD_CLKOUT1_N_OP => 0
  | ADF4377_PD_CLKOUT2_N_OP => 0
  | ADF4377_EN_RDBLR_MSK => BIT 6
  | ADF4377_N_INT_MSB_MSK => GENMASK 3 0
  | ADF4377_R_DIV_MSK => GENMASK 5 0
  | ADF4377_CLKOUT_DIV_MSK => GENMASK 7 6
  | ADF4377_CLKOUT2_OP_MSK => GENMASK 7 6
  | ADF4377_CLKOUT1_OP_MSK => GENMASK 5 4
  end.

(** The mask a function-like macro places its argument under. *)
Definition mask_of (m : fmacro) : Z :=
  match m with
  | ADF4377_REG => 0xFF
  | ADF4377_R01C_RSV1 => value_of ADF4377_R01C_RSV1_MSK
  | ADF4377_R01F_RSV1 => value_of ADF4377_R01F_RSV1_MSK
  | ADF4377_R020_RSV1 => value_of ADF4377_R020_RSV1_MSK
  | ADF4377_R025_RSV1 => value_of ADF4377_R025_RSV1_MSK
  | ADF4377_R032_RSV1 => value_of ADF4377_R032_RSV1_MSK
  | ADF4377_SOFT_RESET => value_of ADF4377_SOFT_RESET_MSK
  | ADF4377_SOFT_RESET_R => value_of ADF4377_SOFT_RESET_R_MSK
  | ADF4377_LSB_FIRST => BIT 1
  | ADF4377_LSB_FIRST_R => BIT 6
  | ADF4377_SDO_ACTIVE => BIT 3
  | ADF4377_SDO_ACTIVE_R => BIT 4
  | ADF4377_ADDRESS_ASC => BIT 2
  | ADF4377_ADDRESS_ASC_R => BIT 5
  | ADF4377_CP_I => value_of ADF4377_CP_I_MSK
  | ADF4377_EN_DNCLK => value_of ADF4377_EN_DNCLK_MSK
  | ADF4377_EN_DRCLK => value_of ADF4377_EN_DRCLK_MSK
  | ADF4377_EN_AUTOCAL => value_of ADF4377_EN_AUTOCAL_MSK
  | ADF4377_DCLK_DIV2 => value_of ADF4377_DCLK_DIV2_MSK
  | ADF4377_EN_ADC_CNV => value_of ADF4377_EN_ADC_CNV_MSK
  | ADF4377_EN_ADC => value_of ADF4377_EN_ADC_MSK
  | ADF4377_ADC_A_CONV => value_of ADF4377_ADC_A_CONV_MSK
  | ADF4377_EN_ADC_CLK => value_of ADF4377_EN_ADC_CLK_MSK
  | ADF4377_DCLK_DIV1 => value_of ADF4377_DCLK_DIV1_MSK
  | ADF4377_DCLK_MODE => value_of ADF4377_DCLK_MODE_MSK
  | ADF4377_SYNTH_LOCK_TO_LSB => 0xFF
  | ADF4377_SYNTH_LOCK_TO_MSB => value_of ADF4377_SYNTH_LOCK_TO_MSB_MSK
  | ADF4377_VCO_ALC_TO_LSB => 0xFF
  | ADF4377_VCO_ALC_TO_MSB => value_of ADF4377_VCO_ALC_TO_MSB_MSK
  | ADF4377_VCO_BAND_DIV => 0xFF
  | ADF4377_ADC_CLK_DIV => 0xFF
  | ADF4377_PD_ALL => BIT 7
  | ADF4377_PD_RDIV => BIT 6
  | ADF4377_PD_NDIV => BIT 5
  | ADF4377_PD_VCO => BIT 4
  | ADF4377_PD_LD => BIT 3
  | ADF4377_PD_PFDCP => BIT 2
  | ADF4377_PD_CLKOUT1 => BIT 1
  | ADF4377_PD_CLKOUT2 => BIT 0
  | ADF4377_EN_RDBLR => value_of ADF4377_EN_RDBLR_MSK
  | ADF4377_N_INT_MSB => value_of ADF4377_N_INT_MSB_MSK
  | ADF4377_N_INT_LSB => 0xFF
  | ADF4377_CLKOUT_DIV => value_of ADF4377_CLKOUT_DIV_MSK
  | ADF4377_R_DIV => value_of ADF4377_R_DIV_MSK
  | ADF4377_CLKOUT1_OP => value_of ADF4377_CLKOUT1_OP_MSK
  | ADF4377_CLKOUT2_OP => value_of ADF4377_CLKOUT2_OP_MSK
  end.

Definition expand (m : fmacro) (x : Z) : Z := field_prep (mask_of m) x.

(** [uint32_t] reference and PFD, [uint64_t] output and VCO frequencies,
    [uint16_t] N, [uint8_t] divider codes. *)
Definition header : Header :=
  {| cst := value_of; fld := expand;
     bits_clkin_freq := 32; bits_f_pfd := 32; bits_f_clk := 64;
     bits_f_vco := 64; bits_n_int := 16; bits_ref_div_factor := 8;
     bits_clkout_div_sel := 8 |}.

(** *** Mock platforms *)

(** Is [tx] a read of register [addr] (MSB-first framing)? *)
Definition is_read_of (addr : Z) (tx : frame) : bool :=
  (b0 tx =? value_of ADF4377_SPI_READ_CMD) && (b1 tx =? addr).

(** Is [tx] a write to register [addr] (MSB-first framing)? *)
Definition is_write_to (addr : Z) (tx : frame) : bool :=
  (b0 tx =? value_of ADF4377_SPI_WRITE_CMD) && (b1 tx =? addr).

(** A chip that answers [chip_type] at register 0x03, echoes the
    scratchpad value at 0x0A and reads zero elsewhere. *)
Definition chip_rx (chip_type : Z) (tx : frame) : frame :=
  if is_read_of 0x03 tx then Frame 0 0 chip_type
  else if is_read_of 0x0A tx then Frame 0 0 (value_of ADF4377_SPI_SCRATCHPAD)
  else Frame 0 0 0.

(** Every call succeeds; [calloc] returns a non-null pointer. *)
Definition all_ok (c : call) : Z :=
  match c with Calloc => 1 | _ => value_of SUCCESS end.

(** A healthy board with a chip of the expected type. *)
Definition good_board : platform :=
  {| call_ret := fun _ c => all_ok c;
     xfer_rx := fun _ tx => chip_rx (value_of ADF4377_CHIP_TYPE) tx |}.

(** A healthy board whose chip reports another type. *)
Definition wrong_chip : platform :=
  {| call_ret := fun _ c => all_ok c;
     xfer_rx := fun _ tx => chip_rx 0x07 tx |}.

(** A chip whose soft-reset bit never clears: every read returns 0x81. *)
Definition stuck_reset : platform :=
  {| call_ret := fun _ c => all_ok c;
     xfer_rx := fun _ _ => Frame 0 0 0x81 |}.

(** A chip whose soft-reset bit clears on the [n]-th poll.  The poll
    follows the read and the write of the reset update, so it is the
    transfer number [n + 2]. *)
Definition reset_clears_at (n : nat) : platform :=
  {| call_ret := fun _ c => all_ok c;
     xfer_rx := fun hist _ =>
       if (length (transfers hist) <? n + 1)%nat then Frame 0 0 0x81
       else Frame 0 0 0x00 |}.

(** [P] with status [err] returned by every call [bad] selects. *)
Definition failing (bad : list entry -> call -> bool) (err : Z)
                   (P : platform) : platform :=
  {| call_ret := fun hist c => if bad hist c then err else call_ret P hist c;
     xfer_rx := xfer_rx P |}.

(** The power-up write to register 0x1A. *)
Definition power_up_write (hist : list entry) (c : call) : bool :=
  match c with
  | SpiWriteAndRead tx => is_write_to 0x1A tx
  | _ => false
  end.

(** The write that ends the third update of register 0x20 (reserved
    bits, ADC clock on, ADC clock off). *)
Definition adc_clk_disable_write (hist : list entry) (c : call) : bool :=
  match c with
  | SpiWriteAndRead tx =>
    is_write_to 0x20 tx
    && (length (filter (is_write_to 0x20) (transfers hist)) =? 2)%nat
  | _ => false
  end.

(** The read that starts the third update of register 0x20. *)
Definition adc_clk_disable_read (hist : list entry) (c : call) : bool :=
  match c with
  | SpiWriteAndRead tx =>
    is_read_of 0x20 tx
    && (length (filter (is_read_of 0x20) (transfers hist)) =? 2)%nat
  | _ => false
  end.

Definition only_call (c0 : call -> bool) (hist : list entry) (c : call)
  : bool := c0 c.

(** Parameters of scenario S1 with the 1 GHz output of scenario S3,
    MSB-first bus, the three GPIO lines wired. *)
Definition params : init_param.t :=
  {| init_param.spi_init := {| init_param.bit_order := 0 |};
     init_param.gpio_ce_param := Some 10;
     init_param.gpio_enclk1_param := Some 11;
     init_param.gpio_enclk2_param := Some 12;
     init_param.spi3wire := 0;
     init_param.clkin_freq := 100000000;
     init_param.cp_i := 0xF;
     init_param.muxout_select := 0;
     init_param.ref_doubler_en := 0;
     init_param.f_clk := 1000000000;
     init_param.clkout_op := 1 |}.

(** The handle as [adf4377_init] has it when it calls [adf4377_setup]. *)
Definition dev0 : adf4377_dev :=
  set_gpio_enclk2 (Some 12) (set_gpio_enclk1 (Some 11) (set_gpio_ce (Some 10)
    {| spi_desc := {| bit_order := 0 |}; gpio_ce := None; gpio_enclk1 := None;
       gpio_enclk2 := None; spi3wire := 0; clkin_freq := 100000000;
       cp_i := 0xF; muxout_default := 0; ref_doubler_en := 0; f_pfd := 0;
       f_clk := 1000000000; f_vco := 0; n_int := 0; clkout_op := 1;
       ref_div_factor := 0; clkout_div_sel := 0 |})).

Definition w0 : world := World dev0 [].

End Sample.

(** ** Vocabulary for further statements *)

(** Every logged call returned SUCCESS. *)
Definition all_succeeded (h : Header) (t : list entry) : bool :=
  forallb (fun e => snd e =? cst h SUCCESS) t.

(** [m] is a chain of [n] transfers that stops at the first one that
    fails.  It always returns and leaves the handle as it is; what it adds
    to the log, [t] (newest first), is transfers only.  If it returns
    SUCCESS, all [n] transfers were made and succeeded.  Otherwise the
    status returned is that of the last transfer made, every transfer
    before it succeeded, and at most [n] were made. *)
Definition fail_fast (h : Header) (n : nat) (m : M Z) : Prop :=
  forall w, exists ret t,
    m w = (Done ret, World (dev w) (t ++ log w))
    /\ forallb is_transfer t = true
    /\ if ret =? cst h SUCCESS then
         length t = n /\ all_succeeded h t = true
       else
         exists c t',
           t = (c, ret) :: t' /\ (length t <= n)%nat
           /\ all_succeeded h t' = true.

(** The members of the handle the caller or [adf4377_init] sets, which
    the solvers read but do not assign. *)
Definition config (d : adf4377_dev) :=
  (spi_desc d, gpio_ce d, gpio_enclk1 d, gpio_enclk2 d, spi3wire d,
   clkin_freq d, cp_i d, muxout_default d, ref_doubler_en d, f_clk d,
   clkout_op d).

(** Whatever [m] does, it leaves those members as they are. *)
Definition keeps_config {A : Type} (m : M A) : Prop :=
  forall w o w', m w = (o, w') -> config (dev w') = config (dev w).

(** The releases of [adf4377_remove], in the order it makes them. *)
Definition remove_calls : list call :=
  [SpiRemove; GpioRemove GPIO_CE; GpioRemove GPIO_ENCLK1;
   GpioRemove GPIO_ENCLK2].

(** * Properties *)

(** ** Machine integers *)

Lemma wrap_small (w x : Z) : 0 <= x < 2 ^ w -> wrap w x = x.
Proof. intro H. unfold wrap. apply Z.mod_small. exact H. Qed.

Lemma u8_range (x : Z) : 0 <= u8 x < 256.
Proof. unfold u8, wrap. change (2 ^ 8) with 256. apply Z.mod_pos_bound. lia. Qed.

Lemma u8_land_ones (x : Z) : u8 x = Z.land x 255.
Proof.
  unfold u8, wrap. change 255 with (Z.ones 8).
  rewrite Z.land_ones by lia. reflexivity.
Qed.

Lemma u8_idem (x : Z) : u8 (u8 x) = u8 x.
Proof. apply wrap_small. apply u8_range. Qed.

(** Clearing and setting bits of a byte gives a byte. *)
Lemma u8_land_lnot (r m : Z) : u8 (Z.land (u8 r) (Z.lnot m)) = Z.land (u8 r) (Z.lnot m).
Proof.
  rewrite (u8_land_ones (Z.land _ _)), (u8_land_ones r).
  rewrite <- Z.land_assoc, (Z.land_comm (Z.lnot m) 255), Z.land_assoc.
  rewrite <- (Z.land_assoc r 255 255). reflexivity.
Qed.

Lemma u8_lor (a b : Z) : u8 (Z.lor a b) = Z.lor (u8 a) (u8 b).
Proof. rewrite !u8_land_ones. apply Z.land_lor_distr_l. Qed.

(** Bit [i] of the swapped byte is bit [7 - i] of the byte. *)
Lemma bit_swap_constant_8_testbit (x i : Z) :
  0 <= i < 8 ->
  Z.testbit (bit_swap_constant_8 x) i = Z.testbit x (7 - i).
Proof.
  intro Hi. unfold bit_swap_constant_8.
  assert (Hc : i = 0 \/ i = 1 \/ i = 2 \/ i = 3 \/ i = 4 \/ i = 5 \/ i = 6 \/ i = 7)
    by lia.
  repeat rewrite Z.lor_spec.
  repeat rewrite Z.shiftr_spec by lia.
  repeat rewrite Z.shiftl_spec by lia.
  repeat rewrite Z.land_spec.
  destruct Hc as [-> | [-> | [-> | [-> | [-> | [-> | [-> | ->]]]]]]]; cbn;
    repeat rewrite Bool.andb_false_r; repeat rewrite Bool.andb_true_r;
    repeat rewrite Bool.orb_false_r; reflexivity.
Qed.

(** The swapped byte has no bit above bit 7. *)
Lemma land_pow2_cases (x k : Z) :
  0 <= k -> Z.land x (2 ^ k) = 0 \/ Z.land x (2 ^ k) = 2 ^ k.
Proof.
  intro Hk. destruct (Z.testbit x k) eqn:E; [right | left];
    apply Z.bits_inj'; intros n Hn; rewrite Z.land_spec, ?Z.bits_0;
    rewrite Z.pow2_bits_eqb by lia;
    destruct (Z.eqb_spec k n); subst; rewrite ?E; cbn;
    auto using Bool.andb_false_r.
Qed.

Lemma bit_swap_constant_8_range (x : Z) : 0 <= bit_swap_constant_8 x < 256.
Proof.
  unfold bit_swap_constant_8.
  pose proof (land_pow2_cases x 7 ltac:(lia)) as H7.
  pose proof (land_pow2_cases x 6 ltac:(lia)) as H6.
  pose proof (land_pow2_cases x 5 ltac:(lia)) as H5.
  pose proof (land_pow2_cases x 4 ltac:(lia)) as H4.
  pose proof (land_pow2_cases x 3 ltac:(lia)) as H3.
  pose proof (land_pow2_cases x 2 ltac:(lia)) as H2.
  pose proof (land_pow2_cases x 1 ltac:(lia)) as H1.
  pose proof (land_pow2_cases x 0 ltac:(lia)) as H0.
  cbn in H7, H6, H5, H4, H3, H2, H1, H0.
  destruct H7 as [-> | ->], H6 as [-> | ->], H5 as [-> | ->],
           H4 as [-> | ->], H3 as [-> | ->], H2 as [-> | ->],
           H1 as [-> | ->], H0 as [-> | ->]; cbn; lia.
Qed.

(** ** Register access *)

Section RegisterAccess.

Context (h : Header) (P : platform).

(** One write is one transfer of the write buffer; the handle is not
    touched and the status of the transfer is returned. *)
Lemma adf4377_spi_write_run (reg_addr data : Z) (w : world) :
  let buff := spi_write_buff h (bit_order (spi_desc (dev w))) reg_addr data in
  let r := call_ret P (log w) (SpiWriteAndRead buff) in
  adf4377_spi_write h P reg_addr data w
  = (Done r, World (dev w) ((SpiWriteAndRead buff, r) :: log w)).
Proof. reflexivity. Qed.

(** A read whose transfer succeeds stores the third received byte. *)
Lemma adf4377_spi_read_ok (reg_addr : Z) (data : option Z) (w : world) :
  let buff := spi_read_buff h (bit_order (spi_desc (dev w))) reg_addr in
  let r := call_ret P (log w) (SpiWriteAndRead buff) in
  r = cst h SUCCESS ->
  adf4377_spi_read h P reg_addr data w
  = (Done (r, Some (u8 (b2 (xfer_rx P (log w) buff)))),
     World (dev w) ((SpiWriteAndRead buff, r) :: log w)).
Proof.
  intros buff r Hr. unfold adf4377_spi_read, bind, get_dev, spi_write_and_read.
  cbn. fold buff. fold r. rewrite Hr, Z.eqb_refl. reflexivity.
Qed.

(** C10.  When the bus transfer of [adf4377_spi_read] fails, the object the
    caller passed for the result keeps the content it had (here [data],
    initialised or not) and the status of the transfer is returned as it
    is; the only effect is the one transfer in the log. *)
Theorem spi_read_failure_keeps_data (reg_addr : Z) (data : option Z) (w : world) :
  let buff := spi_read_buff h (bit_order (spi_desc (dev w))) reg_addr in
  let r := call_ret P (log w) (SpiWriteAndRead buff) in
  r <> cst h SUCCESS ->
  adf4377_spi_read h P reg_addr data w
  = (Done (r, data), World (dev w) ((SpiWriteAndRead buff, r) :: log w)).
Proof.
  intros buff r Hr. unfold adf4377_spi_read, bind, get_dev, spi_write_and_read.
  cbn. fold buff. fold r.
  destruct (Z.eqb_spec r (cst h SUCCESS)) as [E | _]; [contradiction | reflexivity].
Qed.

Lemma modified_byte (rx mask data : Z) :
  u8 (Z.lor (u8 (Z.land (u8 rx) (Z.lnot (u8 mask)))) (u8 data))
  = modified (u8 rx) (u8 mask) (u8 data).
Proof.
  unfold modified. rewrite u8_lor, u8_idem, u8_idem.
  rewrite u8_land_lnot. reflexivity.
Qed.

(** The run of [adf4377_update], transfer by transfer. *)
Lemma adf4377_update_run (reg_addr mask data : Z) (w : world) :
  let order := bit_order (spi_desc (dev w)) in
  let rd := spi_read_buff h order reg_addr in
  let r1 := call_ret P (log w) (SpiWriteAndRead rd) in
  let log1 := (SpiWriteAndRead rd, r1) :: log w in
  let read_value := u8 (b2 (xfer_rx P (log w) rd)) in
  let wr := spi_write_buff h order reg_addr
              (modified read_value (u8 mask) (u8 data)) in
  let r2 := call_ret P log1 (SpiWriteAndRead wr) in
  adf4377_update h P reg_addr mask data w
  = if r1 =? cst h SUCCESS
    then (Done r2, World (dev w) ((SpiWriteAndRead wr, r2) :: log1))
    else (Done r1, World (dev w) log1).
Proof.
  intros order rd r1 log1 read_value wr r2.
  subst r2 wr read_value log1 r1 rd order.
  unfold adf4377_update, adf4377_spi_read, adf4377_spi_write, bind, get_dev,
    spi_write_and_read, Return, fault.
  cbn [dev log b2 frame_map]. cbv beta iota zeta.
  generalize (call_ret P (log w)
    (SpiWriteAndRead (spi_read_buff h (bit_order (spi_desc (dev w))) reg_addr))).
  intro r1.
  destruct (r1 =? cst h SUCCESS) eqn:E; cbn [negb]; cbv beta iota zeta;
    rewrite E; cbn [negb dev log].
  - rewrite modified_byte. reflexivity.
  - reflexivity.
Qed.

(** C9.  [adf4377_update] makes one read transfer for [reg_addr].  If it
    fails, nothing else happens and its status is returned.  Otherwise one
    write transfer for [reg_addr] follows, carrying
    [(read_value & ~mask) | data], where [read_value] is the third byte
    the read received; the status of the write is returned.  [mask] and
    [data] enter as the [uint8_t] arguments they are converted to, and
    the byte written is again a byte. *)
Theorem update_read_modify_write (reg_addr mask data : Z) (w : world) :
  let order := bit_order (spi_desc (dev w)) in
  let rd := spi_read_buff h order reg_addr in
  let r1 := call_ret P (log w) (SpiWriteAndRead rd) in
  let log1 := (SpiWriteAndRead rd, r1) :: log w in
  let read_value := u8 (b2 (xfer_rx P (log w) rd)) in
  let wr := spi_write_buff h order reg_addr
              (modified read_value (u8 mask) (u8 data)) in
  let r2 := call_ret P log1 (SpiWriteAndRead wr) in
  (adf4377_update h P reg_addr mask data w
   = if r1 =? cst h SUCCESS
       then (Done r2, World (dev w) ((SpiWriteAndRead wr, r2) :: log1))
       else (Done r1, World (dev w) log1))
  /\ 0 <= modified read_value (u8 mask) (u8 data) < 256.
Proof.
  intros order rd r1 log1 read_value wr r2. split.
  - apply adf4377_update_run.
  - unfold read_value. rewrite <- modified_byte. apply u8_range.
Qed.

(** The write buffer is three bytes. *)
Lemma spi_write_buff_bytes (order reg_addr data : Z) :
  let b := spi_write_buff h order reg_addr data in
  0 <= b0 b < 256 /\ 0 <= b1 b < 256 /\ 0 <= b2 b < 256.
Proof.
  unfold spi_write_buff. destruct (negb (order =? 0)); cbn;
    auto using u8_range, bit_swap_constant_8_range.
Qed.

(** C3, as the code has it.  On an LSB-first bus [adf4377_spi_write] puts
    the bit-reversed register address in byte 0 and the bit-reversed write
    command in byte 1: the LSB-first buffer is the bit-reversed MSB-first
    buffer with bytes 0 and 1 exchanged.  Byte 2 is the bit-reversed data
    in both.  Bit reversal sends bit [i] to bit [7 - i]. *)
Theorem spi_write_lsb_first_layout (order reg_addr data : Z) :
  order <> 0 ->
  let lsb := spi_write_buff h order reg_addr data in
  let msb := spi_write_buff h 0 reg_addr data in
  (b0 msb = u8 (cst h ADF4377_SPI_WRITE_CMD) /\ b1 msb = u8 reg_addr
   /\ b2 msb = u8 data)
  /\ (b0 lsb = bit_swap_constant_8 (b1 msb)
      /\ b1 lsb = bit_swap_constant_8 (b0 msb)
      /\ b2 lsb = bit_swap_constant_8 (b2 msb))
  /\ (forall i, 0 <= i < 8 ->
        Z.testbit (b0 lsb) i = Z.testbit (u8 reg_addr) (7 - i)
        /\ Z.testbit (b1 lsb) i
           = Z.testbit (u8 (cst h ADF4377_SPI_WRITE_CMD)) (7 - i)
        /\ Z.testbit (b2 lsb) i = Z.testbit (u8 data) (7 - i)).
Proof.
  intros Ho lsb msb. unfold lsb, msb, spi_write_buff.
  destruct (Z.eqb_spec order 0) as [E | _]; [contradiction |].
  cbn. repeat split; auto using bit_swap_constant_8_testbit.
Qed.

End RegisterAccess.

(** C3 fails as stated: on an LSB-first bus the buffer for register 0x0A
    and data 0xA5 is not the byte-by-byte bit reversal of the MSB-first
    buffer; byte 0 holds the reversed address 0x50, not the reversed write
    command 0x00. *)
Lemma spi_write_lsb_first_not_bytewise :
  spi_write_buff Sample.header 1 0x0A 0xA5
  <> frame_map bit_swap_constant_8 (spi_write_buff Sample.header 0 0x0A 0xA5)
  /\ b0 (spi_write_buff Sample.header 1 0x0A 0xA5) = 0x50
  /\ b0 (frame_map bit_swap_constant_8
           (spi_write_buff Sample.header 0 0x0A 0xA5)) = 0x00.
Proof. vm_compute. repeat split; discriminate. Qed.

Lemma spi_write_lsb_first_layout_witness :
  1 <> 0
  /\ let lsb := spi_write_buff Sample.header 1 0x0A 0xA5 in
     let msb := spi_write_buff Sample.header 0 0x0A 0xA5 in
     (b0 msb = u8 (cst Sample.header ADF4377_SPI_WRITE_CMD)
      /\ b1 msb = u8 0x0A /\ b2 msb = u8 0xA5)
     /\ (b0 lsb = bit_swap_constant_8 (b1 msb)
         /\ b1 lsb = bit_swap_constant_8 (b0 msb)
         /\ b2 lsb = bit_swap_constant_8 (b2 msb))
     /\ (forall i, 0 <= i < 8 ->
           Z.testbit (b0 lsb) i = Z.testbit (u8 0x0A) (7 - i)
           /\ Z.testbit (b1 lsb) i
              = Z.testbit (u8 (cst Sample.header ADF4377_SPI_WRITE_CMD)) (7 - i)
           /\ Z.testbit (b2 lsb) i = Z.testbit (u8 0xA5) (7 - i)).
Proof.
  split; [lia |].
  apply (spi_write_lsb_first_layout Sample.header 1 0x0A 0xA5). lia.
Defined.

(** A bus on which every transfer fails with status -5. *)
Lemma spi_read_failure_keeps_data_witness :
  let P := Sample.failing (fun _ _ => true) (-5) Sample.good_board in
  -5 <> 0
  /\ adf4377_spi_read Sample.header P 0x03 (Some 0x42) Sample.w0
     = (Done (-5, Some 0x42),
        World Sample.dev0 [(SpiWriteAndRead (Frame 0x80 0x03 0x00), -5)]).
Proof.
  intro P. split; [lia |].
  apply (spi_read_failure_keeps_data Sample.header P 0x03 (Some 0x42) Sample.w0).
  vm_compute. discriminate.
Defined.

(** ** Software reset *)

Lemma repeat_app_cons {A : Type} (a : A) (n : nat) (l : list A) :
  repeat a n ++ a :: l = a :: repeat a n ++ l.
Proof. induction n as [| n IH]; cbn; [reflexivity | rewrite IH; reflexivity]. Qed.

Section SoftReset.

Context (h : Header) (P : platform).

(** As long as the polls succeed and show the reset bit set, the loop goes
    on: the counter [timeout] keeps the value it entered with, so the test
    [while (timeout)] never ends the loop and [return FAILURE] is never
    reached.  Stated for every header and platform. *)
Lemma soft_reset_poll_spins (order : Z) (fuel : nat) :
  let rd := spi_read_buff h order (fld h ADF4377_REG 0x00) in
  (forall lg, call_ret P lg (SpiWriteAndRead rd) = cst h SUCCESS) ->
  (forall lg, Z.land (u8 (b2 (xfer_rx P lg rd)))
                (fld h ADF4377_SOFT_RESET (cst h ADF4377_SOFT_RESET_EN)) <> 0) ->
  forall (timeout : Z) (data : option Z) (w : world),
    timeout <> 0 ->
    bit_order (spi_desc (dev w)) = order ->
    soft_reset_poll h P fuel timeout data w
    = (Spin, World (dev w) (repeat (SpiWriteAndRead rd, cst h SUCCESS) fuel
                              ++ log w)).
Proof.
  intros rd Hok Hset timeout. induction fuel as [| fuel IH]; intros data w Ht Ho.
  - cbn [soft_reset_poll]. destruct (Z.eqb_spec timeout 0); [contradiction |].
    cbn. destruct w; reflexivity.
  - cbn [soft_reset_poll]. destruct (Z.eqb_spec timeout 0); [contradiction |].
    cbn [negb]. unfold bind at 1.
    rewrite adf4377_spi_read_ok by (rewrite Ho; apply Hok).
    rewrite Ho. fold rd. rewrite Hok, Z.eqb_refl. cbn [negb].
    destruct (Z.eqb_spec
                (Z.land (u8 (b2 (xfer_rx P (log w) rd)))
                   (fld h ADF4377_SOFT_RESET (cst h ADF4377_SOFT_RESET_EN))) 0)
      as [E | _]; [elim (Hset _ E) |].
    rewrite IH by (cbn; auto). cbn [dev log].
    cbn [repeat app]. rewrite repeat_app_cons. reflexivity.
Qed.

End SoftReset.

(** C1, at a chip whose reset bit stays set.  Whatever number of polls the
    model is allowed to follow, [adf4377_soft_reset] has not returned after
    that many polls: with 65536 polls allowed, 65536 polls are in the log
    and the loop is still running.  The claim has the function stop after
    at most 65535 polls and return the failure value. *)
Theorem soft_reset_stuck_never_times_out (fuel : nat) :
  adf4377_soft_reset Sample.header Sample.stuck_reset fuel Sample.w0
  = (Spin,
     World Sample.dev0
       (repeat (SpiWriteAndRead (Frame 0x80 0x00 0x00), 0) fuel
        ++ [(SpiWriteAndRead (Frame 0x00 0x00 0x81), 0);
            (SpiWriteAndRead (Frame 0x80 0x00 0x00), 0)])).
Proof.
  unfold adf4377_soft_reset, bind.
  match goal with
  | |- context [adf4377_update ?hd ?P ?a ?m ?d ?w] =>
      replace (adf4377_update hd P a m d w)
        with (Done 0, World Sample.dev0
                        [(SpiWriteAndRead (Frame 0x00 0x00 0x81), 0);
                         (SpiWriteAndRead (Frame 0x80 0x00 0x00), 0)])
        by (vm_compute; reflexivity)
  end.
  cbv beta iota.
  change (negb (0 =? cst Sample.header SUCCESS)) with false. cbv iota.
  rewrite (soft_reset_poll_spins Sample.header Sample.stuck_reset 0 fuel).
  - reflexivity.
  - reflexivity.
  - intros lg. vm_compute. discriminate.
  - vm_compute. discriminate.
  - reflexivity.
Qed.

(** The other half of C1 holds: when the bit reads cleared on the third
    poll, the function returns SUCCESS at that poll (scenario S4). *)
Lemma soft_reset_clears_on_third_poll :
  adf4377_soft_reset Sample.header (Sample.reset_clears_at 3) 3 Sample.w0
  = (Done (cst Sample.header SUCCESS),
     World Sample.dev0
       [(SpiWriteAndRead (Frame 0x80 0x00 0x00), 0);
        (SpiWriteAndRead (Frame 0x80 0x00 0x00), 0);
        (SpiWriteAndRead (Frame 0x80 0x00 0x00), 0);
        (SpiWriteAndRead (Frame 0x00 0x00 0x81), 0);
        (SpiWriteAndRead (Frame 0x80 0x00 0x00), 0)]).
Proof. vm_compute. reflexivity. Qed.

(** ** Setup: unchecked results *)

(** C2, at a chip that reports type 0x07 where 0x06 is expected.  The
    mismatch branch returns [ret], which holds the SUCCESS of the read
    before it: [adf4377_setup] stops after the chip-type read, as the claim
    says, but returns SUCCESS, and [adf4377_init] returns SUCCESS with the
    handle and releases nothing. *)
Theorem setup_wrong_chip_type_returns_success :
  b2 (xfer_rx Sample.wrong_chip [] (Frame 0x80 0x03 0x00)) = 0x07
  /\ cst Sample.header ADF4377_CHIP_TYPE = 0x06
  /\ adf4377_setup Sample.header Sample.wrong_chip 1 Sample.w0
     = (Done (cst Sample.header SUCCESS),
        World Sample.dev0
          [(SpiWriteAndRead (Frame 0x80 0x03 0x00), 0);
           (SpiWriteAndRead (Frame 0x00 0x00 0x00), 0);
           (SpiWriteAndRead (Frame 0x80 0x00 0x00), 0);
           (SpiWriteAndRead (Frame 0x00 0x00 0x81), 0);
           (SpiWriteAndRead (Frame 0x80 0x00 0x00), 0)])
  /\ (let r := adf4377_init Sample.header Sample.wrong_chip 1 None
                 Sample.params (World zero_dev []) in
      fst r = Done (cst Sample.header SUCCESS, Some Sample.dev0)
      /\ released (rev (log (snd r))) = []).
Proof. vm_compute. repeat split; reflexivity. Qed.

(** C5, at a bus that fails one transfer with status -5.

    When the failing transfer is the power-up write to register 0x1A,
    [adf4377_set_freq] still runs (updates of 0x11 and 0x12, write of 0x10,
    the 100 ms delay) and setup goes on to return SUCCESS.

    When the failing transfer is the read of the update that disables the
    ADC clock in register 0x20, the update of the output amplitude in
    register 0x19 still follows, and its SUCCESS is what setup returns. *)
Theorem setup_ignores_two_results :
  (let P := Sample.failing Sample.power_up_write (-5) Sample.good_board in
   let r := adf4377_setup Sample.header P 4 Sample.w0 in
   fst r = Done (cst Sample.header SUCCESS)
   /\ skipn 50 (rev (log (snd r)))
      = [(SpiWriteAndRead (Frame 0x00 0x1A 0x00), -5);
         (SpiWriteAndRead (Frame 0x80 0x11 0x00), 0);
         (SpiWriteAndRead (Frame 0x00 0x11 0x00), 0);
         (SpiWriteAndRead (Frame 0x80 0x12 0x00), 0);
         (SpiWriteAndRead (Frame 0x00 0x12 0x81), 0);
         (SpiWriteAndRead (Frame 0x00 0x10 0x0A), 0);
         (Mdelay 100, 0);
         (SpiWriteAndRead (Frame 0x80 0x1C 0x00), 0);
         (SpiWriteAndRead (Frame 0x00 0x1C 0x00), 0);
         (SpiWriteAndRead (Frame 0x80 0x20 0x00), 0);
         (SpiWriteAndRead (Frame 0x00 0x20 0x00), 0);
         (SpiWriteAndRead (Frame 0x80 0x19 0x00), 0);
         (SpiWriteAndRead (Frame 0x00 0x19 0x50), 0)])
  /\ (let P := Sample.failing Sample.adc_clk_disable_read (-5)
                 Sample.good_board in
      let r := adf4377_setup Sample.header P 4 Sample.w0 in
      fst r = Done (cst Sample.header SUCCESS)
      /\ skipn 58 (rev (log (snd r)))
         = [(SpiWriteAndRead (Frame 0x00 0x1C 0x00), 0);
            (SpiWriteAndRead (Frame 0x80 0x20 0x00), -5);
            (SpiWriteAndRead (Frame 0x80 0x19 0x00), 0);
            (SpiWriteAndRead (Frame 0x00 0x19 0x50), 0)]).
Proof. vm_compute. repeat split; reflexivity. Qed.

(** Where the result is checked, C5 holds: a failing write in the default
    table ends setup with that status, and nothing follows. *)
Lemma setup_checked_step_aborts :
  let bad (hist : list entry) (c : call) :=
    match c with
    | SpiWriteAndRead tx => Sample.is_write_to 0x21 tx
    | _ => false
    end in
  let r := adf4377_setup Sample.header
             (Sample.failing bad (-5) Sample.good_board) 4 Sample.w0 in
  fst r = Done (-5)
  /\ hd_error (log (snd r)) = Some (SpiWriteAndRead (Frame 0x00 0x21 0xD3), -5).
Proof. vm_compute. split; reflexivity. Qed.

(** ** Reference divider and PFD frequency *)

(** The quotient drops to [m] or below exactly from the divider
    [c / (m + 1) + 1] on. *)
Lemma div_le_iff (c m r : Z) :
  0 <= c -> 0 <= m -> 0 < r ->
  (c / r <= m <-> c / (m + 1) + 1 <= r).
Proof.
  intros Hc Hm Hr. split; intro H.
  - assert (c < (m + 1) * r) by (Z.div_mod_to_equations; nia).
    assert (c / (m + 1) < r) by (apply Z.div_lt_upper_bound; lia).
    lia.
  - assert (c / (m + 1) < r) by lia.
    assert (c < (m + 1) * r) by (Z.div_mod_to_equations; nia).
    assert (c / r < m + 1) by (apply Z.div_lt_upper_bound; lia).
    lia.
Qed.

Section PfdSolver.

Context (h : Header).

(** The loop, started at divider [r] with [k + 1] increments to go before
    the quotient meets the limit, ends at the divider [r + 1 + k]. *)
Lemma pfd_loop_run (k : nat) :
  forall (fuel : nat) (d : adf4377_dev) (lg : list entry),
    let c := clkin_freq d in
    let m := cst h ADF4377_MAX_FREQ_PFD in
    let R := c / (m + 1) + 1 in
    0 <= c < 2 ^ bits_f_pfd h ->
    0 <= m ->
    R < 2 ^ bits_ref_div_factor h ->
    0 <= ref_div_factor d ->
    ref_div_factor d + 1 + Z.of_nat k = R ->
    (k < fuel)%nat ->
    exists d',
      pfd_loop h fuel (World d lg) = (Done tt, World d' lg)
      /\ ref_div_factor d' = R
      /\ f_pfd d' = c / R
      /\ clkin_freq d' = c.
Proof.
  induction k as [| k IH]; intros fuel d lg c m R Hc Hm HR Hr Hk Hfuel;
    (destruct fuel as [| fuel]; [lia |]);
    cbn [pfd_loop]; unfold bind, modify_dev, get_dev; cbn [dev log];
    cbn [ref_div_factor set_ref_div_factor clkin_freq set_f_pfd f_pfd];
    fold c; fold m;
    (assert (Hw : wrap (bits_ref_div_factor h) (ref_div_factor d + 1)
                  = ref_div_factor d + 1) by (apply wrap_small; lia));
    rewrite Hw;
    (destruct (Z.eqb_spec (ref_div_factor d + 1) 0) as [E | _]; [lia |]);
    (assert (Hq : wrap (bits_f_pfd h) (c / (ref_div_factor d + 1))
                  = c / (ref_div_factor d + 1))
       by (apply wrap_small; split;
           [apply Z.div_pos; lia
           | apply Z.le_lt_trans with c; [apply Z.div_le_upper_bound; nia | lia]]));
    rewrite Hq;
    pose proof (div_le_iff c m (ref_div_factor d + 1) (proj1 Hc) Hm ltac:(lia))
      as Hiff; fold R in Hiff;
    destruct (Z.ltb_spec m (c / (ref_div_factor d + 1))) as [Hgt | Hle].
  - (* last increment: the quotient must have met the limit *)
    exfalso. apply Z.lt_nge in Hgt. apply Hgt, Hiff. lia.
  - eexists. split; [reflexivity |]. cbn.
    replace R with (ref_div_factor d + 1) by lia. auto.
  - (* more increments to go *)
    cbv beta iota. cbn [dev log].
    match goal with
    | |- context [pfd_loop h fuel (World ?d1 lg)] =>
        pose proof (IH fuel d1 lg) as IH1
    end.
    cbv zeta in IH1.
    cbn [clkin_freq ref_div_factor set_f_pfd set_ref_div_factor] in IH1.
    fold c m R in IH1.
    destruct IH1 as (d' & Hrun & HR' & Hf' & Hc'); try lia.
    exists d'. auto.
  - exfalso. apply Hiff in Hle. lia.
Qed.

(** C6.  With the reference doubler off and the divider cleared, as
    [adf4377_setup] has it on entry, the solver returns with
    [ref_div_factor] the smallest positive [R] for which
    [clkin_freq / R <= ADF4377_MAX_FREQ_PFD], and [f_pfd] that quotient.
    [R0] witnesses that the divider member is wide enough to hold a value
    that brings the quotient under the limit; the PFD member is wide
    enough to hold the reference frequency. *)
Theorem pfd_divider_is_smallest (w : world) (R0 : Z) :
  ref_doubler_en (dev w) = 0 ->
  ref_div_factor (dev w) = 0 ->
  0 <= clkin_freq (dev w) < 2 ^ bits_f_pfd h ->
  0 < R0 < 2 ^ bits_ref_div_factor h ->
  clkin_freq (dev w) / R0 <= cst h ADF4377_MAX_FREQ_PFD ->
  exists R,
    0 < R
    /\ clkin_freq (dev w) / R <= cst h ADF4377_MAX_FREQ_PFD
    /\ (forall R', 0 < R' ->
          clkin_freq (dev w) / R' <= cst h ADF4377_MAX_FREQ_PFD -> R <= R')
    /\ forall fuel, (Z.to_nat R <= fuel)%nat ->
         exists w',
           compute_pfd h fuel w = (Done tt, w')
           /\ ref_div_factor (dev w') = R
           /\ f_pfd (dev w') = clkin_freq (dev w) / ref_div_factor (dev w')
           /\ log w' = log w.
Proof.
  intros Hdbl Hr0 Hc HR0 Hreach.
  set (c := clkin_freq (dev w)) in *.
  set (m := cst h ADF4377_MAX_FREQ_PFD) in *.
  assert (Hm : 0 <= m).
  { apply Z.le_trans with (c / R0); [apply Z.div_pos; lia | exact Hreach]. }
  exists (c / (m + 1) + 1).
  assert (Hpos : 0 <= c / (m + 1)) by (apply Z.div_pos; lia).
  split; [lia |]. split.
  { apply (div_le_iff c m); lia. }
  split.
  { intros R' HR' H'. apply (div_le_iff c m R'); lia. }
  intros fuel Hfuel.
  assert (HRle : c / (m + 1) + 1 <= R0) by (apply (div_le_iff c m R0); lia).
  unfold compute_pfd, bind, get_dev. rewrite Hdbl. cbn [Z.eqb].
  destruct w as [d lg]. cbn [dev log] in *.
  destruct (pfd_loop_run (Z.to_nat (c / (m + 1))) fuel d lg)
    as (d' & Hrun & HR' & Hf' & Hc'); fold c; fold m; try lia.
  exists (World d' lg). cbn [dev log]. rewrite HR'. fold c in Hf'. auto.
Qed.

End PfdSolver.

(** A 100 MHz reference under the 250 MHz limit of the sample header. *)
Lemma pfd_divider_is_smallest_witness :
  let w := Sample.w0 in
  ref_doubler_en (dev w) = 0
  /\ ref_div_factor (dev w) = 0
  /\ 0 <= clkin_freq (dev w) < 2 ^ bits_f_pfd Sample.header
  /\ 0 < 1 < 2 ^ bits_ref_div_factor Sample.header
  /\ clkin_freq (dev w) / 1 <= cst Sample.header ADF4377_MAX_FREQ_PFD
  /\ exists R,
       0 < R
       /\ clkin_freq (dev w) / R <= cst Sample.header ADF4377_MAX_FREQ_PFD
       /\ (forall R', 0 < R' ->
             clkin_freq (dev w) / R'
             <= cst Sample.header ADF4377_MAX_FREQ_PFD -> R <= R')
       /\ forall fuel, (Z.to_nat R <= fuel)%nat ->
            exists w',
              compute_pfd Sample.header fuel w = (Done tt, w')
              /\ ref_div_factor (dev w') = R
              /\ f_pfd (dev w')
                 = clkin_freq (dev w) / ref_div_factor (dev w')
              /\ log w' = log w.
Proof.
  intro w.
  assert (H1 : ref_doubler_en (dev w) = 0) by reflexivity.
  assert (H2 : ref_div_factor (dev w) = 0) by reflexivity.
  assert (H3 : 0 <= clkin_freq (dev w) < 2 ^ bits_f_pfd Sample.header)
    by (vm_compute; split; congruence).
  assert (H4 : 0 < 1 < 2 ^ bits_ref_div_factor Sample.header)
    by (vm_compute; split; congruence).
  assert (H5 : clkin_freq (dev w) / 1 <= cst Sample.header ADF4377_MAX_FREQ_PFD)
    by (vm_compute; congruence).
  repeat (split; [assumption |]).
  exact (pfd_divider_is_smallest Sample.header w 1
           H1 H2 H3 H4 H5).
Defined.

(** ** Output frequency *)

Section VcoSolver.

Context (h : Header) (P : platform).

Lemma quiet_Return {A : Type} (a : A) : quiet (Return a).
Proof. intros [d lg]. exists a, lg. reflexivity. Qed.

Lemma quiet_bind {A B : Type} (m : M A) (k : A -> M B) :
  quiet m -> (forall a, quiet (k a)) -> quiet (bind m k).
Proof.
  intros Hm Hk w. destruct (Hm w) as (a & lg & E).
  destruct (Hk a (World (dev w) lg)) as (b & lg' & E').
  exists b, lg'. unfold bind. rewrite E. exact E'.
Qed.

Lemma quiet_get_dev : quiet get_dev.
Proof. intros [d lg]. exists d, lg. reflexivity. Qed.

Lemma quiet_platform_call (c : call) : quiet (platform_call P c).
Proof. intros w. eexists. eexists. reflexivity. Qed.

Lemma quiet_spi_write (reg_addr data : Z) :
  quiet (adf4377_spi_write h P reg_addr data).
Proof. intros w. eexists. eexists. apply adf4377_spi_write_run. Qed.

Lemma quiet_update (reg_addr mask data : Z) :
  quiet (adf4377_update h P reg_addr mask data).
Proof.
  intros w. rewrite adf4377_update_run.
  destruct (_ =? _); eexists; eexists; reflexivity.
Qed.

Lemma quiet_program_freq : quiet (program_freq h P).
Proof.
  unfold program_freq.
  repeat first
    [ apply quiet_Return | apply quiet_get_dev | apply quiet_update
    | apply quiet_spi_write | apply quiet_platform_call
    | apply quiet_bind; [| intro]
    | match goal with |- quiet (if ?b then _ else _) => destruct b end ].
Qed.

(** The loop, entered after [k] doublings that all stayed under the
    minimum, leaves at the first exponent [e] that reaches it. *)
Lemma vco_loop_run (fuel : nat) :
  forall (k : Z) (d : adf4377_dev) (lg : list entry),
    let c := f_clk d in
    let vmin := cst h ADF4377_MIN_VCO_FREQ in
    0 < c ->
    vmin <= 2 ^ (bits_f_vco h - 1) ->
    bits_f_vco h <= 2 ^ bits_clkout_div_sel h ->
    0 <= k ->
    f_vco d = c * 2 ^ k ->
    clkout_div_sel d = k ->
    (forall j, 0 <= j < k -> c * 2 ^ j < vmin) ->
    bits_f_vco h <= k + Z.of_nat fuel ->
    exists e d',
      k <= e
      /\ vco_loop h fuel (World d lg) = (Done tt, World d' lg)
      /\ f_vco d' = c * 2 ^ e
      /\ clkout_div_sel d' = e
      /\ vmin <= c * 2 ^ e
      /\ (forall j, 0 <= j < e -> c * 2 ^ j < vmin)
      /\ f_clk d' = c /\ f_pfd d' = f_pfd d.
Proof.
  induction fuel as [| fuel IH]; intros k d lg c vmin Hc Hv Hs Hk Hf Hsel Hlow Hfuel.
  - (* no fuel is needed: the exponent is already at the width *)
    cbn [vco_loop]. unfold bind, get_dev. cbn [dev log]. fold vmin.
    destruct (Z.ltb_spec (f_vco d) vmin) as [Hlt | Hge].
    + exfalso. rewrite Hf in Hlt.
      assert (0 < bits_f_vco h - 1 \/ bits_f_vco h - 1 <= 0) as [Hw | Hw] by lia.
      * assert (2 ^ (bits_f_vco h - 1) <= 2 ^ k)
          by (apply Z.pow_le_mono_r; lia).
        assert (0 < 2 ^ k) by (apply Z.pow_pos_nonneg; lia). nia.
      * assert (0 < 2 ^ k) by (apply Z.pow_pos_nonneg; lia).
        assert (2 ^ (bits_f_vco h - 1) <= 1).
        { destruct (Z.eq_dec (bits_f_vco h - 1) 0) as [-> | ?]; [cbn; lia |].
          rewrite Z.pow_neg_r by lia. lia. }
        nia.
    + exists k, d. rewrite <- Hf. repeat split; auto; lia.
  - cbn [vco_loop]. unfold bind, get_dev, modify_dev. cbn [dev log]. fold vmin.
    destruct (Z.ltb_spec (f_vco d) vmin) as [Hlt | Hge].
    + cbv beta iota.
      cbn [dev log f_vco set_f_vco clkout_div_sel set_clkout_div_sel].
      assert (Hpk : 0 < 2 ^ k) by (apply Z.pow_pos_nonneg; lia).
      assert (Hkw : k < bits_f_vco h - 1).
      { rewrite Hf in Hlt.
        destruct (Z.lt_ge_cases k (bits_f_vco h - 1)) as [? | Hge']; [assumption |].
        exfalso.
        assert (0 <= bits_f_vco h - 1 \/ bits_f_vco h - 1 < 0) as [Hw | Hw] by lia.
        - assert (2 ^ (bits_f_vco h - 1) <= 2 ^ k)
            by (apply Z.pow_le_mono_r; lia). nia.
        - rewrite Z.pow_neg_r in Hv by lia. nia. }
      assert (Hpw : 2 ^ bits_f_vco h = 2 * 2 ^ (bits_f_vco h - 1)).
      { replace (bits_f_vco h) with (Z.succ (bits_f_vco h - 1)) at 1 by lia.
        apply Z.pow_succ_r. lia. }
      assert (Hdbl : wrap (bits_f_vco h) (Z.shiftl (f_vco d) 1) = c * 2 ^ (k + 1)).
      { rewrite Z.shiftl_mul_pow2 by lia. rewrite Hf.
        rewrite Z.pow_add_r by lia. change (2 ^ 1) with 2.
        rewrite Z.mul_1_r || idtac.
        rewrite wrap_small; [ring |]. rewrite Hf in Hlt. nia. }
      assert (Hinc : wrap (bits_clkout_div_sel h) (clkout_div_sel d + 1) = k + 1).
      { rewrite Hsel. apply wrap_small. lia. }
      rewrite Hdbl, Hinc.
      match goal with
      | |- context [vco_loop h fuel (World ?d1 lg)] =>
          pose proof (IH (k + 1) d1 lg) as IH1
      end.
      cbv zeta in IH1.
      cbn [f_clk f_vco f_pfd clkout_div_sel set_f_vco set_clkout_div_sel] in IH1.
      fold c vmin in IH1.
      destruct IH1 as (e & d' & He & Hrun & H1 & H2 & H3 & H4 & H5 & H6);
        try lia; try reflexivity.
      { intros j Hj. destruct (Z.eq_dec j k) as [-> | ?].
        - rewrite <- Hf. exact Hlt.
        - apply Hlow. lia. }
      exists e, d'. repeat split; auto; lia.
    + exists k, d. rewrite <- Hf. repeat split; auto; lia.
Qed.

End VcoSolver.

Section SetFreq.

Context (h : Header) (P : platform).

(** The first exponent that reaches the minimum is unique. *)
Lemma first_exponent_unique (c vmin e e' : Z) :
  vmin <= c * 2 ^ e -> (forall j, 0 <= j < e -> c * 2 ^ j < vmin) ->
  vmin <= c * 2 ^ e' -> (forall j, 0 <= j < e' -> c * 2 ^ j < vmin) ->
  0 <= e -> 0 <= e' -> e = e'.
Proof.
  intros H1 L1 H2 L2 He He'.
  destruct (Z.lt_trichotomy e e') as [Hlt | [Heq | Hgt]]; [| assumption |].
  - specialize (L2 e ltac:(lia)). lia.
  - specialize (L1 e' ltac:(lia)). lia.
Qed.

Lemma vco_solve_run (fuel : nat) (d : adf4377_dev) (lg : list entry) :
  let c := f_clk d in
  let vmin := cst h ADF4377_MIN_VCO_FREQ in
  0 < c < 2 ^ bits_f_vco h ->
  vmin <= 2 ^ (bits_f_vco h - 1) ->
  bits_f_vco h <= 2 ^ bits_clkout_div_sel h ->
  clkout_div_sel d = 0 ->
  0 < f_pfd d ->
  c / f_pfd d < 2 ^ bits_n_int h ->
  (Z.to_nat (bits_f_vco h) <= fuel)%nat ->
  exists e d',
    0 <= e
    /\ vco_solve h fuel (World d lg) = (Done tt, World d' lg)
    /\ f_vco d' = c * 2 ^ e
    /\ clkout_div_sel d' = e
    /\ vmin <= c * 2 ^ e
    /\ (forall j, 0 <= j < e -> c * 2 ^ j < vmin)
    /\ n_int d' = c / f_pfd d.
Proof.
  intros c vmin Hc Hv Hs Hsel Hp Hn Hfuel.
  unfold vco_solve. unfold bind at 1. unfold modify_dev at 1. cbn [dev log].
  rewrite wrap_small by (fold c; lia). unfold bind at 1.
  destruct (vco_loop_run h fuel 0 (set_f_vco (f_clk d) d) lg)
    as (e & d' & He & Hrun & H1 & H2 & H3 & H4 & H5 & H6);
    cbn [f_clk f_vco f_pfd clkout_div_sel set_f_vco]; fold c; fold vmin;
    try lia; try assumption.
  cbn [f_clk set_f_vco] in *. fold c vmin in H1, H3, H4, H5.
  fold c in Hrun. rewrite Hrun. unfold bind, get_dev, modify_dev.
  cbn [dev log]. cbn [f_pfd set_f_vco] in H6. rewrite H6.
  destruct (Z.eqb_spec (f_pfd d) 0) as [E | _]; [lia |].
  exists e. eexists. split; [exact He |]. split; [reflexivity |].
  cbn [f_vco clkout_div_sel n_int set_n_int].
  rewrite H5. rewrite wrap_small.
  - auto.
  - split; [apply Z.div_pos; lia | exact Hn].
Qed.

(** C7.  For [f_clk] in the legal output range, [adf4377_set_freq] returns
    once the fuel covers the width of the VCO member, and then
    [clkout_div_sel] is the least [e] with [f_clk * 2 ^ e >= MIN_VCO_FREQ],
    [f_vco = f_clk * 2 ^ clkout_div_sel], the VCO frequency lies between
    the minimum and twice the minimum when [f_clk] is under the minimum,
    and [n_int = f_clk / f_pfd].  The handle has these values whether or
    not the register writes that follow succeed.

    The header is assumed sane: the output range is positive and fits the
    VCO member, doubling a value under the minimum cannot overflow that
    member, the divider member can count its bits; the PFD frequency is
    positive and the quotient fits the N member. *)
Theorem set_freq_vco_range (w : world) :
  let c := f_clk (dev w) in
  let vmin := cst h ADF4377_MIN_VCO_FREQ in
  cst h ADF4377_MIN_CLKPN_FREQ <= c <= cst h ADF4377_MAX_CLKPN_FREQ ->
  0 < cst h ADF4377_MIN_CLKPN_FREQ ->
  cst h ADF4377_MAX_CLKPN_FREQ < 2 ^ bits_f_vco h ->
  vmin <= 2 ^ (bits_f_vco h - 1) ->
  bits_f_vco h <= 2 ^ bits_clkout_div_sel h ->
  0 < f_pfd (dev w) ->
  c / f_pfd (dev w) < 2 ^ bits_n_int h ->
  exists e,
    0 <= e
    /\ vmin <= c * 2 ^ e
    /\ (forall j, 0 <= j < e -> c * 2 ^ j < vmin)
    /\ forall fuel, (Z.to_nat (bits_f_vco h) <= fuel)%nat ->
         exists ret w',
           adf4377_set_freq h P fuel w = (Done ret, w')
           /\ clkout_div_sel (dev w') = e
           /\ f_vco (dev w') = c * 2 ^ clkout_div_sel (dev w')
           /\ (c < vmin -> vmin <= f_vco (dev w') <= 2 * vmin)
           /\ n_int (dev w') = c / f_pfd (dev w).
Proof.
  intros c vmin Hrange Hmin Hmax Hv Hs Hp Hn.
  destruct w as [d lg]. cbn [dev log] in *.
  assert (Hstart : forall fuel, (Z.to_nat (bits_f_vco h) <= fuel)%nat ->
    exists e d',
      0 <= e
      /\ vco_solve h fuel (World (set_clkout_div_sel 0 d) lg)
         = (Done tt, World d' lg)
      /\ f_vco d' = c * 2 ^ e /\ clkout_div_sel d' = e
      /\ vmin <= c * 2 ^ e
      /\ (forall j, 0 <= j < e -> c * 2 ^ j < vmin)
      /\ n_int d' = c / f_pfd d).
  { intros fuel Hfuel.
    apply (vco_solve_run fuel (set_clkout_div_sel 0 d) lg);
      cbn [f_clk f_pfd clkout_div_sel set_clkout_div_sel]; fold c; fold vmin;
      try lia; assumption. }
  destruct (Hstart (Z.to_nat (bits_f_vco h)) (Nat.le_refl _))
    as (e & _ & He & _ & _ & _ & Hreach & Hleast & _).
  exists e. repeat (split; [assumption |]).
  intros fuel Hfuel.
  destruct (Hstart fuel Hfuel) as (e' & d' & He' & Hrun & H1 & H2 & H3 & H4 & H5).
  assert (Heq : e' = e) by (apply (first_exponent_unique c vmin); assumption).
  rewrite Heq in H1, H2, H3, H4. clear Heq He'.
  destruct (quiet_program_freq h P (World d' lg)) as (ret & lg' & Hprog).
  exists ret, (World d' lg'). cbn [dev log] in *.
  split.
  - unfold adf4377_set_freq. unfold bind at 1. unfold modify_dev at 1.
    cbn [dev log]. unfold bind at 1. unfold get_dev at 1. cbn [dev log].
    cbn [f_clk set_clkout_div_sel]. fold c.
    unfold ADF4377_CHECK_RANGE.
    destruct (Z.ltb_spec (cst h ADF4377_MAX_CLKPN_FREQ) c); [lia |].
    destruct (Z.ltb_spec c (cst h ADF4377_MIN_CLKPN_FREQ)); [lia |].
    cbn [orb]. unfold bind at 1. rewrite Hrun. exact Hprog.
  - rewrite H2. split; [reflexivity |]. split; [exact H1 |].
    split; [| exact H5].
    intro Hlow. rewrite H1. split; [exact H3 |].
    assert (0 < e).
    { destruct (Z.eq_dec e 0) as [E | ?]; [| lia].
      rewrite E, Z.pow_0_r, Z.mul_1_r in H3. lia. }
    specialize (H4 (e - 1) ltac:(lia)).
    replace e with (Z.succ (e - 1)) by lia.
    rewrite Z.pow_succ_r by lia. lia.
Qed.

End SetFreq.

(** A 1 GHz output against the 4 GHz VCO minimum of the sample header and
    a 100 MHz PFD frequency (scenario S3). *)
Lemma set_freq_vco_range_witness :
  let h := Sample.header in
  let w := World (set_f_pfd 100000000 Sample.dev0) [] in
  let c := f_clk (dev w) in
  let vmin := cst h ADF4377_MIN_VCO_FREQ in
  (cst h ADF4377_MIN_CLKPN_FREQ <= c <= cst h ADF4377_MAX_CLKPN_FREQ)
  /\ 0 < cst h ADF4377_MIN_CLKPN_FREQ
  /\ cst h ADF4377_MAX_CLKPN_FREQ < 2 ^ bits_f_vco h
  /\ vmin <= 2 ^ (bits_f_vco h - 1)
  /\ bits_f_vco h <= 2 ^ bits_clkout_div_sel h
  /\ 0 < f_pfd (dev w)
  /\ c / f_pfd (dev w) < 2 ^ bits_n_int h
  /\ exists e,
       0 <= e
       /\ vmin <= c * 2 ^ e
       /\ (forall j, 0 <= j < e -> c * 2 ^ j < vmin)
       /\ forall fuel, (Z.to_nat (bits_f_vco h) <= fuel)%nat ->
            exists ret w',
              adf4377_set_freq h Sample.good_board fuel w = (Done ret, w')
              /\ clkout_div_sel (dev w') = e
              /\ f_vco (dev w') = c * 2 ^ clkout_div_sel (dev w')
              /\ (c < vmin -> vmin <= f_vco (dev w') <= 2 * vmin)
              /\ n_int (dev w') = c / f_pfd (dev w).
Proof.
  intros h w c vmin.
  assert (H1 : cst h ADF4377_MIN_CLKPN_FREQ <= c <= cst h ADF4377_MAX_CLKPN_FREQ)
    by (vm_compute; split; congruence).
  assert (H2 : 0 < cst h ADF4377_MIN_CLKPN_FREQ) by reflexivity.
  assert (H3 : cst h ADF4377_MAX_CLKPN_FREQ < 2 ^ bits_f_vco h) by reflexivity.
  assert (H4 : vmin <= 2 ^ (bits_f_vco h - 1)) by (vm_compute; congruence).
  assert (H5 : bits_f_vco h <= 2 ^ bits_clkout_div_sel h)
    by (vm_compute; congruence).
  assert (H6 : 0 < f_pfd (dev w)) by reflexivity.
  assert (H7 : c / f_pfd (dev w) < 2 ^ bits_n_int h) by reflexivity.
  repeat (split; [assumption |]).
  exact (set_freq_vco_range h Sample.good_board w H1 H2 H3 H4 H5 H6 H7).
Defined.

(** Scenario S3 run: 1 GHz doubles twice to 4 GHz, and N is 10. *)
Lemma set_freq_scenario_S3 :
  let r := adf4377_set_freq Sample.header Sample.good_board 64
             (World (set_f_pfd 100000000 Sample.dev0) []) in
  fst r = Done 0
  /\ clkout_div_sel (dev (snd r)) = 2
  /\ f_vco (dev (snd r)) = 4000000000
  /\ n_int (dev (snd r)) = 10.
Proof. vm_compute. repeat split; reflexivity. Qed.

(** ** Calibration clocks *)

(** Without wrap-around, [DIV_ROUND_UP x y] is the ceiling of [x / y]: the
    least [q] with [x <= q * y]. *)
Lemma DIV_ROUND_UP_is_ceiling (x y : Z) :
  0 <= x -> 0 < y < 2 ^ 32 -> x + y - 1 < 2 ^ 32 ->
  exists q, DIV_ROUND_UP x y = Some q /\ (q - 1) * y < x <= q * y.
Proof.
  intros Hx [Hy Hy32] Hb. unfold DIV_ROUND_UP, u32.
  rewrite !wrap_small by lia.
  destruct (Z.eqb_spec y 0); [lia |].
  eexists. split; [reflexivity |].
  pose proof (Z.div_mod (x + y - 1) y ltac:(lia)) as Hdm.
  pose proof (Z.mod_pos_bound (x + y - 1) y Hy) as Hr.
  set (q := (x + y - 1) / y) in *. set (r := (x + y - 1) mod y) in *.
  split; lia.
Qed.

(** C8 (scenario S1).  With a 100 MHz reference, the doubler off and a
    250 MHz PFD limit, the solver gives R = 1 and f_pfd = 100 MHz, and the
    calibration block selects the row "at most 125 MHz": the divide-by-1
    codes for DCLK_DIV1 and DCLK_DIV2, DCLK_MODE enabled,
    f_div_rclk = 100 000 000, and the timeouts 2000, 5000, 21 and 62.
    The thresholds are those their names give and the enabled mode is
    coded 1, as the formula [1 << MODE] of the spec has it. *)
Theorem scenario_S1 (h : Header) (w : world) (fuel : nat) :
  cst h ADF4377_MAX_FREQ_PFD = 250000000 ->
  cst h ADF4377_FREQ_PFD_80MHZ = 80000000 ->
  cst h ADF4377_FREQ_PFD_125MHZ = 125000000 ->
  cst h ADF4377_DCLK_MODE_EN = 1 ->
  100000000 < 2 ^ bits_f_pfd h ->
  1 < 2 ^ bits_ref_div_factor h ->
  clkin_freq (dev w) = 100000000 ->
  ref_doubler_en (dev w) = 0 ->
  ref_div_factor (dev w) = 0 ->
  (1 <= fuel)%nat ->
  exists w',
    compute_pfd h fuel w = (Done tt, w')
    /\ ref_div_factor (dev w') = 1
    /\ f_pfd (dev w') = 100000000
    /\ calib_clock h (f_pfd (dev w'))
       = Some {| dclk_div1 := u8 (cst h ADF4377_DCLK_DIV1_1);
                 dclk_div2 := u8 (cst h ADF4377_DCLK_DIV2_1);
                 dclk_mode := 1;
                 f_div_rclk := 100000000;
                 synth_lock_timeout := 2000;
                 vco_alc_timeout := 5000;
                 vco_band_div := 21;
                 adc_clk_div := 62 |}.
Proof.
  intros Hmax H80 H125 Hen Hbits HbitsR Hclk Hdbl Hr0 Hfuel.
  destruct w as [d lg]. cbn [dev log] in *.
  destruct fuel as [| fuel]; [lia |].
  assert (HR1 : clkin_freq d / (cst h ADF4377_MAX_FREQ_PFD + 1) + 1 = 1)
    by (rewrite Hclk, Hmax; reflexivity).
  pose proof (pfd_loop_run h 0 (S fuel) d lg) as Hloop. cbv zeta in Hloop.
  rewrite HR1 in Hloop.
  destruct Hloop as (d' & Hrun & HR' & Hf' & _);
    [rewrite Hclk; lia | rewrite Hmax; lia | exact HbitsR | rewrite Hr0; lia
    | rewrite Hr0; reflexivity | lia |].
  exists (World d' lg). cbn [dev log].
  rewrite Hclk in Hf'.
  change (100000000 / 1) with 100000000 in Hf'.
  split.
  { unfold compute_pfd, bind, get_dev. cbn [dev log]. rewrite Hdbl. exact Hrun. }
  repeat (split; [assumption |]).
  rewrite Hf'. unfold calib_clock, dclk_select. rewrite H80, H125, Hen.
  reflexivity.
Qed.

Lemma scenario_S1_witness :
  let h := Sample.header in
  let w := Sample.w0 in
  cst h ADF4377_MAX_FREQ_PFD = 250000000
  /\ cst h ADF4377_FREQ_PFD_80MHZ = 80000000
  /\ cst h ADF4377_FREQ_PFD_125MHZ = 125000000
  /\ cst h ADF4377_DCLK_MODE_EN = 1
  /\ 100000000 < 2 ^ bits_f_pfd h
  /\ 1 < 2 ^ bits_ref_div_factor h
  /\ clkin_freq (dev w) = 100000000
  /\ ref_doubler_en (dev w) = 0
  /\ ref_div_factor (dev w) = 0
  /\ (1 <= 1)%nat
  /\ exists w',
       compute_pfd h 1 w = (Done tt, w')
       /\ ref_div_factor (dev w') = 1
       /\ f_pfd (dev w') = 100000000
       /\ calib_clock h (f_pfd (dev w'))
          = Some {| dclk_div1 := u8 (cst h ADF4377_DCLK_DIV1_1);
                    dclk_div2 := u8 (cst h ADF4377_DCLK_DIV2_1);
                    dclk_mode := 1;
                    f_div_rclk := 100000000;
                    synth_lock_timeout := 2000;
                    vco_alc_timeout := 5000;
                    vco_band_div := 21;
                    adc_clk_div := 62 |}.
Proof.
  intros h w.
  assert (H5 : 100000000 < 2 ^ bits_f_pfd h) by reflexivity.
  assert (H6 : 1 < 2 ^ bits_ref_div_factor h) by reflexivity.
  repeat (split; [first [reflexivity | assumption | apply Nat.le_refl] |]).
  exact (scenario_S1 h w 1 eq_refl eq_refl eq_refl eq_refl H5 H6
           eq_refl eq_refl eq_refl (Nat.le_refl 1)).
Defined.

(** Scenario S2: a 500 MHz reference is divided by 2 to 250 MHz, and the
    row "at most 250 MHz" halves it to 125 MHz. *)
Lemma scenario_S2 :
  let w := World (set_f_pfd 0 {|
    spi_desc := {| bit_order := 0 |}; gpio_ce := None; gpio_enclk1 := None;
    gpio_enclk2 := None; spi3wire := 0; clkin_freq := 500000000; cp_i := 0;
    muxout_default := 0; ref_doubler_en := 0; f_pfd := 0; f_clk := 0;
    f_vco := 0; n_int := 0; clkout_op := 0; ref_div_factor := 0;
    clkout_div_sel := 0 |}) [] in
  let r := compute_pfd Sample.header 2 w in
  fst r = Done tt
  /\ ref_div_factor (dev (snd r)) = 2
  /\ f_pfd (dev (snd r)) = 250000000
  /\ option_map f_div_rclk (calib_clock Sample.header (f_pfd (dev (snd r))))
     = Some 125000000.
Proof. vm_compute. repeat split; reflexivity. Qed.

(** ** Init: rollback *)

Lemma omap_app {A B : Type} (f : A -> option B) (l1 l2 : list A) :
  omap f (l1 ++ l2) = omap f l1 ++ omap f l2.
Proof.
  induction l1 as [| a l1 IH]; cbn; [reflexivity |].
  destruct (f a); cbn; rewrite IH; reflexivity.
Qed.

Lemma omap_rev {A B : Type} (f : A -> option B) (l : list A) :
  omap f (rev l) = rev (omap f l).
Proof.
  induction l as [| a l IH]; cbn; [reflexivity |].
  rewrite omap_app, IH. cbn. destruct (f a); cbn; [reflexivity |].
  apply app_nil_r.
Qed.

(** Transfers and delays neither acquire nor release. *)
Lemma released_bus (t : list entry) : forallb is_bus t = true -> released t = [].
Proof.
  induction t as [| [c r] t IH]; cbn; [reflexivity |].
  intro H. apply andb_true_iff in H. destruct H as [Hc Ht].
  destruct c; try discriminate; cbn; auto.
Qed.

Lemma acquired_bus (h : Header) (t : list entry) :
  forallb is_bus t = true -> acquired h t = [].
Proof.
  induction t as [| [c r] t IH]; cbn; [reflexivity |].
  intro H. apply andb_true_iff in H. destruct H as [Hc Ht].
  destruct c; try discriminate; cbn; auto.
Qed.

Section BusOnly.

Context (h : Header) (P : platform).

Lemma bus_only_Return {A : Type} (a : A) : bus_only (Return a).
Proof.
  intros w o w' E. injection E as <- <-. exists []. split; reflexivity.
Qed.

Lemma bus_only_spin {A : Type} : bus_only (@spin A).
Proof.
  intros w o w' E. injection E as <- <-. exists []. split; reflexivity.
Qed.

Lemma bus_only_fault {A : Type} : bus_only (@fault A).
Proof.
  intros w o w' E. injection E as <- <-. exists []. split; reflexivity.
Qed.

Lemma bus_only_get_dev : bus_only get_dev.
Proof.
  intros w o w' E. injection E as <- <-. exists []. split; reflexivity.
Qed.

Lemma bus_only_modify_dev (f : adf4377_dev -> adf4377_dev) :
  bus_only (modify_dev f).
Proof.
  intros w o w' E. injection E as <- <-. exists []. split; reflexivity.
Qed.

Lemma bus_only_bind {A B : Type} (m : M A) (k : A -> M B) :
  bus_only m -> (forall a, bus_only (k a)) -> bus_only (bind m k).
Proof.
  intros Hm Hk w o w' E. unfold bind in E.
  destruct (m w) as [o1 w1] eqn:E1.
  destruct (Hm w o1 w1 E1) as (t1 & L1 & B1).
  destruct o1 as [a | |].
  - destruct (Hk a w1 o w' E) as (t2 & L2 & B2).
    exists (t2 ++ t1). split.
    + rewrite L2, L1. apply app_assoc.
    + rewrite forallb_app, B2, B1. reflexivity.
  - injection E as <- <-. exists t1. auto.
  - injection E as <- <-. exists t1. auto.
Qed.

Lemma bus_only_spi_write_and_read (buff : frame) :
  bus_only (spi_write_and_read P buff).
Proof.
  intros w o w' E. injection E as <- <-. eexists [_]. split; reflexivity.
Qed.

Lemma bus_only_mdelay (ms : Z) : bus_only (platform_call P (Mdelay ms)).
Proof.
  intros w o w' E. injection E as <- <-. eexists [_]. split; reflexivity.
Qed.

(** Walks through a body built from the monad operations. *)
Ltac bus_only_step :=
  first
    [ apply bus_only_Return | apply bus_only_spin | apply bus_only_fault
    | apply bus_only_get_dev | apply bus_only_modify_dev
    | apply bus_only_spi_write_and_read | apply bus_only_mdelay
    | assumption
    | apply bus_only_bind; [| intros ?]
    | match goal with
      | |- bus_only (if ?b then _ else _) => destruct b
      | |- bus_only (match ?x with _ => _ end) => destruct x
      end ].

Lemma bus_only_spi_write (reg_addr data : Z) :
  bus_only (adf4377_spi_write h P reg_addr data).
Proof. unfold adf4377_spi_write. repeat bus_only_step. Qed.

Lemma bus_only_spi_read (reg_addr : Z) (data : option Z) :
  bus_only (adf4377_spi_read h P reg_addr data).
Proof. unfold adf4377_spi_read. repeat bus_only_step. Qed.

Lemma bus_only_update (reg_addr mask data : Z) :
  bus_only (adf4377_update h P reg_addr mask data).
Proof.
  pose proof bus_only_spi_read. pose proof bus_only_spi_write.
  unfold adf4377_update. repeat bus_only_step.
Qed.

Lemma bus_only_check_scratchpad : bus_only (adf4377_check_scratchpad h P).
Proof.
  unfold adf4377_check_scratchpad.
  repeat first [apply bus_only_spi_read | apply bus_only_spi_write | bus_only_step].
Qed.

Lemma bus_only_set_default : bus_only (adf4377_set_default h P).
Proof.
  unfold adf4377_set_default.
  repeat first [apply bus_only_update | apply bus_only_spi_write | bus_only_step].
Qed.

Lemma bus_only_soft_reset_poll (fuel : nat) (timeout : Z) :
  forall data, bus_only (soft_reset_poll h P fuel timeout data).
Proof.
  induction fuel as [| fuel IH]; intro data; cbn [soft_reset_poll];
    repeat first [apply bus_only_spi_read | apply IH | bus_only_step].
Qed.

Lemma bus_only_soft_reset (fuel : nat) : bus_only (adf4377_soft_reset h P fuel).
Proof.
  unfold adf4377_soft_reset.
  repeat first [apply bus_only_update | apply bus_only_soft_reset_poll
               | bus_only_step].
Qed.

Lemma bus_only_vco_loop (fuel : nat) : bus_only (vco_loop h fuel).
Proof.
  induction fuel as [| fuel IH]; cbn [vco_loop]; repeat bus_only_step.
Qed.

Lemma bus_only_pfd_loop (fuel : nat) : bus_only (pfd_loop h fuel).
Proof.
  induction fuel as [| fuel IH]; cbn [pfd_loop]; repeat bus_only_step.
Qed.

Lemma bus_only_set_freq (fuel : nat) : bus_only (adf4377_set_freq h P fuel).
Proof.
  unfold adf4377_set_freq, vco_solve, program_freq.
  repeat first [apply bus_only_update | apply bus_only_spi_write
               | apply bus_only_vco_loop | bus_only_step].
Qed.

Lemma bus_only_compute_pfd (fuel : nat) : bus_only (compute_pfd h fuel).
Proof.
  unfold compute_pfd. repeat first [apply bus_only_pfd_loop | bus_only_step].
Qed.

Lemma bus_only_setup (fuel : nat) : bus_only (adf4377_setup h P fuel).
Proof.
  unfold adf4377_setup.
  repeat first
    [ apply bus_only_update | apply bus_only_spi_write
    | apply bus_only_spi_read | apply bus_only_soft_reset
    | apply bus_only_check_scratchpad | apply bus_only_set_default
    | apply bus_only_compute_pfd | apply bus_only_set_freq
    | bus_only_step ].
Qed.

End BusOnly.

Section Init.

Context (h : Header) (P : platform).

(** Splits a log, newest first, into the releases at its head and the
    rest. *)
Ltac peel l :=
  lazymatch l with
  | (Free, ?r) :: ?l' =>
      let p := peel l' in
      lazymatch p with (?c, ?rest) => constr:(((Free, r) :: c, rest)) end
  | (GpioRemove ?g, ?r) :: ?l' =>
      let p := peel l' in
      lazymatch p with
      | (?c, ?rest) => constr:(((GpioRemove g, r) :: c, rest))
      end
  | (SpiRemove, ?r) :: ?l' =>
      let p := peel l' in
      lazymatch p with (?c, ?rest) => constr:(((SpiRemove, r) :: c, rest)) end
  | _ => constr:((@nil entry, l))
  end.

(** Unfolds [adf4377_init] and its labels in [H], past the test of
    [calloc]. *)
Ltac enter_init H Hcalloc :=
  unfold adf4377_init, error_spi, error_gpio_enclk2, error_gpio_enclk1,
    error_gpio_ce, error_dev in H;
  unfold bind, platform_call, modify_dev, get_dev, Return in H;
  cbn [dev log] in H;
  match type of Hcalloc with
  | (?p =? 0) = false =>
      let p' := eval cbv delta [p] in p in change p' with p in H
  | _ => idtac
  end;
  rewrite Hcalloc in H;
  cbv beta iota in H; cbn [dev log] in H.

(** A call of [adf4377_init] that succeeded, by [E]. *)
Ltac passed H E :=
  rewrite E in H; rewrite Z.eqb_refl in H;
  cbn [negb] in H; cbv beta iota in H; cbn [dev log] in H.

(** A failure of one of the calls [adf4377_init] makes itself is rolled
    back.  When [calloc] gave memory, the first [k] calls of
    [init_steps] succeeded and call [k] returns [r], not SUCCESS, the
    run returns [r], leaves [*device] alone and, after the failing call,
    makes exactly one release for each resource acquired up to it, in
    reverse order of acquisition, the handle memory last. *)
Lemma init_own_failure_rolls_back (fuel : nat)
    (device : option adf4377_dev) (ip : init_param.t) (w : world)
    (k : nat) :
  let p := call_ret P (log w) Calloc in
  let before := fun i : nat =>
    (Calloc, p) :: succeeded h (firstn i (init_steps h)) in
  let c := nth k (init_steps h) Calloc in
  let r := call_ret P (rev (before k) ++ log w) c in
  p <> 0 ->
  (k < length (init_steps h))%nat ->
  (forall i, (i < k)%nat ->
     call_ret P (rev (before i) ++ log w) (nth i (init_steps h) Calloc)
     = cst h SUCCESS) ->
  r <> cst h SUCCESS ->
  let pre := before k ++ [(c, r)] in
  exists d' cleanup,
    adf4377_init h P fuel device ip w
    = (Done (r, device), World d' (rev cleanup ++ rev pre ++ log w))
    /\ map fst cleanup = map release_of (rev (acquired h pre)).
Proof.
  intros p before c r Hp Hk Hok Hr pre.
  destruct w as [d lg]. cbn [log] in *.
  assert (Hcalloc : (p =? 0) = false) by (apply Z.eqb_neq; exact Hp).
  assert (Hfail : (r =? cst h SUCCESS) = false) by (apply Z.eqb_neq; exact Hr).
  pose proof (Hok 0%nat) as H0. pose proof (Hok 1%nat) as H1.
  pose proof (Hok 2%nat) as H2. pose proof (Hok 3%nat) as H3.
  pose proof (Hok 4%nat) as H4. pose proof (Hok 5%nat) as H5.
  clear Hok.
  destruct (adf4377_init h P fuel device ip (World d lg)) as [o [d' lg']]
    eqn:Hrun.
  enter_init Hrun Hcalloc.
  destruct k as [| [| [| [| [| [| [| k]]]]]]];
    [ | | | | | | | cbn in Hk; lia ];
    subst pre r c before;
    cbn [firstn init_steps succeeded map rev app nth] in *.
  all: try (specialize (H0 ltac:(lia)); passed Hrun H0).
  all: try (specialize (H1 ltac:(lia)); passed Hrun H1).
  all: try (specialize (H2 ltac:(lia)); passed Hrun H2).
  all: try (specialize (H3 ltac:(lia)); passed Hrun H3).
  all: try (specialize (H4 ltac:(lia)); passed Hrun H4).
  all: try (specialize (H5 ltac:(lia)); passed Hrun H5).
  all: rewrite Hfail in Hrun; cbn [negb] in Hrun; cbv beta iota in Hrun;
    cbn [dev log] in Hrun; injection Hrun as <- <- <-.
  all: match goal with
       | |- exists d' cleanup, (_, World _ ?l) = _ /\ _ =>
           let s := peel l in
           lazymatch s with
           | (?cl, ?rest) => eexists; exists (rev cl)
           end
       end;
    (split; [rewrite rev_involutive; reflexivity |]);
    unfold acquired; cbn [omap acquires app rev map fst];
    rewrite ?Hcalloc, ?Hfail, ?Z.eqb_refl; reflexivity.
Qed.

(** A failure [adf4377_setup] reports is rolled back.  When [calloc] gave
    memory, all the calls of [init_steps] succeeded, and
    [adf4377_setup], started on the handle so filled, returns [r], not
    SUCCESS, the run returns [r], leaves [*device] alone and, after
    setup's calls, releases the SPI bus, the three GPIO lines in reverse
    order of acquisition and the handle memory. *)
Lemma init_setup_failure_rolls_back (fuel : nat)
    (device : option adf4377_dev) (ip : init_param.t) (w w8 : world)
    (r : Z) :
  let p := call_ret P (log w) Calloc in
  let before := fun i : nat =>
    (Calloc, p) :: succeeded h (firstn i (init_steps h)) in
  let d7 :=
    set_spi_desc (spi_desc_of (init_param.spi_init ip))
      (set_gpio_enclk2 (init_param.gpio_enclk2_param ip)
         (set_gpio_enclk1 (init_param.gpio_enclk1_param ip)
            (set_gpio_ce (init_param.gpio_ce_param ip)
               (copy_params h ip zero_dev)))) in
  p <> 0 ->
  (forall i, (i < length (init_steps h))%nat ->
     call_ret P (rev (before i) ++ log w) (nth i (init_steps h) Calloc)
     = cst h SUCCESS) ->
  adf4377_setup h P fuel
    (World d7 (rev (before (length (init_steps h))) ++ log w))
  = (Done r, w8) ->
  r <> cst h SUCCESS ->
  exists cleanup,
    adf4377_init h P fuel device ip w
    = (Done (r, device), World (dev w8) (rev cleanup ++ log w8))
    /\ map fst cleanup
       = [SpiRemove; GpioRemove GPIO_ENCLK2; GpioRemove GPIO_ENCLK1;
          GpioRemove GPIO_CE; Free]
    /\ map fst cleanup
       = map release_of
           (rev (acquired h (before (length (init_steps h))))).
Proof.
  intros p before d7 Hp Hok Hsetup Hr.
  destruct w as [d lg]. destruct w8 as [d8 lg8]. cbn [log dev] in *.
  assert (Hcalloc : (p =? 0) = false) by (apply Z.eqb_neq; exact Hp).
  assert (Hfail : (r =? cst h SUCCESS) = false) by (apply Z.eqb_neq; exact Hr).
  pose proof (Hok 0%nat) as H0. pose proof (Hok 1%nat) as H1.
  pose proof (Hok 2%nat) as H2. pose proof (Hok 3%nat) as H3.
  pose proof (Hok 4%nat) as H4. pose proof (Hok 5%nat) as H5.
  pose proof (Hok 6%nat) as H6. clear Hok.
  destruct (adf4377_init h P fuel device ip (World d lg)) as [o [d' lg']]
    eqn:Hrun.
  enter_init Hrun Hcalloc.
  subst before d7.
  cbn [firstn init_steps succeeded map rev app nth length] in *.
  specialize (H0 ltac:(lia)); passed Hrun H0.
  specialize (H1 ltac:(lia)); passed Hrun H1.
  specialize (H2 ltac:(lia)); passed Hrun H2.
  specialize (H3 ltac:(lia)); passed Hrun H3.
  specialize (H4 ltac:(lia)); passed Hrun H4.
  specialize (H5 ltac:(lia)); passed Hrun H5.
  specialize (H6 ltac:(lia)); passed Hrun H6.
  rewrite Hsetup in Hrun. cbv beta iota in Hrun.
  rewrite Hfail in Hrun. cbn [negb] in Hrun. cbv beta iota in Hrun.
  cbn [dev log] in Hrun. injection Hrun as <- <- <-.
  match goal with
  | |- exists cleanup, (_, World _ ?l) = _ /\ _ =>
      let s := peel l in
      lazymatch s with (?cl, ?rest) => exists (rev cl) end
  end.
  split; [rewrite rev_involutive; reflexivity |].
  split; [reflexivity |].
  unfold acquired. cbn [omap acquires app rev map fst].
  rewrite ?Hcalloc, ?Z.eqb_refl. reflexivity.
Qed.

End Init.

(** C4, at a bus that fails one transfer of [adf4377_setup] with status
    -5.  When the failing transfer is the power-up write to register 0x1A,
    or the read of the update that disables the ADC clock in register
    0x20, [adf4377_setup] does not test the result, so [adf4377_init]
    returns SUCCESS and stores the handle: the handle memory, the three
    GPIO lines and the SPI bus stay held, nothing is released, and the
    status -5 of the failing step is lost.  The claim asks for the
    rollback and for -5 at any failing step of setup. *)
Theorem init_holds_resources_after_failed_setup_step :
  let run bad :=
    adf4377_init Sample.header (Sample.failing bad (-5) Sample.good_board)
      4 None Sample.params (World zero_dev []) in
  (let r := run Sample.power_up_write in
   let calls := rev (log (snd r)) in
   failed_transfers Sample.header calls
   = [(SpiWriteAndRead (Frame 0x00 0x1A 0x00), -5)]
   /\ fst r = Done (cst Sample.header SUCCESS, Some (dev (snd r)))
   /\ acquired Sample.header calls
      = [Mem; Gpio GPIO_CE; Gpio GPIO_ENCLK1; Gpio GPIO_ENCLK2; Spi]
   /\ released calls = [])
  /\ (let r := run Sample.adc_clk_disable_read in
      let calls := rev (log (snd r)) in
      failed_transfers Sample.header calls
      = [(SpiWriteAndRead (Frame 0x80 0x20 0x00), -5)]
      /\ fst r = Done (cst Sample.header SUCCESS, Some (dev (snd r)))
      /\ acquired Sample.header calls
         = [Mem; Gpio GPIO_CE; Gpio GPIO_ENCLK1; Gpio GPIO_ENCLK2; Spi]
      /\ released calls = []).
Proof. vm_compute. repeat split; reflexivity. Qed.

(** Where setup tests the result, C4 holds: a failing write in the default
    table (register 0x21) makes init return -5 and leave [*device] alone;
    the SPI bus, the three GPIO lines in reverse order and the handle
    memory are released after it. *)
Lemma init_checked_setup_step_rolls_back :
  let bad (hist : list entry) (c : call) :=
    match c with
    | SpiWriteAndRead tx => Sample.is_write_to 0x21 tx
    | _ => false
    end in
  let r := adf4377_init Sample.header
             (Sample.failing bad (-5) Sample.good_board) 4 None
             Sample.params (World zero_dev []) in
  fst r = Done (-5, None)
  /\ firstn 6 (log (snd r))
     = [(Free, 0); (GpioRemove GPIO_CE, 0); (GpioRemove GPIO_ENCLK1, 0);
        (GpioRemove GPIO_ENCLK2, 0); (SpiRemove, 0);
        (SpiWriteAndRead (Frame 0x00 0x21 0xD3), -5)]
  /\ acquired Sample.header (rev (log (snd r)))
     = [Mem; Gpio GPIO_CE; Gpio GPIO_ENCLK1; Gpio GPIO_ENCLK2; Spi]
  /\ released (rev (log (snd r)))
     = [Spi; Gpio GPIO_ENCLK2; Gpio GPIO_ENCLK1; Gpio GPIO_CE; Mem].
Proof. vm_compute. repeat split; reflexivity. Qed.

(** Scenario S5 through [init_own_failure_rolls_back]: [spi_init], the
    seventh call, fails with status -5 after the three GPIO lines were
    acquired. *)
Lemma init_spi_failure_rolls_back :
  let P := Sample.failing
             (Sample.only_call
                (fun c => match c with SpiInit => true | _ => false end))
             (-5) Sample.good_board in
  exists d' cleanup,
    adf4377_init Sample.header P 4 None Sample.params (World zero_dev [])
    = (Done (-5, None),
       World d'
         (rev cleanup
          ++ rev ((Calloc, 1)
                  :: succeeded Sample.header
                       (firstn 6 (init_steps Sample.header))
                  ++ [(SpiInit, -5)])))
    /\ map fst cleanup
       = [GpioRemove GPIO_ENCLK2; GpioRemove GPIO_ENCLK1; GpioRemove GPIO_CE;
          Free].
Proof.
  intro P.
  destruct (init_own_failure_rolls_back Sample.header P 4 None Sample.params
              (World zero_dev []) 6) as (d' & cleanup & Hrun & Hcl).
  - vm_compute. discriminate.
  - vm_compute. reflexivity.
  - intros i Hi.
    destruct i as [| [| [| [| [| [| i]]]]]]; try reflexivity; lia.
  - vm_compute. discriminate.
  - exists d', cleanup. rewrite Hrun. rewrite app_nil_r. split; [reflexivity |].
    exact Hcl.
Qed.

(** Scenario S5, run: the three GPIO lines are released in reverse order,
    the handle is freed, and -5 is returned. *)
Lemma init_spi_failure_run :
  let P := Sample.failing
             (Sample.only_call
                (fun c => match c with SpiInit => true | _ => false end))
             (-5) Sample.good_board in
  let r := adf4377_init Sample.header P 4 None Sample.params
             (World zero_dev []) in
  fst r = Done (-5, None)
  /\ rev (log (snd r))
     = [(Calloc, 1); (GpioGetOptional GPIO_CE, 0);
        (GpioDirectionOutput GPIO_CE 1, 0);
        (GpioGetOptional GPIO_ENCLK1, 0);
        (GpioDirectionOutput GPIO_ENCLK1 1, 0);
        (GpioGetOptional GPIO_ENCLK2, 0);
        (GpioDirectionOutput GPIO_ENCLK2 1, 0);
        (SpiInit, -5);
        (GpioRemove GPIO_ENCLK2, 0); (GpioRemove GPIO_ENCLK1, 0);
        (GpioRemove GPIO_CE, 0); (Free, 0)].
Proof. vm_compute. split; reflexivity. Qed.

(** * Further properties *)

(** ** Chains of transfers *)

Section FailFast.

Context (h : Header) (P : platform).

Lemma fail_fast_spi_write (reg_addr data : Z) :
  fail_fast h 1 (adf4377_spi_write h P reg_addr data).
Proof.
  intro w. rewrite adf4377_spi_write_run. cbv zeta.
  set (buff := spi_write_buff h _ reg_addr data).
  set (r := call_ret P (log w) (SpiWriteAndRead buff)).
  exists r, [(SpiWriteAndRead buff, r)].
  split; [reflexivity |]. split; [reflexivity |].
  cbn [length all_succeeded forallb snd].
  destruct (r =? cst h SUCCESS) eqn:E.
  - auto.
  - exists (SpiWriteAndRead buff), []. auto.
Qed.

Lemma fail_fast_update (reg_addr mask data : Z) :
  fail_fast h 2 (adf4377_update h P reg_addr mask data).
Proof.
  intro w. rewrite adf4377_update_run. cbv zeta.
  set (rd := spi_read_buff h _ reg_addr).
  set (r1 := call_ret P (log w) (SpiWriteAndRead rd)).
  set (wr := spi_write_buff h _ reg_addr _).
  set (r2 := call_ret P _ (SpiWriteAndRead wr)).
  destruct (r1 =? cst h SUCCESS) eqn:E1.
  - exists r2, [(SpiWriteAndRead wr, r2); (SpiWriteAndRead rd, r1)].
    split; [reflexivity |]. split; [reflexivity |].
    cbn [length all_succeeded forallb snd]. rewrite E1.
    destruct (r2 =? cst h SUCCESS) eqn:E2.
    + auto.
    + exists (SpiWriteAndRead wr), [(SpiWriteAndRead rd, r1)].
      split; [reflexivity |].
      cbn [length all_succeeded forallb snd]. rewrite E1. auto.
  - exists r1, [(SpiWriteAndRead rd, r1)].
    split; [reflexivity |]. split; [reflexivity |].
    rewrite E1. exists (SpiWriteAndRead rd), []. auto.
Qed.

Lemma all_succeeded_app (t1 t2 : list entry) :
  all_succeeded h (t1 ++ t2) = all_succeeded h t1 && all_succeeded h t2.
Proof. apply forallb_app. Qed.

(** [ret = m; if (ret != SUCCESS) return ret; k] chains two chains. *)
Lemma fail_fast_check (n1 n2 n : nat) (m k : M Z) :
  fail_fast h n1 m -> fail_fast h n2 k -> n = (n1 + n2)%nat ->
  fail_fast h n
    (bind m (fun ret => if negb (ret =? cst h SUCCESS) then Return ret else k)).
Proof.
  intros Hm Hk -> w.
  destruct (Hm w) as (r1 & t1 & E1 & T1 & S1). unfold bind. rewrite E1.
  destruct (r1 =? cst h SUCCESS) eqn:Er1; cbn [negb].
  - destruct S1 as [L1 A1].
    destruct (Hk (World (dev w) (t1 ++ log w))) as (r2 & t2 & E2 & T2 & S2).
    cbn [dev log] in E2. exists r2, (t2 ++ t1). split.
    { rewrite E2, app_assoc. reflexivity. }
    split. { rewrite forallb_app, T2, T1. reflexivity. }
    destruct (r2 =? cst h SUCCESS).
    + destruct S2 as [L2 A2]. split.
      * rewrite length_app. lia.
      * rewrite all_succeeded_app, A2, A1. reflexivity.
    + destruct S2 as (c & t' & -> & L2 & A2). exists c, (t' ++ t1).
      split; [reflexivity |]. split.
      * cbn [length app] in *. rewrite length_app. lia.
      * rewrite all_succeeded_app, A2, A1. reflexivity.
  - exists r1, t1. split; [reflexivity |]. split; [assumption |].
    rewrite Er1. destruct S1 as (c & t' & -> & L1 & A1).
    exists c, t'. split; [reflexivity |]. split; [lia | assumption].
Qed.


End FailFast.

(** ** Scratchpad check *)

Section Scratchpad.

Context (h : Header) (P : platform).

(** X1.  [adf4377_check_scratchpad] writes the scratchpad value to register
    0x0A and reads the register back.  It returns SUCCESS exactly when both
    transfers succeed and the byte read equals the value; a failing write
    is returned at once, without the read; a failing read is returned; a
    byte that differs gives FAILURE.  The handle is not touched. *)
Theorem check_scratchpad_succeeds_iff (w : world) :
  cst h FAILURE <> cst h SUCCESS ->
  let order := bit_order (spi_desc (dev w)) in
  let wr := spi_write_buff h order (fld h ADF4377_REG 0x0A)
              (cst h ADF4377_SPI_SCRATCHPAD) in
  let r1 := call_ret P (log w) (SpiWriteAndRead wr) in
  let log1 := (SpiWriteAndRead wr, r1) :: log w in
  let rd := spi_read_buff h order (fld h ADF4377_REG 0x0A) in
  let r2 := call_ret P log1 (SpiWriteAndRead rd) in
  let log2 := (SpiWriteAndRead rd, r2) :: log1 in
  let echo := u8 (b2 (xfer_rx P log1 rd)) in
  exists ret lg,
    adf4377_check_scratchpad h P w = (Done ret, World (dev w) lg)
    /\ (ret = cst h SUCCESS <->
        r1 = cst h SUCCESS /\ r2 = cst h SUCCESS
        /\ echo = cst h ADF4377_SPI_SCRATCHPAD)
    /\ (r1 <> cst h SUCCESS -> ret = r1 /\ lg = log1)
    /\ (r1 = cst h SUCCESS -> lg = log2)
    /\ (r1 = cst h SUCCESS -> r2 <> cst h SUCCESS -> ret = r2)
    /\ (r1 = cst h SUCCESS -> r2 = cst h SUCCESS ->
        echo <> cst h ADF4377_SPI_SCRATCHPAD -> ret = cst h FAILURE).
Proof.
  intros Hfs order wr r1 log1 rd r2 log2 echo.
  unfold adf4377_check_scratchpad, adf4377_spi_write, adf4377_spi_read, bind,
    get_dev, spi_write_and_read, Return, fault.
  cbn [dev log b2 frame_map]. cbv beta iota zeta.
  fold order. fold wr. fold r1. fold log1.
  destruct (r1 =? cst h SUCCESS) eqn:B1; cbn [negb]; cbv beta iota.
  - apply Z.eqb_eq in B1. cbn [dev log]. fold order. fold rd. fold r2. fold echo.
    destruct (r2 =? cst h SUCCESS) eqn:B2; cbn [negb]; cbv beta iota;
      rewrite ?B2; cbn [negb].
    + apply Z.eqb_eq in B2.
      destruct (Z.eqb_spec echo (cst h ADF4377_SPI_SCRATCHPAD)) as [E3 | E3];
        cbn [negb]; eexists; eexists; (split; [reflexivity |]);
        repeat split; intros; try tauto; try congruence.
    + apply Z.eqb_neq in B2. eexists. eexists. split; [reflexivity |].
      repeat split; intros; try tauto; try congruence.
  - apply Z.eqb_neq in B1. eexists. eexists. split; [reflexivity |].
    repeat split; intros; try tauto; try congruence.
Qed.

End Scratchpad.

(** A bus whose reads of register 0x0A return 0x5A where 0xA5 was written
    (scenario S6). *)
Lemma check_scratchpad_succeeds_iff_witness :
  let h := Sample.header in
  let P := {| call_ret := fun _ c => Sample.all_ok c;
              xfer_rx := fun _ _ => Frame 0 0 0x5A |} in
  cst h FAILURE <> cst h SUCCESS
  /\ adf4377_check_scratchpad h P Sample.w0
     = (Done (cst h FAILURE),
        World Sample.dev0
          [(SpiWriteAndRead (Frame 0x80 0x0A 0x00), 0);
           (SpiWriteAndRead (Frame 0x00 0x0A 0xA5), 0)]).
Proof.
  intros h P.
  assert (Hfs : cst h FAILURE <> cst h SUCCESS) by (vm_compute; discriminate).
  split; [exact Hfs |].
  destruct (check_scratchpad_succeeds_iff h P Sample.w0 Hfs)
    as (ret & lg & Hrun & _ & _ & Hlg & _ & Hbad).
  rewrite Hrun.
  rewrite (Hbad eq_refl eq_refl ltac:(vm_compute; discriminate)).
  rewrite (Hlg eq_refl). reflexivity.
Defined.

(** ** Remove *)

Section Remove.

Context (h : Header) (P : platform).

(** The entries of [l] above [base]. *)
Ltac entries_above l base :=
  lazymatch l with
  | base => constr:(@nil entry)
  | ?e :: ?l' => let p := entries_above l' base in constr:(e :: p)
  end.

(** X3.  [adf4377_remove] releases the SPI bus, then the chip-enable,
    enclk1 and enclk2 lines, and frees the handle memory only after all
    four releases succeeded; it then returns SUCCESS.  At the first release
    that fails it returns that status at once: the releases after it are
    not made and the memory is not freed. *)
Theorem remove_stops_at_first_failure (w : world) :
  exists ret t,
    adf4377_remove h P w = (Done ret, World (dev w) (t ++ log w))
    /\ if ret =? cst h SUCCESS then
         map fst (rev t) = remove_calls ++ [Free]
         /\ all_succeeded h (tl t) = true
       else
         exists c t',
           t = (c, ret) :: t'
           /\ map fst (rev t) = firstn (length t) remove_calls
           /\ all_succeeded h t' = true.
Proof.
  unfold adf4377_remove, bind, platform_call, Return. cbn [dev log].
  repeat
    match goal with
    | |- context [if negb (?r =? cst h SUCCESS) then _ else _] =>
        destruct (r =? cst h SUCCESS) eqn:?; cbn [negb]; cbv beta iota;
        cbn [dev log]
    end;
    match goal with
    | |- exists ret t, (_, World _ ?l) = _ /\ _ =>
        let p := entries_above l (log w) in
        eexists; exists p; split; [reflexivity |]
    end;
    repeat match goal with
           | B : (_ =? _) = _ |- _ => rewrite B
           end;
    try (eexists; eexists; split; [reflexivity |]);
    cbn [all_succeeded forallb snd tl map fst rev app length firstn
         remove_calls];
    repeat match goal with
           | B : (_ =? _) = _ |- _ => rewrite B
           end;
    split; reflexivity.
Qed.

End Remove.

(** ** Programming the frequency registers *)

Section ProgramFreq.

Context (h : Header) (P : platform).

Lemma bind_ext {A B : Type} (m : M A) (k1 k2 : A -> M B) (w : world) :
  (forall a w', k1 a w' = k2 a w') -> bind m k1 w = bind m k2 w.
Proof.
  intro H. unfold bind. destruct (m w) as [[a | |] w']; auto.
Qed.

(** What follows a checked chain can be moved behind the whole chain when
    it does nothing on a failure status. *)
Lemma check_tail (m k : M Z) (f : Z -> M Z) :
  (forall r, negb (r =? cst h SUCCESS) = true -> f r = Return r) ->
  forall w,
    bind m (fun r => if negb (r =? cst h SUCCESS) then Return r else bind k f) w
    = bind (bind m (fun r => if negb (r =? cst h SUCCESS) then Return r else k))
        f w.
Proof.
  intros Hf w. unfold bind. destruct (m w) as [[r | |] w1]; try reflexivity.
  destruct (negb (r =? cst h SUCCESS)) eqn:E; [| reflexivity].
  cbn. rewrite (Hf r E). reflexivity.
Qed.

(** [program_freq] is a chain of five transfers followed, on success, by
    the delay. *)
Lemma program_freq_chain (w : world) :
  exists chain : M Z,
    fail_fast h 5 chain
    /\ program_freq h P w
       = bind chain
           (fun ret =>
              if negb (ret =? cst h SUCCESS) then Return ret
              else bind (platform_call P (Mdelay 100)) (fun _ => Return ret))
           w.
Proof.
  set (u1 := adf4377_update h P (fld h ADF4377_REG 0x11)
               (Z.lor (cst h ADF4377_EN_RDBLR_MSK) (cst h ADF4377_N_INT_MSB_MSK))
               (Z.lor (fld h ADF4377_EN_RDBLR (ref_doubler_en (dev w)))
                  (fld h ADF4377_N_INT_MSB (Z.shiftr (n_int (dev w)) 8)))).
  set (u2 := adf4377_update h P (fld h ADF4377_REG 0x12)
               (Z.lor (cst h ADF4377_R_DIV_MSK) (cst h ADF4377_CLKOUT_DIV_MSK))
               (Z.lor (fld h ADF4377_CLKOUT_DIV (clkout_div_sel (dev w)))
                  (fld h ADF4377_R_DIV (ref_div_factor (dev w))))).
  set (wr := adf4377_spi_write h P (fld h ADF4377_REG 0x10)
               (fld h ADF4377_N_INT_LSB (n_int (dev w)))).
  set (tail := fun ret : Z =>
         if negb (ret =? cst h SUCCESS) then Return ret
         else bind (platform_call P (Mdelay 100)) (fun _ => Return ret)).
  assert (Htail : forall r, negb (r =? cst h SUCCESS) = true -> tail r = Return r).
  { intros r E. unfold tail. rewrite E. reflexivity. }
  exists (bind u1 (fun r => if negb (r =? cst h SUCCESS) then Return r else
          bind u2 (fun r => if negb (r =? cst h SUCCESS) then Return r else wr))).
  split.
  { eapply fail_fast_check; [apply fail_fast_update | | reflexivity].
    eapply fail_fast_check;
      [apply fail_fast_update | apply fail_fast_spi_write | reflexivity]. }
  transitivity
    (bind u1 (fun r => if negb (r =? cst h SUCCESS) then Return r else
       bind (bind u2 (fun r => if negb (r =? cst h SUCCESS) then Return r
                               else wr)) tail) w).
  - unfold program_freq. unfold bind at 1. unfold get_dev at 1.
    fold u1 u2 wr. fold tail. apply bind_ext. intros r1 w1.
    destruct (negb (r1 =? cst h SUCCESS)); [reflexivity |].
    apply (check_tail u2 wr tail Htail).
  - apply (check_tail u1 _ tail Htail).
Qed.

(** The solver of [adf4377_set_freq] makes no call. *)
Lemma vco_loop_log (fuel : nat) (w : world) (o : outcome unit) (w' : world) :
  vco_loop h fuel w = (o, w') -> log w' = log w.
Proof.
  revert w. induction fuel as [| fuel IH]; intros [d lg];
    cbn [vco_loop]; unfold bind, get_dev, modify_dev; cbn [dev log].
  - destruct (_ <? _); intro E; injection E as _ <-; reflexivity.
  - destruct (_ <? _).
    + intro E. apply IH in E. exact E.
    + intro E. injection E as _ <-. reflexivity.
Qed.

Lemma vco_solve_log (fuel : nat) (w : world) (o : outcome unit) (w' : world) :
  vco_solve h fuel w = (o, w') -> log w' = log w.
Proof.
  destruct w as [d lg]. unfold vco_solve.
  unfold bind at 1. unfold modify_dev at 1. cbn [dev log]. unfold bind at 1.
  destruct (vco_loop h fuel _) as [[[] | |] [d1 lg1]] eqn:E;
    apply vco_loop_log in E; cbn [log] in E; subst lg1;
    try (intro E; injection E as _ <-; reflexivity).
  unfold bind, get_dev, modify_dev, fault. cbn [dev log].
  destruct (_ =? _); intro E; injection E as _ <-; reflexivity.
Qed.

(** X14.  The register writes of [adf4377_set_freq] (updates of 0x11 and
    0x12, write of 0x10: five transfers) stop at the first failing
    transfer, whose status is returned; the 100 ms delay is made exactly
    when all five succeeded, and then SUCCESS is returned.  The handle is
    not touched. *)
Theorem program_freq_delay_iff_success (w : world) :
  exists ret t,
    program_freq h P w = (Done ret, World (dev w) (t ++ log w))
    /\ if ret =? cst h SUCCESS then
         exists r t5,
           t = (Mdelay 100, r) :: t5
           /\ length t5 = 5%nat
           /\ forallb is_transfer t5 = true
           /\ all_succeeded h t5 = true
       else
         forallb is_transfer t = true
         /\ (length t <= 5)%nat
         /\ exists c t', t = (c, ret) :: t' /\ all_succeeded h t' = true.
Proof.
  destruct (program_freq_chain w) as (chain & Hchain & Heq).
  rewrite Heq. destruct (Hchain w) as (ret & t & Hrun & Ht & Hs).
  unfold bind at 1. rewrite Hrun.
  destruct (ret =? cst h SUCCESS) eqn:E; cbn [negb].
  - destruct Hs as [Hlen Hok].
    unfold bind, platform_call, Return. cbn [dev log].
    eexists. eexists (_ :: t). split; [reflexivity |]. rewrite E.
    eexists. exists t. auto.
  - exists ret, t. split; [reflexivity |]. rewrite E.
    destruct Hs as (c & t' & -> & Hlen & Hok).
    split; [assumption |]. split; [assumption |]. exists c, t'. auto.
Qed.


(** X13.  [adf4377_set_freq] validates the output frequency before it
    touches the bus.  With a frequency outside the legal output range it
    returns FAILURE without any call, and the only trace it leaves is the
    divider selector cleared.  With a frequency inside the range it runs
    the solver: when the solver returns, so does the function, its first
    call is an SPI transfer and all its calls are transfers or the delay;
    when the solver does not return (the loop runs out of fuel, or the PFD
    frequency is zero), neither does the function, and no call was
    made. *)
Theorem set_freq_rejects_before_any_transfer (fuel : nat) (w : world) :
  let w0 := World (set_clkout_div_sel 0 (dev w)) (log w) in
  if ADF4377_CHECK_RANGE (f_clk (dev w)) (cst h ADF4377_MAX_CLKPN_FREQ)
                         (cst h ADF4377_MIN_CLKPN_FREQ)
  then adf4377_set_freq h P fuel w = (Done (cst h FAILURE), w0)
  else
    match vco_solve h fuel w0 with
    | (Done _, w1) =>
        log w1 = log w
        /\ exists ret t e,
             adf4377_set_freq h P fuel w
             = (Done ret, World (dev w1) (t ++ e :: log w))
             /\ is_transfer e = true
             /\ forallb is_bus t = true
    | (Spin, w1) =>
        log w1 = log w /\ adf4377_set_freq h P fuel w = (Spin, w1)
    | (Fault, w1) =>
        log w1 = log w /\ adf4377_set_freq h P fuel w = (Fault, w1)
    end.
Proof.
  destruct w as [d lg]. cbn [dev log]. cbv zeta.
  assert (Hset : adf4377_set_freq h P fuel (World d lg)
                 = if ADF4377_CHECK_RANGE (f_clk d)
                        (cst h ADF4377_MAX_CLKPN_FREQ)
                        (cst h ADF4377_MIN_CLKPN_FREQ)
                   then (Done (cst h FAILURE),
                         World (set_clkout_div_sel 0 d) lg)
                   else bind (vco_solve h fuel) (fun _ => program_freq h P)
                          (World (set_clkout_div_sel 0 d) lg)).
  { unfold adf4377_set_freq.
    unfold bind at 1. unfold modify_dev at 1. cbn [dev log].
    unfold bind at 1. unfold get_dev at 1. cbn [dev log].
    cbn [f_clk set_clkout_div_sel].
    destruct (ADF4377_CHECK_RANGE _ _ _); reflexivity. }
  rewrite Hset. clear Hset.
  destruct (ADF4377_CHECK_RANGE _ _ _); [reflexivity |].
  unfold bind at 1 2 3.
  destruct (vco_solve h fuel _) as [[[] | |] [d1 lg1]] eqn:Ev;
    apply vco_solve_log in Ev; cbn [log] in Ev; subst lg1;
    try (split; reflexivity).
  split; [reflexivity |]. cbn [dev]. cbv beta iota.
  destruct (program_freq_chain (World d1 lg)) as (chain & Hchain & ->).
  destruct (Hchain (World d1 lg)) as (r & t & Hrun & Ht & Hs).
  cbn [dev log] in Hrun. unfold bind at 1. rewrite Hrun.
  assert (Hlast : exists t1 e, t = t1 ++ [e]).
  { destruct (exists_last (l := t)) as (t1 & e & ->).
    - destruct (r =? cst h SUCCESS).
      + destruct Hs as [Hl _]. intros ->. discriminate.
      + destruct Hs as (c & t1 & -> & _). discriminate.
    - eauto. }
  destruct Hlast as (t1 & e & ->).
  rewrite forallb_app in Ht. apply andb_prop in Ht. destruct Ht as [Ht1 He].
  cbn [forallb] in He. rewrite andb_true_r in He.
  assert (Hb1 : forallb is_bus t1 = true).
  { rewrite forallb_forall in *. intros x Hx. specialize (Ht1 x Hx).
    destruct x as [[] ?]; try discriminate; reflexivity. }
  destruct (negb (r =? cst h SUCCESS)).
  - unfold Return. exists r, t1, e. rewrite <- app_assoc. auto.
  - unfold bind, platform_call, Return. cbn [dev log].
    eexists r, (_ :: t1), e. rewrite <- app_assoc. cbn [app forallb is_bus].
    auto.
Qed.

End ProgramFreq.

(** A 100 Hz request on the sample header, whose outputs start at
    500 MHz, with the divider selector at 3 before the call. *)
Lemma set_freq_rejects_before_any_transfer_witness :
  let d := set_clkout_div_sel 3
             {| spi_desc := {| bit_order := 0 |}; gpio_ce := None;
                gpio_enclk1 := None; gpio_enclk2 := None; spi3wire := 0;
                clkin_freq := 100000000; cp_i := 0xF; muxout_default := 0;
                ref_doubler_en := 0; f_pfd := 100000000; f_clk := 100;
                f_vco := 0; n_int := 0; clkout_op := 1; ref_div_factor := 1;
                clkout_div_sel := 0 |} in
  adf4377_set_freq Sample.header Sample.good_board 64 (World d [])
  = (Done (-1), World (set_clkout_div_sel 0 d) []).
Proof.
  intro d.
  exact (set_freq_rejects_before_any_transfer Sample.header
           Sample.good_board 64 (World d [])).
Defined.

(** ** Software reset: how the poll loop ends *)

Section SoftResetExit.

Context (h : Header) (P : platform).

(** The run of [adf4377_spi_read] in both cases. *)
Lemma adf4377_spi_read_run (reg_addr : Z) (data : option Z) (w : world) :
  let buff := spi_read_buff h (bit_order (spi_desc (dev w))) reg_addr in
  let r := call_ret P (log w) (SpiWriteAndRead buff) in
  adf4377_spi_read h P reg_addr data w
  = (Done (r, if r =? cst h SUCCESS
              then Some (u8 (b2 (xfer_rx P (log w) buff))) else data),
     World (dev w) ((SpiWriteAndRead buff, r) :: log w)).
Proof.
  intros buff r. unfold adf4377_spi_read, bind, get_dev, spi_write_and_read.
  cbn. fold buff. fold r. destruct (r =? cst h SUCCESS); reflexivity.
Qed.

Lemma soft_reset_poll_exit (k : nat) :
  forall (fuel : nat) (timeout : Z) (data : option Z) (w : world),
    let rd := spi_read_buff h (bit_order (spi_desc (dev w)))
                (fld h ADF4377_REG 0x00) in
    let e := (SpiWriteAndRead rd, cst h SUCCESS) in
    let bit := fld h ADF4377_SOFT_RESET (cst h ADF4377_SOFT_RESET_EN) in
    timeout <> 0 ->
    (k < fuel)%nat ->
    (forall i, (i < k)%nat ->
       call_ret P (repeat e i ++ log w) (SpiWriteAndRead rd) = cst h SUCCESS
       /\ Z.land (u8 (b2 (xfer_rx P (repeat e i ++ log w) rd))) bit <> 0) ->
    let r := call_ret P (repeat e k ++ log w) (SpiWriteAndRead rd) in
    (r <> cst h SUCCESS
     \/ Z.land (u8 (b2 (xfer_rx P (repeat e k ++ log w) rd))) bit = 0) ->
    soft_reset_poll h P fuel timeout data w
    = (Done r, World (dev w) ((SpiWriteAndRead rd, r) :: repeat e k ++ log w)).
Proof.
  induction k as [| k IH]; intros fuel timeout data w rd e bit Ht Hfuel Hset r Hexit;
    (destruct fuel as [| fuel]; [lia |]);
    cbn [soft_reset_poll];
    (destruct (Z.eqb_spec timeout 0) as [? | _]; [contradiction |]);
    cbn [negb]; unfold bind at 1; rewrite adf4377_spi_read_run; cbv zeta;
    fold rd.
  - cbn [repeat app] in r, Hexit. fold r. fold bit.
    destruct (Z.eqb_spec r (cst h SUCCESS)) as [E | E]; cbn [negb].
    + destruct Hexit as [? | Hclr]; [contradiction |].
      rewrite Hclr. cbn [Z.eqb]. rewrite E. reflexivity.
    + reflexivity.
  - destruct (Hset 0%nat ltac:(lia)) as [Hok Hbit]. cbn [repeat app] in Hok, Hbit.
    rewrite Hok, Z.eqb_refl. cbn [negb]. fold bit.
    destruct (Z.eqb_spec (Z.land (u8 (b2 (xfer_rx P (log w) rd))) bit) 0)
      as [? | _]; [contradiction |].
    rewrite (IH fuel timeout _ (World (dev w) ((SpiWriteAndRead rd, cst h SUCCESS) :: log w)));
      cbn [dev log]; fold rd; fold e; fold bit; try assumption; try lia.
    + rewrite !repeat_app_cons. reflexivity.
    + intros i Hi. rewrite repeat_app_cons. apply (Hset (S i)). lia.
    + rewrite repeat_app_cons. exact Hexit.
Qed.

(** X5.  Once the update that sets the reset bits has succeeded,
    [adf4377_soft_reset] polls register 0x00 until a poll either fails or
    reads the reset bit clear, and returns the status of that poll: SUCCESS
    when the bit reads clear, the bus error otherwise.  [k] polls that
    succeed and read the bit set come before it; no more follow. *)
Theorem soft_reset_returns_at_first_exit (k fuel : nat) (w w1 : world) :
  let rd := spi_read_buff h (bit_order (spi_desc (dev w)))
              (fld h ADF4377_REG 0x00) in
  let e := (SpiWriteAndRead rd, cst h SUCCESS) in
  let bit := fld h ADF4377_SOFT_RESET (cst h ADF4377_SOFT_RESET_EN) in
  adf4377_update h P (fld h ADF4377_REG 0x00)
    (Z.lor (cst h ADF4377_SOFT_RESET_MSK) (cst h ADF4377_SOFT_RESET_R_MSK))
    (Z.lor (fld h ADF4377_SOFT_RESET (cst h ADF4377_SOFT_RESET_EN))
       (fld h ADF4377_SOFT_RESET_R (cst h ADF4377_SOFT_RESET_EN))) w
  = (Done (cst h SUCCESS), w1) ->
  (k < fuel)%nat ->
  (forall i, (i < k)%nat ->
     call_ret P (repeat e i ++ log w1) (SpiWriteAndRead rd) = cst h SUCCESS
     /\ Z.land (u8 (b2 (xfer_rx P (repeat e i ++ log w1) rd))) bit <> 0) ->
  let r := call_ret P (repeat e k ++ log w1) (SpiWriteAndRead rd) in
  (r <> cst h SUCCESS
   \/ Z.land (u8 (b2 (xfer_rx P (repeat e k ++ log w1) rd))) bit = 0) ->
  adf4377_soft_reset h P fuel w
  = (Done r, World (dev w) ((SpiWriteAndRead rd, r) :: repeat e k ++ log w1)).
Proof.
  intros rd e bit Hupd Hfuel Hset r Hexit.
  match type of Hupd with
  | adf4377_update _ _ ?a ?m ?d _ = _ =>
      destruct (quiet_update h P a m d w) as (x & lg & Hq)
  end.
  rewrite Hq in Hupd. injection Hupd as -> <-.
  unfold adf4377_soft_reset. unfold bind at 1. rewrite Hq.
  rewrite Z.eqb_refl. cbn [negb].
  rewrite (soft_reset_poll_exit k fuel); cbn [dev log]; try assumption.
  - reflexivity.
  - vm_compute. discriminate.
Qed.

End SoftResetExit.

(** Scenario S4: the reset bit reads clear on the third poll. *)
Lemma soft_reset_returns_at_first_exit_witness :
  let h := Sample.header in
  let P := Sample.reset_clears_at 3 in
  adf4377_soft_reset h P 3 Sample.w0
  = (Done 0,
     World Sample.dev0
       [(SpiWriteAndRead (Frame 0x80 0x00 0x00), 0);
        (SpiWriteAndRead (Frame 0x80 0x00 0x00), 0);
        (SpiWriteAndRead (Frame 0x80 0x00 0x00), 0);
        (SpiWriteAndRead (Frame 0x00 0x00 0x81), 0);
        (SpiWriteAndRead (Frame 0x80 0x00 0x00), 0)]).
Proof.
  intros h P.
  refine (soft_reset_returns_at_first_exit h P 2 3 Sample.w0
            (World Sample.dev0
               [(SpiWriteAndRead (Frame 0x00 0x00 0x81), 0);
                (SpiWriteAndRead (Frame 0x80 0x00 0x00), 0)])
            _ _ _ _).
  - vm_compute. reflexivity.
  - apply Nat.lt_succ_diag_r.
  - intros i Hi.
    assert (Hc : i = 0%nat \/ i = 1%nat).
    { destruct i as [| [| i]]; [left; reflexivity | right; reflexivity |].
      exfalso. apply Nat.succ_lt_mono, Nat.succ_lt_mono in Hi.
      exact (Nat.nlt_0_r _ Hi). }
    destruct Hc as [-> | ->]; vm_compute; split; [reflexivity | discriminate
                                                  | reflexivity | discriminate].
  - right. vm_compute. reflexivity.
Defined.

(** ** Framing and the modified byte *)

Lemma u8_testbit_low (x i : Z) : 0 <= i < 8 -> Z.testbit (u8 x) i = Z.testbit x i.
Proof. intro H. unfold u8, wrap. apply Z.mod_pow2_bits_low. lia. Qed.

Lemma byte_testbit_high (v i : Z) : 0 <= v < 256 -> 8 <= i -> Z.testbit v i = false.
Proof.
  intros Hv Hi. rewrite <- (Z.mod_small v (2 ^ 8)) by (change (2 ^ 8) with 256; lia).
  apply Z.mod_pow2_bits_high. lia.
Qed.

(** Swapping twice gives the byte back. *)
Lemma bit_swap_constant_8_involutive (x : Z) :
  bit_swap_constant_8 (bit_swap_constant_8 x) = u8 x.
Proof.
  apply Z.bits_inj'. intros i Hi.
  destruct (Z.lt_ge_cases i 8) as [Hlt | Hge].
  - rewrite bit_swap_constant_8_testbit by lia.
    rewrite bit_swap_constant_8_testbit by lia.
    rewrite u8_testbit_low by lia. f_equal. lia.
  - rewrite (byte_testbit_high _ i (bit_swap_constant_8_range _) Hge).
    rewrite (byte_testbit_high _ i (u8_range _) Hge). reflexivity.
Qed.

Section Framing.

Context (h : Header).

(** X6.  LSB-first framing loses nothing: swapping the bits of each byte of
    an LSB-first buffer and exchanging its first two bytes gives the
    MSB-first buffer for the same register and data, for writes and for
    reads. *)
Theorem lsb_first_framing_round_trip (order reg_addr data : Z) :
  order <> 0 ->
  let unframe (b : frame) :=
    Frame (bit_swap_constant_8 (b1 b)) (bit_swap_constant_8 (b0 b))
          (bit_swap_constant_8 (b2 b)) in
  unframe (spi_write_buff h order reg_addr data)
  = spi_write_buff h 0 reg_addr data
  /\ unframe (spi_read_buff h order reg_addr) = spi_read_buff h 0 reg_addr.
Proof.
  intros Ho unframe. unfold unframe, spi_write_buff, spi_read_buff.
  destruct (Z.eqb_spec order 0) as [? | _]; [contradiction |].
  cbn. rewrite !bit_swap_constant_8_involutive, !u8_idem. split; reflexivity.
Qed.

End Framing.

Lemma lsb_first_framing_round_trip_witness :
  1 <> 0
  /\ Frame (bit_swap_constant_8 0x00) (bit_swap_constant_8 0x50)
           (bit_swap_constant_8 0xA5)
     = spi_write_buff Sample.header 0 0x0A 0xA5.
Proof.
  split; [discriminate |].
  exact (proj1 (lsb_first_framing_round_trip Sample.header 1 0x0A 0xA5
                  ltac:(discriminate))).
Defined.

(** X7.  The byte [adf4377_update] writes back, [(read & ~mask) | data]:
    when the bits of [data] lie under [mask], the bits under the mask
    become [data] and the bits outside it stay as read; and writing the
    same update over its own result changes nothing. *)
Theorem update_touches_only_the_mask (read_value mask data : Z) :
  Z.land data (Z.lnot mask) = 0 ->
  Z.land (modified read_value mask data) mask = data
  /\ Z.land (modified read_value mask data) (Z.lnot mask)
     = Z.land read_value (Z.lnot mask)
  /\ modified (modified read_value mask data) mask data
     = modified read_value mask data.
Proof.
  intro Hin. unfold modified.
  assert (Hbit : forall i, 0 <= i ->
            Z.testbit data i && negb (Z.testbit mask i) = false).
  { intros i Hi. rewrite <- Z.lnot_spec, <- Z.land_spec, Hin by lia.
    apply Z.bits_0. }
  repeat split; apply Z.bits_inj'; intros i Hi;
    repeat rewrite ?Z.land_spec, ?Z.lor_spec, ?Z.lnot_spec by lia;
    specialize (Hbit i Hi);
    destruct (Z.testbit read_value i), (Z.testbit mask i), (Z.testbit data i);
    cbn in *; congruence.
Qed.

Lemma update_touches_only_the_mask_witness :
  Z.land 0x05 (Z.lnot 0x0F) = 0
  /\ Z.land (modified 0xA3 0x0F 0x05) 0x0F = 0x05
  /\ Z.land (modified 0xA3 0x0F 0x05) (Z.lnot 0x0F) = Z.land 0xA3 (Z.lnot 0x0F)
  /\ modified (modified 0xA3 0x0F 0x05) 0x0F 0x05 = modified 0xA3 0x0F 0x05.
Proof.
  split; [reflexivity |].
  exact (update_touches_only_the_mask 0xA3 0x0F 0x05 eq_refl).
Defined.

(** ** Calibration clocks: limits *)

Section CalibLimits.

Context (h : Header).

(** The thresholds are those their names give; the disabled and enabled
    modes are coded 0 and 1. *)
Hypothesis H80 : cst h ADF4377_FREQ_PFD_80MHZ = 80000000.
Hypothesis H125 : cst h ADF4377_FREQ_PFD_125MHZ = 125000000.
Hypothesis H160 : cst h ADF4377_FREQ_PFD_160MHZ = 160000000.
Hypothesis H250 : cst h ADF4377_FREQ_PFD_250MHZ = 250000000.
Hypothesis H320 : cst h ADF4377_FREQ_PFD_320MHZ = 320000000.
Hypothesis Hdis : cst h ADF4377_DCLK_MODE_DIS = 0.
Hypothesis Hen : cst h ADF4377_DCLK_MODE_EN = 1.

Lemma dclk_select_cases (f_pfd : Z) :
  0 <= f_pfd <= 500000000 ->
  exists d1 d2 mode f,
    dclk_select h f_pfd = (d1, d2, mode, f)
    /\ (mode = 0 \/ mode = 1)
    /\ 0 <= f <= 125000000
    /\ (mode = 0 -> f <= 80000000)
    /\ (f = f_pfd \/ f = f_pfd / 2 \/ f = f_pfd / 4)
    /\ (f_pfd <= 80000000 -> f = f_pfd).
Proof.
  intros Hf. unfold dclk_select. rewrite H80, H125, H160, H250, H320, Hdis, Hen.
  assert (Hu : u32 f_pfd = f_pfd)
    by (apply wrap_small; change (2 ^ 32) with 4294967296; lia).
  rewrite Hu.
  destruct (Z.leb_spec f_pfd 80000000);
    [| destruct (Z.leb_spec f_pfd 125000000);
       [| destruct (Z.leb_spec f_pfd 160000000);
          [| destruct (Z.leb_spec f_pfd 250000000);
             [| destruct (Z.leb_spec f_pfd 320000000)]]]];
    do 4 eexists; (split; [reflexivity |]);
    repeat split; auto; intros; try lia;
    try (Z.div_mod_to_equations; lia).
Qed.

(** A ceiling division of the calibration block: exact and small. *)
Lemma calib_ceiling (x y : Z) :
  0 <= x <= 125000000 -> 20000 <= y <= 4800000 ->
  exists q,
    DIV_ROUND_UP x y = Some q /\ (q - 1) * y < x <= q * y
    /\ 0 <= q <= 6250 /\ u16 q = q.
Proof.
  intros Hx Hy.
  destruct (DIV_ROUND_UP_is_ceiling x y) as (q & Hq & Hc);
    try (change (2 ^ 32) with 4294967296; lia).
  exists q. split; [exact Hq |]. split; [exact Hc |].
  assert (0 <= q <= 6250) by nia.
  split; [assumption |].
  apply wrap_small. change (2 ^ 16) with 65536. lia.
Qed.

(** X8.  For a PFD frequency up to 500 MHz the calibration block has no
    undefined behaviour and divides the PFD frequency by 1, 2 or 4 so that
    the calibration clock is at most 125 MHz, and at most 80 MHz in the
    rows that leave DCLK_MODE disabled. *)
Theorem calib_clock_limits (f_pfd : Z) :
  0 <= f_pfd <= 500000000 ->
  exists c,
    calib_clock h f_pfd = Some c
    /\ 0 <= f_div_rclk c <= 125000000
    /\ (dclk_mode c = 0 \/ dclk_mode c = 1)
    /\ (dclk_mode c = 0 -> f_div_rclk c <= 80000000)
    /\ (f_div_rclk c = f_pfd \/ f_div_rclk c = f_pfd / 2
        \/ f_div_rclk c = f_pfd / 4).
Proof.
  intro Hf.
  destruct (dclk_select_cases f_pfd Hf)
    as (d1 & d2 & mode & f & Hsel & Hmode & Hfr & Hoff & Hdiv & _).
  unfold calib_clock. rewrite Hsel.
  destruct (calib_ceiling f 50000) as (q1 & -> & _); try lia.
  destruct (calib_ceiling f 20000) as (q2 & -> & _); try lia.
  assert (Hb : exists y, band_divisor (u8 mode) = Some y /\ 20000 <= y <= 4800000).
  { destruct Hmode as [-> | ->]; [exists 2400000 | exists 4800000];
      (split; [reflexivity | lia]). }
  destruct Hb as (y & -> & Hy).
  destruct (calib_ceiling f y) as (q3 & -> & _); try lia.
  destruct (DIV_ROUND_UP (u32 (f / 400000 - 2)) 4) as [q4 |] eqn:E4.
  2:{ unfold DIV_ROUND_UP in E4. change (u32 4 =? 0) with false in E4.
      discriminate. }
  eexists. split; [reflexivity |]. cbn [f_div_rclk dclk_mode].
  assert (Hu : u8 mode = mode) by (destruct Hmode as [-> | ->]; reflexivity).
  rewrite Hu. auto.
Qed.

(** X9.  For a PFD frequency up to 500 MHz the two timeouts and the VCO
    band divider are the exact ceilings of the quotients: the [uint16_t]
    locals truncate nothing, and the band divider fits the byte written to
    register 0x26.  From 800 kHz of calibration clock on, the ADC clock
    divider is the exact ceiling of [(f_div_rclk / 400000 - 2) / 4]. *)
Theorem calib_timeouts_exact (f_pfd : Z) :
  0 <= f_pfd <= 500000000 ->
  exists c,
    calib_clock h f_pfd = Some c
    /\ (let f := f_div_rclk c in
        let y := 150000 * 16 * 2 ^ dclk_mode c in
        (synth_lock_timeout c - 1) * 50000 < f <= synth_lock_timeout c * 50000
        /\ (vco_alc_timeout c - 1) * 20000 < f <= vco_alc_timeout c * 20000
        /\ (vco_band_div c - 1) * y < f <= vco_band_div c * y
        /\ 0 <= vco_band_div c < 256
        /\ (800000 <= f ->
            (adc_clk_div c - 1) * 4 < f / 400000 - 2 <= adc_clk_div c * 4
            /\ 0 <= adc_clk_div c < 256)).
Proof.
  intro Hf.
  destruct (dclk_select_cases f_pfd Hf)
    as (d1 & d2 & mode & f & Hsel & Hmode & Hfr & Hoff & Hdiv & _).
  unfold calib_clock. rewrite Hsel.
  destruct (calib_ceiling f 50000) as (q1 & -> & Hc1 & _ & Hu1); try lia.
  destruct (calib_ceiling f 20000) as (q2 & -> & Hc2 & _ & Hu2); try lia.
  assert (Hu : u8 mode = mode) by (destruct Hmode as [-> | ->]; reflexivity).
  rewrite Hu.
  assert (Hb : band_divisor mode = Some (150000 * 16 * 2 ^ mode)
               /\ 2400000 <= 150000 * 16 * 2 ^ mode <= 4800000).
  { destruct Hmode as [-> | ->]; split; try reflexivity; cbn; lia. }
  destruct Hb as (-> & Hy).
  destruct (calib_ceiling f (150000 * 16 * 2 ^ mode))
    as (q3 & -> & Hc3 & Hq3 & Hu3); try lia.
  destruct (DIV_ROUND_UP (u32 (f / 400000 - 2)) 4) as [q4 |] eqn:E4.
  2:{ unfold DIV_ROUND_UP in E4. change (u32 4 =? 0) with false in E4.
      discriminate. }
  eexists. split; [reflexivity |].
  cbn [f_div_rclk dclk_mode synth_lock_timeout vco_alc_timeout vco_band_div
       adc_clk_div].
  rewrite Hu1, Hu2, Hu3.
  split; [exact Hc1 |]. split; [exact Hc2 |]. split; [exact Hc3 |].
  split; [nia |].
  intro Hlow.
  assert (Hx : 0 <= f / 400000 - 2 <= 311)
    by (Z.div_mod_to_equations; lia).
  unfold u32 in E4. rewrite (wrap_small 32 (f / 400000 - 2)) in E4
    by (change (2 ^ 32) with 4294967296; lia).
  destruct (DIV_ROUND_UP_is_ceiling (f / 400000 - 2) 4) as (q & Hq & Hc);
    try (change (2 ^ 32) with 4294967296; lia).
  rewrite Hq in E4. injection E4 as <-.
  assert (0 <= q <= 78) by lia.
  unfold u16. rewrite (wrap_small 16 q) by (change (2 ^ 16) with 65536; lia).
  split; [exact Hc | lia].
Qed.

End CalibLimits.

(** A 250 MHz PFD frequency on the sample header: the calibration clock
    runs at 125 MHz, with the doubled clock mode. *)
Lemma calib_clock_limits_witness :
  0 <= 250000000 <= 500000000
  /\ exists c,
       calib_clock Sample.header 250000000 = Some c
       /\ 0 <= f_div_rclk c <= 125000000
       /\ (dclk_mode c = 0 \/ dclk_mode c = 1)
       /\ (dclk_mode c = 0 -> f_div_rclk c <= 80000000)
       /\ (f_div_rclk c = 250000000 \/ f_div_rclk c = 250000000 / 2
           \/ f_div_rclk c = 250000000 / 4).
Proof.
  assert (H : 0 <= 250000000 <= 500000000) by lia.
  split; [exact H |].
  apply (calib_clock_limits Sample.header); try reflexivity. exact H.
Defined.

(** A 100 MHz PFD frequency on the sample header. *)
Lemma calib_timeouts_exact_witness :
  0 <= 100000000 <= 500000000
  /\ exists c,
       calib_clock Sample.header 100000000 = Some c
       /\ (let f := f_div_rclk c in
           let y := 150000 * 16 * 2 ^ dclk_mode c in
           (synth_lock_timeout c - 1) * 50000 < f
             <= synth_lock_timeout c * 50000
           /\ (vco_alc_timeout c - 1) * 20000 < f
                <= vco_alc_timeout c * 20000
           /\ (vco_band_div c - 1) * y < f <= vco_band_div c * y
           /\ 0 <= vco_band_div c < 256
           /\ (800000 <= f ->
               (adc_clk_div c - 1) * 4 < f / 400000 - 2 <= adc_clk_div c * 4
               /\ 0 <= adc_clk_div c < 256)).
Proof.
  assert (H : 0 <= 100000000 <= 500000000) by lia.
  split; [exact H |].
  apply (calib_timeouts_exact Sample.header); try reflexivity. exact H.
Defined.

(** ** Setup and the handle *)

Section KeepsConfig.

Context (h : Header) (P : platform).

Lemma keeps_config_Return {A : Type} (a : A) : keeps_config (Return a).
Proof. intros w o w' E. injection E as <- <-. reflexivity. Qed.

Lemma keeps_config_spin {A : Type} : keeps_config (@spin A).
Proof. intros w o w' E. injection E as <- <-. reflexivity. Qed.

Lemma keeps_config_fault {A : Type} : keeps_config (@fault A).
Proof. intros w o w' E. injection E as <- <-. reflexivity. Qed.

Lemma keeps_config_get_dev : keeps_config get_dev.
Proof. intros w o w' E. injection E as <- <-. reflexivity. Qed.

Lemma keeps_config_modify_dev (f : adf4377_dev -> adf4377_dev) :
  (forall d, config (f d) = config d) -> keeps_config (modify_dev f).
Proof. intros Hf w o w' E. injection E as <- <-. apply Hf. Qed.

Lemma keeps_config_bind {A B : Type} (m : M A) (k : A -> M B) :
  keeps_config m -> (forall a, keeps_config (k a)) -> keeps_config (bind m k).
Proof.
  intros Hm Hk w o w' E. unfold bind in E.
  destruct (m w) as [o1 w1] eqn:E1. pose proof (Hm w o1 w1 E1) as H1.
  destruct o1 as [a | |].
  - rewrite (Hk a w1 o w' E). exact H1.
  - injection E as <- <-. exact H1.
  - injection E as <- <-. exact H1.
Qed.

Lemma keeps_config_platform_call (c : call) : keeps_config (platform_call P c).
Proof. intros w o w' E. injection E as <- <-. reflexivity. Qed.

Lemma keeps_config_spi_write_and_read (buff : frame) :
  keeps_config (spi_write_and_read P buff).
Proof. intros w o w' E. injection E as <- <-. reflexivity. Qed.

(** Walks through a body built from the monad operations. *)
Ltac keeps_config_step :=
  first
    [ apply keeps_config_Return | apply keeps_config_spin
    | apply keeps_config_fault | apply keeps_config_get_dev
    | apply keeps_config_spi_write_and_read | apply keeps_config_platform_call
    | apply keeps_config_modify_dev; intro; reflexivity
    | assumption
    | apply keeps_config_bind; [| intros ?]
    | match goal with
      | |- keeps_config (if ?b then _ else _) => destruct b
      | |- keeps_config (match ?x with _ => _ end) => destruct x
      end ].

Lemma keeps_config_spi_write (reg_addr data : Z) :
  keeps_config (adf4377_spi_write h P reg_addr data).
Proof. unfold adf4377_spi_write. repeat keeps_config_step. Qed.

Lemma keeps_config_spi_read (reg_addr : Z) (data : option Z) :
  keeps_config (adf4377_spi_read h P reg_addr data).
Proof. unfold adf4377_spi_read. repeat keeps_config_step. Qed.

Lemma keeps_config_update (reg_addr mask data : Z) :
  keeps_config (adf4377_update h P reg_addr mask data).
Proof.
  unfold adf4377_update.
  repeat first [apply keeps_config_spi_read | apply keeps_config_spi_write
               | keeps_config_step].
Qed.

Lemma keeps_config_soft_reset_poll (fuel : nat) (timeout : Z) :
  forall data, keeps_config (soft_reset_poll h P fuel timeout data).
Proof.
  induction fuel as [| fuel IH]; intro data; cbn [soft_reset_poll];
    repeat first [apply keeps_config_spi_read | apply IH | keeps_config_step].
Qed.

Lemma keeps_config_vco_loop (fuel : nat) : keeps_config (vco_loop h fuel).
Proof.
  induction fuel as [| fuel IH]; cbn [vco_loop]; repeat keeps_config_step.
Qed.

Lemma keeps_config_pfd_loop (fuel : nat) : keeps_config (pfd_loop h fuel).
Proof.
  induction fuel as [| fuel IH]; cbn [pfd_loop]; repeat keeps_config_step.
Qed.

Lemma keeps_config_setup (fuel : nat) : keeps_config (adf4377_setup h P fuel).
Proof.
  unfold adf4377_setup, adf4377_soft_reset, adf4377_check_scratchpad,
    adf4377_set_default, compute_pfd, adf4377_set_freq, vco_solve, program_freq.
  repeat first
    [ apply keeps_config_update | apply keeps_config_spi_write
    | apply keeps_config_spi_read | apply keeps_config_soft_reset_poll
    | apply keeps_config_vco_loop | apply keeps_config_pfd_loop
    | keeps_config_step ].
Qed.

(** X11.  Whatever [adf4377_setup] does, and whether it returns or not, it
    leaves the members of the handle that the caller and [adf4377_init]
    set as they are: the descriptors, [spi3wire], [clkin_freq], [cp_i],
    [muxout_default], [ref_doubler_en], [f_clk] and [clkout_op].  Only the
    solver outputs change. *)
Theorem setup_keeps_the_configuration (fuel : nat) (w w' : world)
                                      (o : outcome Z) :
  adf4377_setup h P fuel w = (o, w') ->
  spi_desc (dev w') = spi_desc (dev w)
  /\ gpio_ce (dev w') = gpio_ce (dev w)
  /\ gpio_enclk1 (dev w') = gpio_enclk1 (dev w)
  /\ gpio_enclk2 (dev w') = gpio_enclk2 (dev w)
  /\ spi3wire (dev w') = spi3wire (dev w)
  /\ clkin_freq (dev w') = clkin_freq (dev w)
  /\ cp_i (dev w') = cp_i (dev w)
  /\ muxout_default (dev w') = muxout_default (dev w)
  /\ ref_doubler_en (dev w') = ref_doubler_en (dev w)
  /\ f_clk (dev w') = f_clk (dev w)
  /\ clkout_op (dev w') = clkout_op (dev w).
Proof.
  intro E. pose proof (keeps_config_setup fuel w o w' E) as H.
  unfold config in H. injection H as -> -> -> -> -> -> -> -> -> -> ->.
  repeat split.
Qed.

(** X10.  [adf4377_setup], with everything it calls, reaches the platform
    only through SPI transfers and the delay: whatever it does, it
    acquires and releases nothing. *)
Theorem setup_only_uses_the_bus (fuel : nat) (w w' : world) (o : outcome Z) :
  adf4377_setup h P fuel w = (o, w') ->
  exists t,
    log w' = rev t ++ log w
    /\ forallb is_bus t = true
    /\ acquired h t = []
    /\ released t = [].
Proof.
  intro E. destruct (bus_only_setup h P fuel w o w' E) as (t & Hlog & Hbus).
  exists (rev t). rewrite rev_involutive.
  assert (Hrev : forallb is_bus (rev t) = true).
  { apply forallb_forall. intros e He. apply in_rev in He.
    rewrite forallb_forall in Hbus. auto. }
  auto using acquired_bus, released_bus.
Qed.

End KeepsConfig.

Lemma setup_keeps_the_configuration_witness :
  let r := adf4377_setup Sample.header Sample.good_board 4 Sample.w0 in
  adf4377_setup Sample.header Sample.good_board 4 Sample.w0 = (fst r, snd r)
  /\ clkin_freq (dev (snd r)) = 100000000
  /\ f_clk (dev (snd r)) = 1000000000.
Proof.
  intro r.
  assert (E : adf4377_setup Sample.header Sample.good_board 4 Sample.w0
              = (fst r, snd r)) by (vm_compute; reflexivity).
  split; [exact E |].
  destruct (setup_keeps_the_configuration Sample.header Sample.good_board 4
              Sample.w0 (snd r) (fst r) E)
    as (_ & _ & _ & _ & _ & Hc & _ & _ & _ & Hf & _).
  split; [exact Hc | exact Hf].
Defined.

Lemma setup_only_uses_the_bus_witness :
  let r := adf4377_setup Sample.header Sample.good_board 4 Sample.w0 in
  adf4377_setup Sample.header Sample.good_board 4 Sample.w0 = (fst r, snd r)
  /\ exists t,
       log (snd r) = rev t ++ log Sample.w0
       /\ forallb is_bus t = true
       /\ acquired Sample.header t = []
       /\ released t = [].
Proof.
  intro r.
  assert (E : adf4377_setup Sample.header Sample.good_board 4 Sample.w0
              = (fst r, snd r)) by (vm_compute; reflexivity).
  split; [exact E |].
  exact (setup_only_uses_the_bus Sample.header Sample.good_board 4
           Sample.w0 (snd r) (fst r) E).
Defined.

(** ** Init: the handle it returns, and remove after it *)

Section InitSuccess.

Context (h : Header) (P : platform).

(** The handle as [adf4377_init] has filled it when it calls
    [adf4377_setup]. *)
Lemma init_success (fuel : nat) (device device' : option adf4377_dev)
                   (ip : init_param.t) (w w' : world) (ret : Z) :
  call_ret P (log w) Calloc <> 0 ->
  adf4377_init h P fuel device ip w = (Done (ret, device'), w') ->
  ret = cst h SUCCESS ->
  exists w7,
    adf4377_setup h P fuel w7 = (Done ret, w')
    /\ dev w7
       = set_spi_desc (spi_desc_of (init_param.spi_init ip))
           (set_gpio_enclk2 (init_param.gpio_enclk2_param ip)
              (set_gpio_enclk1 (init_param.gpio_enclk1_param ip)
                 (set_gpio_ce (init_param.gpio_ce_param ip)
                    (copy_params h ip zero_dev))))
    /\ acquired h (rev (log w7))
       = acquired h (rev (log w))
         ++ [Mem; Gpio GPIO_CE; Gpio GPIO_ENCLK1; Gpio GPIO_ENCLK2; Spi]
    /\ released (rev (log w7)) = released (rev (log w))
    /\ (exists t7, log w7 = t7 ++ log w)
    /\ device' = Some (dev w').
Proof.
  destruct w as [d lg]. cbn [log]. intros Hcalloc Hrun Hret.
  apply Z.eqb_neq in Hcalloc.
  unfold adf4377_init, error_spi, error_gpio_enclk2, error_gpio_enclk1,
    error_gpio_ce, error_dev in Hrun.
  unfold bind, platform_call, modify_dev, get_dev, Return in Hrun.
  cbn [dev log] in Hrun. rewrite Hcalloc in Hrun.
  cbv beta iota in Hrun. cbn [dev log] in Hrun.
  do 7
    (match type of Hrun with
     | context [if negb (?r =? cst h SUCCESS) then _ else _] =>
         let E := fresh "E" in
         destruct (Z.eqb_spec r (cst h SUCCESS)) as [E | E];
         cbn [negb] in Hrun; cbv beta iota in Hrun; cbn [dev log] in Hrun;
         [ rewrite ?E in Hrun
         | injection Hrun as Hr _ _; rewrite Hr in E; contradiction ]
     end).
  match type of Hrun with
  | context [adf4377_setup h P fuel ?w7] =>
      exists w7; destruct (adf4377_setup h P fuel w7) as [o w8] eqn:Es
  end.
  destruct o as [r | |]; try discriminate.
  destruct (Z.eqb_spec r (cst h SUCCESS)) as [Er | Er];
    cbn [negb] in Hrun; cbv beta iota in Hrun; cbn [dev log] in Hrun.
  - injection Hrun as <- <- <-. split; [reflexivity |].
    split; [reflexivity |]. cbn [log dev].
    unfold acquired, released. cbn [rev]. rewrite !omap_app.
    cbn [omap acquires releases]. rewrite Hcalloc, !Z.eqb_refl.
    rewrite <- !app_assoc. cbn [app]. rewrite !app_nil_r.
    split; [reflexivity |]. split; [reflexivity |].
    split; [eexists (_ :: _ :: _ :: _ :: _ :: _ :: _ :: [_]); reflexivity |].
    reflexivity.
  - injection Hrun as Hr _ _. rewrite Hr in Er. contradiction.
Qed.

(** X12.  The handle a successful [adf4377_init] returns is the one
    [adf4377_setup] left, and it carries the parameters: the SPI bit
    order, the three GPIO descriptors, [spi3wire], the reference and
    output frequencies (as the members hold them), the charge-pump
    current, the mux selection, the doubler flag and the output
    amplitude. *)
Theorem init_handle_carries_params (fuel : nat)
    (device : option adf4377_dev) (ip : init_param.t) (w w' : world)
    (ret : Z) (d : adf4377_dev) :
  call_ret P (log w) Calloc <> 0 ->
  adf4377_init h P fuel device ip w = (Done (ret, Some d), w') ->
  ret = cst h SUCCESS ->
  d = dev w'
  /\ bit_order (spi_desc d) = init_param.bit_order (init_param.spi_init ip)
  /\ gpio_ce d = init_param.gpio_ce_param ip
  /\ gpio_enclk1 d = init_param.gpio_enclk1_param ip
  /\ gpio_enclk2 d = init_param.gpio_enclk2_param ip
  /\ spi3wire d = init_param.spi3wire ip
  /\ clkin_freq d = wrap (bits_clkin_freq h) (init_param.clkin_freq ip)
  /\ cp_i d = init_param.cp_i ip
  /\ muxout_default d = init_param.muxout_select ip
  /\ ref_doubler_en d = init_param.ref_doubler_en ip
  /\ f_clk d = wrap (bits_f_clk h) (init_param.f_clk ip)
  /\ clkout_op d = init_param.clkout_op ip.
Proof.
  intros Hcalloc Hrun Hret.
  destruct (init_success fuel device (Some d) ip w w' ret Hcalloc Hrun Hret)
    as (w7 & Hsetup & Hdev & _ & _ & _ & Hd).
  injection Hd as ->. split; [reflexivity |].
  pose proof (keeps_config_setup h P fuel w7 _ w' Hsetup) as Hc.
  rewrite Hdev in Hc. unfold config in Hc. cbn in Hc.
  injection Hc as -> -> -> -> -> -> -> -> -> -> ->.
  repeat split.
Qed.

(** The calls of a successful [adf4377_remove]. *)
Lemma remove_success (w w' : world) (ret : Z) :
  adf4377_remove h P w = (Done ret, w') ->
  ret = cst h SUCCESS ->
  exists t,
    log w' = rev t ++ log w
    /\ map fst t = remove_calls ++ [Free].
Proof.
  intros Hrun Hret.
  unfold adf4377_remove, bind, platform_call, Return in Hrun.
  cbn [dev log] in Hrun.
  do 4
    (match type of Hrun with
     | context [if negb (?r =? cst h SUCCESS) then _ else _] =>
         let E := fresh "E" in
         destruct (Z.eqb_spec r (cst h SUCCESS)) as [E | E];
         cbn [negb] in Hrun; cbv beta iota in Hrun; cbn [dev log] in Hrun;
         [| injection Hrun as Hr _; rewrite Hr in E; contradiction ]
     end).
  injection Hrun as _ <-. cbn [log].
  eexists (rev (_ :: _ :: _ :: _ :: [_])). rewrite rev_involutive.
  split; reflexivity.
Qed.

(** X4.  After a successful [adf4377_init], a successful [adf4377_remove]
    releases each resource the init acquired exactly once: the SPI bus
    first, then the three GPIO lines in the order they were acquired, the
    handle memory last. *)
Theorem init_then_remove_releases_all (fuel : nat)
    (device device' : option adf4377_dev) (ip : init_param.t)
    (w w1 w2 : world) :
  call_ret P (log w) Calloc <> 0 ->
  adf4377_init h P fuel device ip w = (Done (cst h SUCCESS, device'), w1) ->
  adf4377_remove h P w1 = (Done (cst h SUCCESS), w2) ->
  exists t_init t_remove,
    log w1 = rev t_init ++ log w
    /\ log w2 = rev t_remove ++ log w1
    /\ acquired h t_init
       = [Mem; Gpio GPIO_CE; Gpio GPIO_ENCLK1; Gpio GPIO_ENCLK2; Spi]
    /\ released t_init = []
    /\ acquired h t_remove = []
    /\ released t_remove
       = [Spi; Gpio GPIO_CE; Gpio GPIO_ENCLK1; Gpio GPIO_ENCLK2; Mem]
    /\ Permutation (released t_remove) (acquired h t_init).
Proof.
  intros Hcalloc Hinit Hremove.
  destruct (init_success fuel device device' ip w w1 _ Hcalloc Hinit eq_refl)
    as (w7 & Hsetup & _ & Hacq & Hrel & (t7 & Ht7) & _).
  destruct (bus_only_setup h P fuel w7 _ w1 Hsetup) as (ts & Hts & Hbus).
  destruct (remove_success w1 w2 _ Hremove eq_refl) as (tr & Htr & Hcalls).
  exists (rev (ts ++ t7)), tr.
  rewrite rev_involutive.
  assert (Hsplit : forall f : entry -> option resource,
            omap f (rev (log w7)) = omap f (rev (log w)) ++ omap f (rev t7)).
  { intro f. rewrite Ht7, rev_app_distr. apply omap_app. }
  assert (Ha7 : acquired h (rev t7)
                = [Mem; Gpio GPIO_CE; Gpio GPIO_ENCLK1; Gpio GPIO_ENCLK2; Spi]).
  { unfold acquired in *. rewrite Hsplit in Hacq.
    apply app_inv_head in Hacq. exact Hacq. }
  assert (Hr7 : released (rev t7) = []).
  { unfold released in *. rewrite Hsplit in Hrel.
    apply (app_inv_head (omap releases (rev (log w)))).
    rewrite app_nil_r. exact Hrel. }
  assert (Hbr : forallb is_bus (rev ts) = true).
  { apply forallb_forall. intros e He. apply in_rev in He.
    rewrite forallb_forall in Hbus. auto. }
  assert (Hrem : released tr
                 = [Spi; Gpio GPIO_CE; Gpio GPIO_ENCLK1; Gpio GPIO_ENCLK2; Mem]
                 /\ acquired h tr = []).
  { unfold remove_calls in Hcalls. cbn [app] in Hcalls.
    destruct tr as [| [c1 r1] [| [c2 r2] [| [c3 r3] [| [c4 r4] [| [c5 r5] [| ? ?]]]]]];
      try discriminate.
    cbn in Hcalls. injection Hcalls as -> -> -> -> ->. split; reflexivity. }
  destruct Hrem as [Hrel_r Hacq_r].
  split; [rewrite Hts, Ht7; apply app_assoc |].
  split; [exact Htr |].
  unfold acquired, released in *.
  rewrite !rev_app_distr, !omap_app.
  fold (acquired h (rev ts)). fold (released (rev ts)).
  rewrite (acquired_bus h _ Hbr), (released_bus _ Hbr), !app_nil_r.
  rewrite Ha7, Hr7, Hrel_r, Hacq_r.
  repeat (split; [reflexivity |]).
  apply (Permutation_cons_app
           [Mem; Gpio GPIO_CE; Gpio GPIO_ENCLK1; Gpio GPIO_ENCLK2] []).
  cbn [app]. apply Permutation_sym.
  apply (Permutation_cons_app
           [Gpio GPIO_CE; Gpio GPIO_ENCLK1; Gpio GPIO_ENCLK2] []).
  apply Permutation_refl.
Qed.

End InitSuccess.

(** The sample parameters on a healthy board. *)
Lemma init_handle_carries_params_witness :
  let r := adf4377_init Sample.header Sample.good_board 64 None Sample.params
             (World zero_dev []) in
  exists d,
    fst r = Done (0, Some d)
    /\ d = dev (snd r)
    /\ gpio_ce d = Some 10
    /\ clkin_freq d = 100000000
    /\ f_clk d = 1000000000
    /\ clkout_op d = 1.
Proof.
  intro r.
  assert (E : r = (Done (0, Some (dev (snd r))), snd r))
    by (vm_compute; reflexivity).
  assert (Hc : call_ret Sample.good_board (log (World zero_dev [])) Calloc <> 0)
    by (vm_compute; discriminate).
  destruct (init_handle_carries_params Sample.header Sample.good_board 64 None
              Sample.params (World zero_dev []) (snd r) 0 (dev (snd r))
              Hc E eq_refl)
    as (_ & _ & Hce & _ & _ & _ & Hclkin & _ & _ & _ & Hfclk & Hop).
  exists (dev (snd r)). rewrite E at 1.
  repeat split; assumption.
Defined.

(** Init on a healthy board with the sample parameters, then remove. *)
Lemma init_then_remove_releases_all_witness :
  let w := World zero_dev [] in
  let r1 := adf4377_init Sample.header Sample.good_board 64 None
              Sample.params w in
  let r2 := adf4377_remove Sample.header Sample.good_board (snd r1) in
  exists t_init t_remove,
    log (snd r1) = rev t_init ++ log w
    /\ log (snd r2) = rev t_remove ++ log (snd r1)
    /\ acquired Sample.header t_init
       = [Mem; Gpio GPIO_CE; Gpio GPIO_ENCLK1; Gpio GPIO_ENCLK2; Spi]
    /\ released t_init = []
    /\ acquired Sample.header t_remove = []
    /\ released t_remove
       = [Spi; Gpio GPIO_CE; Gpio GPIO_ENCLK1; Gpio GPIO_ENCLK2; Mem]
    /\ Permutation (released t_remove) (acquired Sample.header t_init).
Proof.
  intros w r1 r2.
  assert (E1 : r1 = (Done (0, Some (dev (snd r1))), snd r1))
    by (vm_compute; reflexivity).
  assert (E2 : r2 = (Done 0, snd r2)) by (vm_compute; reflexivity).
  assert (Hc : call_ret Sample.good_board (log w) Calloc <> 0)
    by (vm_compute; discriminate).
  exact (init_then_remove_releases_all Sample.header Sample.good_board 64
           None (Some (dev (snd r1))) Sample.params w (snd r1) (snd r2)
           Hc E1 E2).
Defined.
